(** * Err chat-bot: room relay, test backend, identifiers and the reply pipeline

    A shallow embedding of the parts of the bot that the specification talks
    about:

    - [errbot/backends/test.py]   : the in-memory test backend ([TestBackend]);
    - [errbot/core_plugins/chatRoom.py] : the current chat-room plugin
      ([CorePlugins]);
    - [errbot/builtins/chatRoom.py] : the first version of the same plugin
      ([Builtins]);
    - the [Identifier] and the execution pipeline of the backend base class,
      which are described by the specification and exercised by
      [tests/base_backend_tests.py].

    Python code that mutates state and raises is written in a small
    state-and-exception monad in which the state survives a raise, as it does
    in Python. *)

From stdpp Require Import gmap strings list fin_maps.
From Stdlib Require Import Ascii Lia.

Local Open Scope stdpp_scope.

(** ** Python runtime: exceptions, results, the state-and-exception monad *)

Module Py.

(** The exceptions the modelled code raises or catches.  Every one of them
    is a subclass of Python's [Exception], so [except Exception] catches
    them all. *)
Inductive exn : Type :=
| NotImplementedError
| SlackAPIResponseError (error : string)
| TypeError (msg : string)
| AttributeError (attr : string)
| KeyError (key : string)
| IndexError (msg : string)
| Exception (msg : string).

#[global] Instance exn_eq_dec : EqDecision exn.
Proof. solve_decision. Defined.

(** [str(e)] *)
Definition str_exn (e : exn) : string :=
  match e with
  | NotImplementedError => ""
  | SlackAPIResponseError error => error
  | TypeError msg => msg
  | AttributeError attr => attr
  | KeyError key => key
  | IndexError msg => msg
  | Exception msg => msg
  end.

Inductive result (A : Type) : Type :=
| Ok (a : A)
| Raise (e : exn).
Arguments Ok {A} a.
Arguments Raise {A} e.

(** A computation over a world [W]: it always hands back a world, also when
    it raises. *)
Definition M (W A : Type) : Type := W → result A * W.

Definition ret {W A} (a : A) : M W A := λ w, (Ok a, w).

Definition bind {W A B} (m : M W A) (k : A → M W B) : M W B :=
  λ w, match m w with
       | (Ok a, w') => k a w'
       | (Raise e, w') => (Raise e, w')
       end.

Definition raise {W A} (e : exn) : M W A := λ w, (Raise e, w).

(** [try: m  except Exception as e: h e] *)
Definition try_except {W A} (m : M W A) (h : exn → M W A) : M W A :=
  λ w, match m w with
       | (Ok a, w') => (Ok a, w')
       | (Raise e, w') => h e w'
       end.

(** A result computed without touching the world. *)
Definition lift {W A} (r : result A) : M W A := λ w, (r, w).

Definition modify {W} (f : W → W) : M W unit := λ w, (Ok tt, f w).
Definition gets {W A} (f : W → A) : M W A := λ w, (Ok (f w), w).

(** [for x in xs: body x] *)
Fixpoint for_each {W A} (xs : list A) (body : A → M W unit) : M W unit :=
  match xs with
  | [] => ret tt
  | x :: rest => bind (body x) (λ _, for_each rest body)
  end.

(** A Python sequence taken from the configuration: the code iterates over
    it, and formats it with [%]. *)
Inductive pyseq : Type :=
| PyTuple (items : list string)
| PyList (items : list string).

Definition items (s : pyseq) : list string :=
  match s with PyTuple l | PyList l => l end.

(** What a log call was given: the arguments are kept as values, not
    rendered. *)
Inductive log_arg : Type :=
| Str (s : string)
| StrOfSeq (s : pyseq)
| StrOfExn (e : exn)
| ReprOfStr (s : string)
| ReprOfSeq (s : pyseq).

Inductive log_level : Type := DEBUG | INFO | WARNING | ERROR.

(** [exc_info] is set by [logging.exception]. *)
Record log_record : Type := LogRecord {
  level : log_level;
  fmt : string;
  args : list log_arg;
  exc_info : bool
}.

(** ['...%s...' % x] with one conversion in the format.  A tuple on the
    right of [%] is the argument list itself, so it must have exactly one
    element; any other value is the single argument. *)
Definition percent_seq (s : pyseq) : result log_arg :=
  match s with
  | PyTuple [x] => Ok (Str x)
  | PyTuple [] => Raise (TypeError "not enough arguments for format string")
  | PyTuple (_ :: _ :: _) =>
      Raise (TypeError "not all arguments converted during string formatting")
  | PyList _ => Ok (StrOfSeq s)
  end.

(** [s.split(' ', 1)]: at most one split, at the first space. *)
Fixpoint split_space_1 (s : string) : list string :=
  match s with
  | "" => [""]
  | String c rest =>
      if Ascii.eqb c " "%char then [""; rest]
      else match split_space_1 rest with
           | [] => []
           | hd :: tl => String c hd :: tl
           end
  end.

End Py.

Import Py.

(** stdpp's monad notations ([x ← m; k] and [m;; k]) for [M W]. *)
#[global] Instance M_ret {W} : MRet (M W) := λ A, @Py.ret W A.
#[global] Instance M_bind {W} : MBind (M W) := λ A B k m, Py.bind m k.

(** ** errbot/backends/test.py *)

Module TestBackend.

(** [class MUCRoom]: [jid], [_occupants], [_topic]. *)
Record MUCRoom : Type := mkMUCRoom {
  jid : string;
  _occupants : list string;
  _topic : option string
}.

(** The module-level [joined_rooms] dict and the log. *)
Record world : Type := mkWorld {
  joined_rooms : gmap string MUCRoom;
  log : list log_record
}.

Definition logging (lvl : log_level) (f : string) (a : list log_arg) : M world unit :=
  modify (λ w, mkWorld (joined_rooms w) (log w ++ [LogRecord lvl f a false])).

(** [d[key]] on a configuration dict. *)
Definition getitem (d : gmap string string) (key : string) : M world string :=
  match d !! key with
  | Some v => mret v
  | None => raise (KeyError key)
  end.

(** [TestBackend.join_room]; [BOT_IDENTITY] is [config.BOT_IDENTITY]. *)
Definition join_room (BOT_IDENTITY : gmap string string)
    (room : string) (username password : option string) : M world unit :=
  rooms ← gets joined_rooms;
  match rooms !! room with
  | Some _ =>
      logging WARNING "Attempted to join room '{0}', but already in this room" [Str room]
  | None =>
      bot_itself ← getitem BOT_IDENTITY "username";
      modify (λ w, mkWorld
                     (<[room := mkMUCRoom room [bot_itself] None]> (joined_rooms w))
                     (log w))
  end.

(** [joined_rooms.pop(room)] *)
Definition pop (room : string) : M world MUCRoom :=
  rooms ← gets joined_rooms;
  match rooms !! room with
  | Some r => modify (λ w, mkWorld (delete room (joined_rooms w)) (log w));; mret r
  | None => raise (KeyError room)
  end.

(** [TestBackend.leave_room] *)
Definition leave_room (room : string) : M world unit :=
  try_except
    (pop room;; logging INFO "Left room {0}" [Str room])
    (λ e, match e with
          | KeyError _ =>
              logging WARNING "Attempted to leave room '{0}', but not in this room" [Str room]
          | _ => raise e
          end).

(** [config-template.py]: [BOT_IDENTITY]. *)
Definition template_BOT_IDENTITY : gmap string string :=
  <["username" := "err@localhost"]> (<["password" := "err"]> ∅).

End TestBackend.

(** ** Text helpers *)

Module Text.

(** The first [n] characters of [s], and what follows them. *)
Fixpoint take (n : nat) (s : string) : string :=
  match n, s with
  | S n', String c rest => String c (take n' rest)
  | _, _ => ""
  end.

Fixpoint drop (n : nat) (s : string) : string :=
  match n, s with
  | S n', String _ rest => drop n' rest
  | _, _ => s
  end.

(** The character at index [i], when there is one. *)
Fixpoint get (i : nat) (s : string) : option ascii :=
  match s, i with
  | "", _ => None
  | String c _, 0 => Some c
  | String _ rest, S i' => get i' rest
  end.

(** [split_first c s]: around the first [c] of [s]. *)
Fixpoint split_first (c : ascii) (s : string) : option (string * string) :=
  match s with
  | "" => None
  | String a rest =>
      if Ascii.eqb a c then Some ("", rest)
      else match split_first c rest with
           | Some (before, after) => Some (String a before, after)
           | None => None
           end
  end.

(** [split_last c s]: around the last [c] of [s]. *)
Fixpoint split_last (c : ascii) (s : string) : option (string * string) :=
  match s with
  | "" => None
  | String a rest =>
      match split_last c rest with
      | Some (before, after) => Some (String a before, after)
      | None => if Ascii.eqb a c then Some ("", rest) else None
      end
  end.

(** [c] occurs in [s]. *)
Fixpoint mem (c : ascii) (s : string) : bool :=
  match s with
  | "" => false
  | String a rest => Ascii.eqb a c || mem c rest
  end.

(** [sub in s] *)
Definition contains (sub s : string) : Prop :=
  ∃ before after, s = before +:+ sub +:+ after.

(** The strings of a list, joined end to end. *)
Fixpoint join (l : list string) : string :=
  match l with
  | [] => ""
  | x :: rest => x +:+ join rest
  end.

End Text.

(** ** What the chat-room plugin sees of the bot: configuration and backend *)

Module Bot.

(** An entry of [CHATROOM_PRESENCE]: a room name, or a (room, password)
    pair. *)
Inductive presence_entry : Type :=
| RoomName (room : string)
| RoomWithPassword (room password : string).

(** The configuration values the plugin reads. *)
Record config : Type := mkConfig {
  CHATROOM_PRESENCE : list presence_entry;
  CHATROOM_FN : string;
  CHATROOM_RELAY : gmap string pyseq;
  REVERSE_CHATROOM_RELAY : gmap string pyseq;
  HIPCHAT_MODE : bool
}.

(** The calls the plugin makes on the backend, in the order it makes them. *)
Inductive backend_call : Type :=
| Send (target body message_type : string)
| QueryRoomJoin (room username : string) (password : option string)
| JoinRoom (room username : string) (password : option string)
| BareSendPresence
| TimerStart (seconds : nat).

(** The backend is external: for each call it either returns or raises. *)
Record backend : Type := mkBackend {
  send_raises : string → string → string → option exn;
  query_room_join_raises : string → option exn;
  join_room_raises : string → option exn;
  bare_send_raises : option exn
}.

(** [ChatRoom.connected], the trace of backend calls, the log. *)
Record world : Type := mkWorld {
  connected : bool;
  calls : list backend_call;
  log : list log_record
}.

Definition set_connected (b : bool) : M world unit :=
  modify (λ w, mkWorld b (calls w) (log w)).

Definition logging (lvl : log_level) (f : string) (a : list log_arg) : M world unit :=
  modify (λ w, mkWorld (connected w) (calls w) (log w ++ [LogRecord lvl f a false])).

(** [log.exception(...)]: level ERROR, with the traceback. *)
Definition log_exception (f : string) (a : list log_arg) : M world unit :=
  modify (λ w, mkWorld (connected w) (calls w) (log w ++ [LogRecord ERROR f a true])).

(** A backend call is recorded, then returns or raises as the backend
    decides. *)
Definition call (c : backend_call) (outcome : option exn) : M world unit :=
  modify (λ w, mkWorld (connected w) (calls w ++ [c]) (log w));;
  match outcome with
  | None => mret tt
  | Some e => raise e
  end.

(** [self.send(target, body, message_type=...)] *)
Definition send (be : backend) (target body message_type : string) : M world unit :=
  call (Send target body message_type) (send_raises be target body message_type).

(** [self.query_room(room).join(username=..., password=...)] *)
Definition query_room_join (be : backend) (room username : string)
    (password : option string) : M world unit :=
  call (QueryRoomJoin room username password) (query_room_join_raises be room).

(** [self.join_room(room, username, password)] *)
Definition join_room (be : backend) (room username : string)
    (password : option string) : M world unit :=
  call (JoinRoom room username password) (join_room_raises be room).

(** [repr(room)] of a presence entry, kept as a value. *)
Definition repr (room : presence_entry) : log_arg :=
  match room with
  | RoomName r => ReprOfStr r
  | RoomWithPassword r p => ReprOfSeq (PyTuple [r; p])
  end.

(** The first line [callback_connect] logs. *)
Definition callback_connect_line : log_record :=
  LogRecord INFO "Callback_connect" [] false.

(** A computation that leaves [connected] as it found it. *)
Definition keeps_connected {A} (m : M world A) : Prop :=
  ∀ w, connected (snd (m w)) = connected w.

(** The calls of a fan-out of [body] to [targets], in order. *)
Definition fanout (targets : list string) (body message_type : string) : list backend_call :=
  (λ t, Send t body message_type) <$> targets.

(** The log records of [callback_message]. *)
Definition relay_from (username : string) : log_record :=
  LogRecord DEBUG "Message to relay from %s." [Str username] false.
Definition relay_to (a : log_arg) : log_record :=
  LogRecord DEBUG "Message to relay to %s." [a] false.
Definition crashed (e : exn) : log_record :=
  LogRecord ERROR "crashed in callback_message %s" [StrOfExn e] true.

(** The backend on which nothing ever fails. *)
Definition reliable : backend :=
  mkBackend (λ _ _ _, None) (λ _, None) (λ _, None) None.

Definition initial : world := mkWorld false [] [].

End Bot.

(** ** errbot/core_plugins/chatRoom.py *)

Module CorePlugins.
Import Bot.

Definition nl : string := String "010"%char "".

Definition SLACK_USER_IS_BOT_HELPTEXT : string :=
  "Connected to Slack using a bot account, which cannot manage " +:+
  "channels itself (you must invite the bot to channels instead, " +:+
  "it will auto-accept) nor invite people." +:+ nl +:+ nl +:+
  "If you need this functionality, you will have to create a " +:+
  "regular user account and connect Err using that account. " +:+
  "For this, you will also need to generate a user token at " +:+
  "https://api.slack.com/web.".

(** The warning of [callback_connect] when Slack answers [user_is_bot]. *)
Definition ignoring_presence : log_record :=
  LogRecord WARNING
    ("Ignoring entries from CHATROOM_PRESENCE. " +:+ SLACK_USER_IS_BOT_HELPTEXT) [] false.

(** The sender of a message: a plain identifier has [person]; an occupant
    of a room has [person] and [room]. *)
Inductive sender : Type :=
| Person (person : string)
| Occupant (person room : string).

(** [mess.type], [mess.frm], [mess.body] *)
Record Message : Type := mkMessage {
  type : string;
  frm : sender;
  body : string
}.

(** [fr.person] *)
Definition person_of (fr : sender) : string :=
  match fr with Person p | Occupant p _ => p end.

(** [fr.room]: an identifier that is not an occupant has no such
    attribute. *)
Definition room_of (fr : sender) : M world string :=
  match fr with
  | Occupant _ r => mret r
  | Person _ => raise (AttributeError "room")
  end.

(** [room[i]]: of a pair, its room and its password; of a string, its
    character at [i]. *)
Definition getitem (room : presence_entry) (i : nat) : M world string :=
  match room with
  | RoomWithPassword r p =>
      match i with
      | 0 => mret r
      | 1 => mret p
      | _ => raise (IndexError "tuple index out of range")
      end
  | RoomName r =>
      match Text.get i r with
      | Some c => mret (String c "")
      | None => raise (IndexError "string index out of range")
      end
  end.

(** How one turn of a loop ends: go on with the next item, or [return]
    from the enclosing function. *)
Inductive flow : Type := Next | Return.

(** The body of the loop of [callback_connect] for one entry.
    [errbot.utils.compat_str] is not part of the plugin and is a parameter
    here: the loop takes a result that is not [None] as the name of the room,
    and otherwise takes the entry as a (room, password) pair. *)
Definition join_one (compat_str : presence_entry → option string)
    (cfg : config) (be : backend) (room : presence_entry) : M world flow :=
  logging DEBUG "Try to join room %s" [repr room];;
  let room_name := compat_str room in
  '(room, username, password) ←
    match room_name with
    | Some room_name => mret (room_name, CHATROOM_FN cfg, None)
    | None =>
        room0 ← getitem room 0;
        room1 ← getitem room 1;
        mret (room0, CHATROOM_FN cfg, Some room1)
    end;
  logging INFO "Joining room {} with username {}" [Str room; Str username];;
  try_except
    (query_room_join be room (CHATROOM_FN cfg) password;; mret Next)
    (λ e,
       match e with
       | NotImplementedError =>
           logging WARNING
             "query_room not implemented on this backend, using legacy join_room instead" [];;
           join_room be room username password;;
           mret Next
       | SlackAPIResponseError error =>
           if decide (error ≠ "user_is_bot") then raise e
           else
             logging WARNING
               ("Ignoring entries from CHATROOM_PRESENCE. " +:+ SLACK_USER_IS_BOT_HELPTEXT) [];;
             mret Return
       | _ => raise e
       end).

(** [for room in self.bot_config.CHATROOM_PRESENCE: ...] *)
Fixpoint join_presence (compat_str : presence_entry → option string)
    (cfg : config) (be : backend) (rooms : list presence_entry) : M world unit :=
  match rooms with
  | [] => mret tt
  | room :: rest =>
      f ← join_one compat_str cfg be room;
      match f with
      | Next => join_presence compat_str cfg be rest
      | Return => mret tt
      end
  end.

(** [ChatRoom.callback_connect] *)
Definition callback_connect (compat_str : presence_entry → option string)
    (cfg : config) (be : backend) : M world unit :=
  logging INFO "Callback_connect" [];;
  c ← gets connected;
  if negb c then
    set_connected true;;
    join_presence compat_str cfg be (CHATROOM_PRESENCE cfg)
  else mret tt.

(** [ChatRoom.deactivate] (the call to the superclass is outside the
    plugin). *)
Definition deactivate : M world unit := set_connected false.

(** [args[i]] on a list. *)
Definition index (args : list string) (i : nat) : M world string :=
  match args !! i with
  | Some a => mret a
  | None => raise (IndexError "list index out of range")
  end.

(** [ChatRoom.room_join]; the command receives its arguments as one
    string. *)
Definition room_join (cfg : config) (be : backend) (message : Message)
    (args : string) : M world string :=
  let args := split_space_1 args in
  let arglen := length args in
  if arglen <? 1 then mret "Please tell me which chatroom to join."
  else
    (* args[0].strip() : the stripped copy is dropped *)
    a0 ← index args 0;
    '(room, password) ←
      (if arglen =? 1 then mret (a0, None)
       else a1 ← index args 1; mret (a0, Some a1));
    early ←
      try_except
        (query_room_join be room (CHATROOM_FN cfg) password;; mret None)
        (λ e,
           match e with
           | SlackAPIResponseError error =>
               if decide (error ≠ "user_is_bot") then raise e
               else mret (Some ("Unable to join rooms. " +:+ SLACK_USER_IS_BOT_HELPTEXT))
           | _ => raise e
           end);
    match early with
    | Some reply => mret reply
    | None => mret ("Joined the room " +:+ room)
    end.

(** What [room_join] answers, by what the join does. *)
Definition room_join_reply (be : backend) (room : string) : result string :=
  match query_room_join_raises be room with
  | None => Ok ("Joined the room " +:+ room)
  | Some (SlackAPIResponseError error) =>
      if decide (error = "user_is_bot")
      then Ok ("Unable to join rooms. " +:+ SLACK_USER_IS_BOT_HELPTEXT)
      else Raise (SlackAPIResponseError error)
  | Some e => Raise e
  end.

(** Modelled from the spec: the default [message_type] of [BotPlugin.send]
    (errbot/botplugin.py, which the repository does not include); the relay
    back from a room goes out as a direct message. *)
Definition DEFAULT_MESSAGE_TYPE : string := "chat".

(** [ChatRoom.callback_message] *)
Definition callback_message (cfg : config) (be : backend) (mess : Message) : M world unit :=
  try_except
    (let mess_type := type mess in
     if decide (mess_type = "chat") then
       let username := person_of (frm mess) in
       match CHATROOM_RELAY cfg !! username with
       | Some rooms =>
           logging DEBUG "Message to relay from %s." [Str username];;
           let body := body mess in
           for_each (items rooms) (λ room, send be room body "groupchat")
       | None => mret tt
       end
     else if decide (mess_type = "groupchat") then
       let fr := frm mess in
       chat_room ← room_of fr;
       match REVERSE_CHATROOM_RELAY cfg !! chat_room with
       | Some users_to_relay_to =>
           a ← lift (percent_seq users_to_relay_to);
           logging DEBUG "Message to relay to %s." [a];;
           let body := "[" +:+ person_of fr +:+ "] " +:+ body mess in
           for_each (items users_to_relay_to) (λ user, send be user body DEFAULT_MESSAGE_TYPE)
       | None => mret tt
       end
     else mret tt)
    (λ e, log_exception "crashed in callback_message %s" [StrOfExn e]).

End CorePlugins.

(** ** errbot/builtins/chatRoom.py *)

Module Builtins.
Import Bot.

(** [xmpp.JID]: [node], [domain], [resource]. *)
Record JID : Type := mkJID {
  node : string;
  domain : string;
  resource : string
}.

(** [mess.getType()], [mess.getFrom()], [mess.getBody()] *)
Record Message : Type := mkMessage {
  getType : string;
  getFrom : JID;
  getBody : string
}.

(** Modelled from the spec: [errbot.utils.get_jid_from_message], which the
    repository does not include; the key of the relay table is the identity
    of the sender in its bare form, without the resource. *)
Definition get_jid_from_message (mess : Message) : string :=
  node (getFrom mess) +:+ "@" +:+ domain (getFrom mess).

(** One firing of [keep_alive]: the heartbeat, then a daemon [Timer] of
    10 seconds that will fire [keep_alive] again. *)
Definition keep_alive (cfg : config) (be : backend) : M world unit :=
  (if HIPCHAT_MODE cfg then send be "nobody" " " "groupchat"
   else call BareSendPresence (bare_send_raises be));;
  call (TimerStart 10) None.

(** This version uses a presence entry as a string: ['Join room ' + room]
    raises on anything else. *)
Definition as_str (room : presence_entry) : M world string :=
  match room with
  | RoomName r => mret r
  | RoomWithPassword _ _ => raise (TypeError "cannot concatenate 'str' and 'tuple' objects")
  end.

(** The body of the loop of [callback_connect] for one entry. *)
Definition join_one (cfg : config) (be : backend) (room : presence_entry) : M world unit :=
  room ← as_str room;
  logging INFO ("Join room " +:+ room) [];;
  join_room be room (CHATROOM_FN cfg) None.

(** [ChatRoom.callback_connect] *)
Definition callback_connect (cfg : config) (be : backend) : M world unit :=
  logging INFO "Callback_connect" [];;
  c ← gets connected;
  if negb c then
    set_connected true;;
    for_each (CHATROOM_PRESENCE cfg) (join_one cfg be);;
    logging INFO "Start keep alive" [];;
    keep_alive cfg be
  else mret tt.

(** [ChatRoom.callback_message] *)
Definition callback_message (cfg : config) (be : backend) (mess : Message) : M world unit :=
  try_except
    (let mess_type := getType mess in
     if decide (mess_type = "chat") then
       let username := get_jid_from_message mess in
       match CHATROOM_RELAY cfg !! username with
       | Some rooms =>
           logging DEBUG "Message to relay from %s." [Str username];;
           let body := getBody mess in
           for_each (items rooms) (λ room, send be room body "groupchat")
       | None => mret tt
       end
     else if decide (mess_type = "groupchat") then
       let fr := getFrom mess in
       let chat_room := node fr +:+ "@" +:+ domain fr in
       match REVERSE_CHATROOM_RELAY cfg !! chat_room with
       | Some users_to_relay_to =>
           a ← lift (percent_seq users_to_relay_to);
           logging DEBUG "Message to relay to %s." [a];;
           let body := "[" +:+ resource fr +:+ "] " +:+ getBody mess in
           for_each (items users_to_relay_to) (λ user, send be user body "chat")
       | None => mret tt
       end
     else mret tt)
    (λ e, log_exception "crashed in callback_message %s" [StrOfExn e]).

End Builtins.


(** ** Identifier *)

Module Identifier.

(** Modelled from the spec: the [Identifier] of [errbot/backends/base.py],
    of which the repository has only the tests.  An address has a person, a
    host and an optional resource. *)
Record t : Type := mk {
  person : string;
  host : string;
  resource : option string
}.

Inductive parsed : Type :=
| Parsed (id : t)
| MalformedAddress.

(** Modelled from the spec: [parse] of the absent [Identifier].  The
    resource is what follows the first [/]; before it, the address is
    split on the last [@]; an address without [@] is malformed. *)
Definition parse (raw : string) : parsed :=
  let '(address, resource) :=
    match Text.split_first "/" raw with
    | Some (address, resource) => (address, Some resource)
    | None => (raw, None)
    end in
  match Text.split_last "@" address with
  | Some (person, host) => Parsed (mk person host resource)
  | None => MalformedAddress
  end.

(** Modelled from the spec: [toString] of the absent [Identifier]:
    [person@host], or [person@host/resource]. *)
Definition toString (id : t) : string :=
  person id +:+ "@" +:+ host id +:+
  match resource id with
  | Some r => "/" +:+ r
  | None => ""
  end.

(** Modelled from the spec: [bareMatches] of the absent [Identifier]
    compares person and host only. *)
Definition bareMatches (a b : t) : bool :=
  bool_decide (person a = person b) && bool_decide (host a = host b).

End Identifier.

(** ** Execution pipeline *)

Module Pipeline.

Inductive message_kind : Type := Direct | Broadcast.

(** Modelled from the spec: the [Message] envelope of
    [errbot/backends/base.py], which the repository does not include (the
    optional rich body plays no part in what follows). *)
Record Message : Type := mkMessage {
  frm : Identifier.t;
  to : Identifier.t;
  body : string;
  kind : message_kind
}.

(** The configuration the pipeline reads: the bot's own identity, the
    message-size limit, the fixed error marker, and whether the description
    of a failure is kept out of the error message. *)
Record settings : Type := mkSettings {
  bot_identity : Identifier.t;
  MESSAGE_SIZE_LIMIT : nat;
  MSG_ERROR_OCCURRED : string;
  hide_description : bool
}.

(** How a lazy sequence ends: it is exhausted, or producing the next item
    fails. *)
Inductive ending : Type := Exhausted | Fails (e : exn).

(** What running a handler on a message and its arguments gives: a single
    text, a lazy sequence of texts, or a failure before anything is
    produced.  A structured value is taken after its rendering through the
    template, as a text. *)
Inductive outcome : Type :=
| Value (text : string)
| Sequence (produced : list string) (how : ending)
| Failure (e : exn).

Definition handler : Type := Message → list string → outcome.

(** The least number of chunks of at most [limit] characters that hold [n]
    characters. *)
Definition chunk_count (limit n : nat) : nat := (n + limit - 1) / limit.

Definition is_space_at (s : string) (i : nat) : bool :=
  match Text.get i s with
  | Some c => Ascii.is_space c
  | None => false
  end.

(** The boundary before index [p] is a whitespace boundary when the
    character on either side of it is whitespace. *)
Definition whitespace_boundary (s : string) (p : nat) : bool :=
  is_space_at s (p - 1) || is_space_at s p.

(** Where to cut the first chunk off [s], between [lo] and [hi]
    characters: at the last whitespace boundary in that range when there is
    one, at [hi] otherwise. *)
Definition cut_point (s : string) (lo hi : nat) : nat :=
  default hi (List.find (whitespace_boundary s) (reverse (seq lo (S hi - lo)))).

(** [k] chunks out of [s].  The first chunk is at most [limit] long and long
    enough for the rest to fit in [k - 1] chunks. *)
Fixpoint split_go (limit k : nat) (s : string) : list string :=
  match k with
  | 0 => []
  | S k' =>
      match k' with
      | 0 => [s]
      | S _ =>
          let p := cut_point s (String.length s - k' * limit) limit in
          Text.take p s :: split_go limit k' (Text.drop p s)
      end
  end.

(** Modelled from the spec: the response chunking of the absent
    [errbot/backends/base.py].  A body within the limit is one chunk; a
    longer one is cut into the smallest number of contiguous chunks of at
    most [limit] characters, at whitespace boundaries where that number
    allows it.  A chunk is made of whole characters. *)
Definition split_body (limit : nat) (s : string) : list string :=
  if String.length s <=? limit then [s]
  else split_go limit (chunk_count limit (String.length s)) s.

(** The outgoing messages, in the order they were handed to the backend. *)
Definition queue : Type := list Message.

Definition send (m : Message) : M queue unit := modify (λ q, q ++ [m]).

(** Modelled from the spec: a reply goes to the sender of the message and
    carries the bot's own identity as its sender.  As [test_buildreply] has
    it, the reply goes to the sender without its resource. *)
Definition build_reply (cfg : settings) (mess : Message) (text : string) : Message :=
  mkMessage (bot_identity cfg)
            (Identifier.mk (Identifier.person (frm mess)) (Identifier.host (frm mess)) None)
            text (kind mess).

(** One text out: chunked, each chunk a message of its own. *)
Definition send_reply (cfg : settings) (mess : Message) (text : string) : M queue unit :=
  for_each (split_body (MESSAGE_SIZE_LIMIT cfg) text)
    (λ part, send (build_reply cfg mess part)).

(** A lazy sequence is consumed to its end or to its first failure; each
    item is sent as it is produced. *)
Fixpoint consume (cfg : settings) (mess : Message)
    (produced : list string) (how : ending) : M queue unit :=
  match produced with
  | item :: rest => send_reply cfg mess item;; consume cfg mess rest how
  | [] => match how with
          | Exhausted => mret tt
          | Fails e => raise e
          end
  end.

Definition execute (cfg : settings) (mess : Message) (r : outcome) : M queue unit :=
  match r with
  | Value text => send_reply cfg mess text
  | Sequence produced how => consume cfg mess produced how
  | Failure e => raise e
  end.

(** The body of the synthetic error message: the marker and, unless
    suppressed, the description of the failure. *)
Definition error_text (cfg : settings) (e : exn) : string :=
  MSG_ERROR_OCCURRED cfg +:+ (if hide_description cfg then "" else str_exn e).

(** Modelled from the spec: [_execute_and_send] of the absent
    [errbot/backends/base.py] (steps 3 to 6 of the pipeline): run the
    handler, send what it produces, and on a failure send what was produced
    so far and then one error message. *)
Definition _execute_and_send (cfg : settings) (cmd : handler) (args : list string)
    (mess : Message) : M queue unit :=
  try_except
    (execute cfg mess (cmd mess args))
    (λ e, send_reply cfg mess (error_text cfg e)).

(** The bodies of a queue of messages. *)
Definition bodies (q : queue) : list string := body <$> q.

(** The replies to [mess] that carry [texts], in order. *)
Definition replies (cfg : settings) (mess : Message) (texts : list string) : queue :=
  build_reply cfg mess <$> texts.

(** [chunks] are exactly three, each within the limit, and together they
    are [text]. *)
Definition in_three (limit : nat) (text : string) (chunks : list string) : Prop :=
  length chunks = 3 ∧
  Forall (λ c, String.length c ≤ limit) chunks ∧
  Text.join chunks = text.

End Pipeline.

(** ** tests/base_backend_tests.py: the handlers of [DummyBackend] *)

Module DummyBackend.
Import Pipeline.

Definition LONG_TEXT_STRING : string :=
  "This is a relatively long line of output, but I am repeated multiple times." +:+
  CorePlugins.nl.

Definition jid : Identifier.t := Identifier.mk "err" "localhost" (Some "err").

Definition return_args_as_str : handler := λ mess args, Value (Text.join args).
Definition raises_exception : handler := λ mess args, Failure (Exception "Kaboom!").
Definition yield_args_as_str : handler := λ mess args, Sequence args Exhausted.
Definition yields_str_then_raises_exception : handler :=
  λ mess args, Sequence ["foobar"] (Fails (Exception "Kaboom!")).
Definition return_long_output : handler :=
  λ mess args, Value (LONG_TEXT_STRING +:+ LONG_TEXT_STRING +:+ LONG_TEXT_STRING).
Definition yield_long_output : handler :=
  λ mess args, Sequence (replicate 2 (LONG_TEXT_STRING +:+ LONG_TEXT_STRING +:+ LONG_TEXT_STRING))
                        Exhausted.

(** [TestExecuteAndSend.setUp] *)
Definition example_message : Message :=
  mkMessage (Identifier.mk "noterr" "localhost" (Some "resource"))
            (Identifier.mk "err" "localhost" (Some "resource"))
            "some_message" Direct.

(** A handler that yields one long output and then fails. *)
Definition yields_long_output_then_raises_exception : handler :=
  λ mess args, Sequence [LONG_TEXT_STRING +:+ LONG_TEXT_STRING +:+ LONG_TEXT_STRING]
                        (Fails (Exception "Kaboom!")).

(** The backend under test, with its size limit and its error marker. *)
Definition dummy (limit : nat) (marker : string) : settings :=
  mkSettings jid limit marker false.

(** The bodies that [_execute_and_send] puts on an empty queue. *)
Definition sent (limit : nat) (cmd : handler) (args : list string) : list string :=
  bodies (snd (_execute_and_send (dummy limit "An unexpected error occurred: ")
                 cmd args example_message [])).

End DummyBackend.

(** ** config-template.py, and configurations written the way it writes them *)

Module Scenario.
Import Bot.

Definition TEST_ROOM : string := "test@conference.localhost".

(** [CHATROOM_PRESENCE], [CHATROOM_RELAY] and [CHATROOM_FN] of the
    template; it relays nothing back from rooms to users. *)
Definition template : config :=
  mkConfig [RoomName TEST_ROOM] "bot"
           (<["gbin@localhost" := PyTuple [TEST_ROOM]]> ∅) ∅ false.

(** The template, with two rooms to be present in and to relay to. *)
Definition two_rooms : config :=
  mkConfig [RoomName "room1@conference.localhost"; RoomName "room2@conference.localhost"]
           "bot"
           (<["gbin@localhost" :=
                PyTuple ["room1@conference.localhost"; "room2@conference.localhost"]]> ∅)
           ∅ false.

(** The template, with what is said in the test room relayed back to two
    users. *)
Definition two_users : config :=
  mkConfig [RoomName TEST_ROOM] "bot"
           (<["gbin@localhost" := PyTuple [TEST_ROOM]]> ∅)
           (<[TEST_ROOM := PyTuple ["gbin@localhost"; "admin@localhost"]]> ∅)
           false.

(** A backend on which nothing can be sent to, or joined in, the first of
    the two rooms. *)
Definition room1_unreachable : backend :=
  mkBackend
    (λ target _ _,
       if decide (target = "room1@conference.localhost")
       then Some (Exception "room1@conference.localhost is unreachable") else None)
    (λ room,
       if decide (room = "room1@conference.localhost")
       then Some (Exception "room1@conference.localhost is unreachable") else None)
    (λ room,
       if decide (room = "room1@conference.localhost")
       then Some (Exception "room1@conference.localhost is unreachable") else None)
    None.

(** [compat_str] as the loop of [callback_connect] expects it: the name
    when the entry is a string, [None] when it is a pair. *)
Definition compat_str (room : presence_entry) : option string :=
  match room with
  | RoomName r => Some r
  | RoomWithPassword _ _ => None
  end.

(** A Slack backend connected with a bot account: it cannot join rooms. *)
Definition slack_bot_account : backend :=
  mkBackend (λ _ _ _, None) (λ _, Some (SlackAPIResponseError "user_is_bot")) (λ _, None) None.

End Scenario.

(** ** errbot/backends/test.py: the rest of the room bookkeeping *)

Module TestRooms.
Import TestBackend.

(** [joined_rooms] for the code that goes through its keys: the items of
    the dict in the order of their insertion, which is the order in which a
    Python dict yields its keys and which a [gmap] does not keep; and the
    log. *)
Record ordered : Type := mkOrdered {
  joined_items : list (string * MUCRoom);
  log_lines : list log_record
}.

(** The same state for the code that only looks rooms up: the world of
    [join_room] and [leave_room]. *)
Definition unordered (w : ordered) : world :=
  mkWorld (list_to_map (joined_items w)) (log_lines w).

(** [leave_all_rooms]: one line in the log for each key, in the order of
    the dict, then the global is bound to a new empty dict. *)
Definition leave_all_rooms : M ordered unit :=
  rooms ← gets joined_items;
  for_each rooms.*1
    (λ room,
       modify (λ w, mkOrdered (joined_items w)
                      (log_lines w ++ [LogRecord INFO "Left room {0}" [Str room] false])));;
  modify (λ w, mkOrdered [] (log_lines w)).

(** A call of [join_room] or of [leave_room], as a test makes them. *)
Inductive room_op : Type :=
| Join (room : string) (username password : option string)
| Leave (room : string).

Definition apply (BOT_IDENTITY : gmap string string) (op : room_op) : M world unit :=
  match op with
  | Join room username password => join_room BOT_IDENTITY room username password
  | Leave room => leave_room room
  end.

(** The room that an operation is about. *)
Definition room_of (op : room_op) : string :=
  match op with Join room _ _ | Leave room => room end.

(** What the same operation does to a set of room names. *)
Definition on_names (names : gset string) (op : room_op) : gset string :=
  match op with
  | Join room _ _ => {[room]} ∪ names
  | Leave room => names ∖ {[room]}
  end.

(** The handle that [join_room] makes for a room. *)
Definition fresh (bot_itself room : string) : MUCRoom := mkMUCRoom room [bot_itself] None.

(** Every joined room has the handle that [join_room] made for it. *)
Definition all_fresh (bot_itself : string) (rooms : gmap string MUCRoom) : Prop :=
  ∀ room r, rooms !! room = Some r → r = fresh bot_itself room.

(** The lines of [leave_all_rooms] and of [leave_room] for a room. *)
Definition left_room (room : string) : log_record :=
  LogRecord INFO "Left room {0}" [Str room] false.

End TestRooms.

(** ** errbot/backends/test.py: the queues and the loop of the backend *)

Module TestLoop.

Definition QUIT_MESSAGE : string := "$STOP$".

Definition STZ_MSG : nat := 1.
Definition STZ_PRE : nat := 2.
Definition STZ_IQ : nat := 3.

(** What travels on the incoming queue beside the stanza type: the text of a
    message, or a presence object, which is no string. *)
Inductive entry : Type :=
| Text (s : string)
| Presence (presence : string).

(** [entry == QUIT_MESSAGE] *)
Definition is_quit (e : entry) : bool :=
  match e with
  | Text s => bool_decide (s = QUIT_MESSAGE)
  | Presence _ => false
  end.

(** [msg = Message(entry)], with [msg.frm] and [msg.to] set. *)
Record Message : Type := mkMessage {
  body : entry;
  frm : string;
  to : string
}.

(** What can come out of a callback: the two exceptions that the loop
    swallows, or any other one. *)
Inductive raised : Type :=
| EOFError
| KeyboardInterrupt
| Error (e : exn).

(** The bot above the backend ([ErrBot], which is not part of the backend)
    and the configuration: the admins, and for each callback the bodies of
    the messages it hands to [send_message], in order, and whether it then
    raises.  [connect_callback], [disconnect_callback] and the [shutdown] of
    the superclass are taken to return. *)
Record bot : Type := mkBot {
  BOT_ADMINS : list string;
  callback_message : Message → list string * option raised;
  callback_presence : entry → option raised
}.

Inductive event : Type :=
| ConnectCallback
| CallbackMessage (m : Message)
| CallbackPresence (e : entry)
| DisconnectCallback
| Shutdown.

(** [incoming_stanza_queue], [outgoing_message_queue], the calls made on the
    bot, the log. *)
Record world : Type := mkWorld {
  incoming : list (nat * entry);
  outgoing : list string;
  events : list event;
  log : list log_record
}.

Definition logging (lvl : log_level) (f : string) (a : list log_arg) (w : world) : world :=
  mkWorld (incoming w) (outgoing w) (events w) (log w ++ [LogRecord lvl f a false]).

Definition call (e : event) (w : world) : world :=
  mkWorld (incoming w) (outgoing w) (events w ++ [e]) (log w).

(** [push_message] and [push_presence] *)
Definition push_message (msg : string) (w : world) : world :=
  mkWorld (incoming w ++ [(STZ_MSG, Text msg)]) (outgoing w) (events w) (log w).
Definition push_presence (presence : string) (w : world) : world :=
  mkWorld (incoming w ++ [(STZ_PRE, Presence presence)]) (outgoing w) (events w) (log w).

(** [TestBackend.send_message], after the superclass: the body goes on the
    outgoing queue. *)
Definition send_message (body : string) (w : world) : world :=
  mkWorld (incoming w) (outgoing w ++ [body]) (events w) (log w).

(** [pop_message(block=False)]: the oldest body, or [Empty] ([None]). *)
Definition pop_message (w : world) : option string * world :=
  match outgoing w with
  | [] => (None, w)
  | msg :: rest => (Some msg, mkWorld (incoming w) rest (events w) (log w))
  end.

(** How the [while True] of [serve_forever] is left: by [break], by an
    exception, or not yet, [get()] waiting for the next stanza. *)
Inductive left_by : Type :=
| Break
| Waiting
| Raising (r : raised).

(** The [while True] loop of [serve_forever] on the stanzas that are in the
    incoming queue. *)
Fixpoint loop (b : bot) (sender jid : string) (queue : list (nat * entry))
    (w : world) : left_by * world :=
  match queue with
  | [] => (Waiting, w)
  | (stanza_type, entry) :: rest =>
      let w := mkWorld rest (outgoing w) (events w) (log w) in
      if is_quit entry then
        (Break, logging INFO "Stop magic message received, quitting..." [] w)
      else if stanza_type =? STZ_MSG then
        let msg := mkMessage entry sender jid in
        let w := call (CallbackMessage msg) w in
        let '(sent, r) := callback_message b msg in
        let w := foldl (λ w body, send_message body w) w sent in
        match r with
        | Some r => (Raising r, w)
        | None => loop b sender jid rest w
        end
      else if stanza_type =? STZ_PRE then
        let w := logging INFO "Presence stanza received." [] w in
        let w := call (CallbackPresence entry) w in
        match callback_presence b entry with
        | Some r => (Raising r, w)
        | None => loop b sender jid rest w
        end
      else if stanza_type =? STZ_IQ then
        loop b sender jid rest (logging INFO "IQ stanza received." [] w)
      else
        loop b sender jid rest (logging ERROR "Unknown stanza type." [] w)
  end.

(** The [finally] of [serve_forever]. *)
Definition finally (w : world) : world :=
  call Shutdown
    (logging DEBUG "Trigger shutdown" []
       (call DisconnectCallback (logging DEBUG "Trigger disconnect callback" [] w))).

(** How [serve_forever] stands: it has returned, it is still serving, or it
    has raised. *)
Inductive outcome : Type :=
| Returned
| StillServing
| Raised (r : raised).

(** [TestBackend.serve_forever]; the identity of the bot is the one made
    from ['Err']. *)
Definition serve_forever (b : bot) (w : world) : outcome * world :=
  let jid := "Err" in
  let w := call ConnectCallback w in
  match BOT_ADMINS b with
  | [] => (Raised (Error (IndexError "tuple index out of range")), w)
  | sender :: _ =>
      let '(l, w) := loop b sender jid (incoming w) w in
      match l with
      | Waiting => (StillServing, w)
      | Break | Raising EOFError | Raising KeyboardInterrupt => (Returned, finally w)
      | Raising (Error e) => (Raised (Error e), finally w)
      end
  end.

(** ['... : %s' % msg] for a stanza of the incoming queue: the stanza is a
    pair, and a pair on the right of [%] is two arguments for one
    conversion. *)
Definition percent_stanza (msg : nat * entry) : result log_arg :=
  Raise (TypeError "not all arguments converted during string formatting").

(** One turn of the first loop of [zap_queues]: the stanza is taken out of
    the incoming queue and logged. *)
Definition zap_incoming (msg : nat * entry) : M world unit :=
  modify (λ w, mkWorld (tail (incoming w)) (outgoing w) (events w) (log w));;
  a ← lift (percent_stanza msg);
  modify (logging ERROR "Message left in the incoming queue during a test : %s" [a]).

(** One turn of its second loop, for a body of the outgoing queue. *)
Definition zap_outgoing (msg : string) : M world unit :=
  modify (λ w, mkWorld (incoming w) (tail (outgoing w)) (events w) (log w));;
  modify (logging ERROR "Message left in the outgoing queue during a test : %s" [Str msg]).

(** [zap_queues]: each queue is emptied, one [get] for each element there
    is, and what is taken out is logged as an error. *)
Definition zap_queues : M world unit :=
  stanzas ← gets incoming;
  for_each stanzas zap_incoming;;
  bodies ← gets outgoing;
  for_each bodies zap_outgoing.

(** The calls on the bot that the stanzas [before] cause, and the bodies
    that come back from them. *)
Definition events_of (b : bot) (sender : string) (before : list (nat * entry)) : list event :=
  '(stanza_type, entry) ← before;
  if stanza_type =? STZ_MSG then [CallbackMessage (mkMessage entry sender "Err")]
  else if stanza_type =? STZ_PRE then [CallbackPresence entry]
  else [].

Definition replies_of (b : bot) (sender : string) (before : list (nat * entry)) : list string :=
  '(stanza_type, entry) ← before;
  if stanza_type =? STZ_MSG then fst (callback_message b (mkMessage entry sender "Err"))
  else [].

(** The callback that a stanza causes returns. *)
Definition returns (b : bot) (sender : string) (stanza : nat * entry) : Prop :=
  let '(stanza_type, entry) := stanza in
  if stanza_type =? STZ_MSG then snd (callback_message b (mkMessage entry sender "Err")) = None
  else if stanza_type =? STZ_PRE then callback_presence b entry = None
  else True.

(** What the callback that a stanza causes raises, if it raises. *)
Definition raise_of (b : bot) (sender : string) (stanza : nat * entry) : option raised :=
  let '(stanza_type, entry) := stanza in
  if stanza_type =? STZ_MSG then snd (callback_message b (mkMessage entry sender "Err"))
  else if stanza_type =? STZ_PRE then callback_presence b entry
  else None.

(** The lines of the log of [serve_forever] when it stops. *)
Definition stop_line : log_record :=
  LogRecord INFO "Stop magic message received, quitting..." [] false.
Definition finally_lines : list log_record :=
  [LogRecord DEBUG "Trigger disconnect callback" [] false;
   LogRecord DEBUG "Trigger shutdown" [] false].

(** The lines that the stanzas [before] leave in the log. *)
Definition log_of (before : list (nat * entry)) : list log_record :=
  '(stanza_type, entry) ← before;
  if stanza_type =? STZ_MSG then []
  else if stanza_type =? STZ_PRE then [LogRecord INFO "Presence stanza received." [] false]
  else if stanza_type =? STZ_IQ then [LogRecord INFO "IQ stanza received." [] false]
  else [LogRecord ERROR "Unknown stanza type." [] false].

(** The line of [zap_queues] for a body left in the outgoing queue. *)
Definition left_outgoing (msg : string) : log_record :=
  LogRecord ERROR "Message left in the outgoing queue during a test : %s" [Str msg] false.

(** A call on the bot that a stanza causes. *)
Definition is_dispatch (e : event) : Prop :=
  match e with
  | CallbackMessage _ | CallbackPresence _ => True
  | _ => False
  end.

End TestLoop.

(** ** The chat-room plugin: what [callback_connect] is expected to call *)

Module Presence.
Import Bot.

(** The room and the password of a presence entry. *)
Definition room (entry : presence_entry) : string :=
  match entry with RoomName r | RoomWithPassword r _ => r end.
Definition password (entry : presence_entry) : option string :=
  match entry with RoomName _ => None | RoomWithPassword _ p => Some p end.

(** The join through [query_room] for an entry, and the legacy one. *)
Definition join_of (cfg : config) (entry : presence_entry) : backend_call :=
  QueryRoomJoin (room entry) (CHATROOM_FN cfg) (password entry).
Definition legacy_join_of (cfg : config) (entry : presence_entry) : backend_call :=
  JoinRoom (room entry) (CHATROOM_FN cfg) (password entry).

(** The room of the entry can be joined: through [query_room], or, on a
    backend without it, through [join_room]. *)
Definition joinable (be : backend) (entry : presence_entry) : Prop :=
  query_room_join_raises be (room entry) = None ∨
  (query_room_join_raises be (room entry) = Some NotImplementedError ∧
   join_room_raises be (room entry) = None).

(** The calls of the current plugin for a joinable entry. *)
Definition calls_of (cfg : config) (be : backend) (entry : presence_entry) : list backend_call :=
  match query_room_join_raises be (room entry) with
  | None => [join_of cfg entry]
  | Some _ => [join_of cfg entry; legacy_join_of cfg entry]
  end.

(** The heartbeat of [keep_alive] in the first version of the plugin. *)
Definition heartbeat (cfg : config) : backend_call :=
  if HIPCHAT_MODE cfg then Send "nobody" " " "groupchat" else BareSendPresence.
Definition heartbeat_raises (cfg : config) (be : backend) : option exn :=
  if HIPCHAT_MODE cfg then send_raises be "nobody" " " "groupchat" else bare_send_raises be.

End Presence.

(** ** The chat-room plugin: what [callback_connect] logs for an entry *)

Module Joining.
Import Bot Presence.

(** The two lines of [callback_connect] of the current plugin before it
    joins the room of an entry. *)
Definition announce (cfg : config) (entry : presence_entry) : list log_record :=
  [LogRecord DEBUG "Try to join room %s" [repr entry] false;
   LogRecord INFO "Joining room {} with username {}"
     [Str (room entry); Str (CHATROOM_FN cfg)] false].

(** Its warning on a backend without [query_room]. *)
Definition legacy_warning : log_record :=
  LogRecord WARNING
    "query_room not implemented on this backend, using legacy join_room instead" [] false.

(** The lines for an entry up to its last join: the two lines, and the
    warning where the legacy [join_room] is gone through. *)
Definition lines_of (cfg : config) (be : backend) (entry : presence_entry) : list log_record :=
  announce cfg entry ++
  match query_room_join_raises be (room entry) with
  | Some NotImplementedError => [legacy_warning]
  | _ => []
  end.

End Joining.

(** ** errbot/core_plugins/chatRoom.py: the room commands *)

Module Rooms.

Definition tab : string := String "009"%char "".

(** What a command does on the room that [query_room] gave it. *)
Inductive room_op : Type :=
| Create
| Leave
| Destroy
| Invite (whom : list string).

(** The calls of the room commands on the bot.  A room object is known by
    the argument [query_room] was given for it: a name, or [None] on TOX. *)
Inductive room_call : Type :=
| QueryRoom (room : option string)
| RoomOp (room : option string) (op : room_op)
| CallJoinRoom (room : string)
| CallInviteInRoom (room : string) (whom : list string).

(** What reading a room gives: a value, [RoomNotJoinedError] with its text,
    or another exception. *)
Inductive answer (A : Type) : Type :=
| Gives (a : A)
| NotJoined (msg : string)
| Fails (e : exn).
Arguments Gives {A} a.
Arguments NotJoined {A} msg.
Arguments Fails {A} e.

(** The bot under the commands: [mode]; what [query_room] and the methods of
    a room raise, when they do; [str(room)]; the persons of the occupants of
    a room, [[o.person for o in self.query_room(room).occupants]]; what the
    legacy [join_room] and [invite_in_room] raise. *)
Record backend : Type := mkBackend {
  mode : string;
  query_room_raises : option string → option exn;
  op_raises : option string → room_op → option exn;
  str_room : option string → string;
  occupants : string → answer (list string);
  join_room_raises : string → option exn;
  invite_in_room_raises : string → list string → option exn
}.

(** A call on the bot: it is recorded, then it returns or raises. *)
Definition call (c : room_call) (raises : option exn) : M (list room_call) unit :=
  modify (λ calls, calls ++ [c]);;
  match raises with
  | Some e => raise e
  | None => mret tt
  end.

Definition query_room (be : backend) (room : option string) : M (list room_call) unit :=
  call (QueryRoom room) (query_room_raises be room).

Definition on (be : backend) (room : option string) (op : room_op) : M (list room_call) unit :=
  call (RoomOp room op) (op_raises be room op).

(** [args[i]] on a list. *)
Definition index {W} (args : list string) (i : nat) : M W string :=
  match args !! i with
  | Some a => mret a
  | None => raise (IndexError "list index out of range")
  end.

(** [sep.join(l)] *)
Fixpoint join (sep : string) (l : list string) : string :=
  match l with
  | [] => ""
  | x :: rest =>
      match rest with
      | [] => x
      | _ :: _ => x +:+ sep +:+ join sep rest
      end
  end.

(** [try: m  except SlackAPIResponseError as e: if e.error != "user_is_bot":
    raise; return unable + SLACK_USER_IS_BOT_HELPTEXT]; the reply of the
    handler when it returns one. *)
Definition unless_user_is_bot {W} (unable : string) (m : M W unit) : M W (option string) :=
  try_except
    (m;; mret None)
    (λ e,
       match e with
       | SlackAPIResponseError error =>
           if decide (error ≠ "user_is_bot") then raise e
           else mret (Some (unable +:+ CorePlugins.SLACK_USER_IS_BOT_HELPTEXT))
       | _ => raise e
       end).

(** [ChatRoom.room_create]; the command receives its arguments split. *)
Definition room_create (be : backend) (args : list string) : M (list room_call) string :=
  room ←
    (if decide (mode be = "tox") then
       if negb (length args =? 0) then mret (inl "You cannot specify a chatgroup name on TOX.")
       else query_room be None;; mret (inr None)
     else
       if length args <? 1 then mret (inl "Please tell me which chatroom to create.")
       else a0 ← index args 0; query_room be (Some a0);; mret (inr (Some a0)));
  match room with
  | inl reply => mret reply
  | inr room =>
      early ← unless_user_is_bot "Unable to create rooms. " (on be room Create);
      match early with
      | Some reply => mret reply
      | None => mret ("Created the room " +:+ str_room be room)
      end
  end.

(** [ChatRoom.room_leave] *)
Definition room_leave (be : backend) (args : list string) : M (list room_call) string :=
  if length args <? 1 then mret "Please tell me which chatroom to leave."
  else
    early ← unless_user_is_bot "Unable to leave rooms. "
              (a0 ← index args 0; query_room be (Some a0);; on be (Some a0) Leave);
    match early with
    | Some reply => mret reply
    | None => a0 ← index args 0; mret ("Left the room " +:+ a0)
    end.

(** [ChatRoom.room_destroy] *)
Definition room_destroy (be : backend) (args : list string) : M (list room_call) string :=
  if length args <? 1 then mret "Please tell me which chatroom to destroy."
  else
    early ← unless_user_is_bot "Unable to destroy rooms. "
              (a0 ← index args 0; query_room be (Some a0);; on be (Some a0) Destroy);
    match early with
    | Some reply => mret reply
    | None => a0 ← index args 0; mret ("Destroyed the room " +:+ a0)
    end.

(** [ChatRoom.room_invite]; [args[1:]] is [drop 1 args]. *)
Definition room_invite (be : backend) (args : list string) : M (list room_call) string :=
  if length args <? 2 then mret "Please tell me which person(s) to invite into which room."
  else
    early ← unless_user_is_bot "Unable to invite people into rooms. "
              (a0 ← index args 0;
               query_room be (Some a0);; on be (Some a0) (Invite (drop 1 args)));
    match early with
    | Some reply => mret reply
    | None =>
        a0 ← index args 0;
        mret ("Invited " +:+ join ", " (drop 1 args) +:+ " into the room " +:+ a0)
    end.

(** The loop of [room_occupants], run to its end: what it yields, and the
    exception that ends it when one does.  [RoomNotJoinedError] is caught
    room by room. *)
Fixpoint occupants_of (be : backend) (rooms : list string) : list string * option exn :=
  match rooms with
  | [] => ([], None)
  | room :: rest =>
      match occupants be room with
      | Gives persons =>
          let '(more, e) := occupants_of be rest in
          (("Occupants in " +:+ room +:+ ":" +:+ CorePlugins.nl +:+ tab
              +:+ join (CorePlugins.nl +:+ tab) persons) :: more, e)
      | NotJoined msg =>
          let '(more, e) := occupants_of be rest in
          (("Cannot list occupants in " +:+ room +:+ ": " +:+ msg) :: more, e)
      | Fails e => ([], Some e)
      end
  end.

(** [ChatRoom.room_occupants], a generator. *)
Definition room_occupants (be : backend) (args : list string) : list string * option exn :=
  if length args <? 1 then (["Please supply a room to list the occupants of."], None)
  else occupants_of be args.

(** [s.split()]: the runs of characters of [s] that are not whitespace.
    Which characters are whitespace depends on the type of string and on
    the version of Python; [isspace] tells.  [word] is the run being read. *)
Fixpoint split_from (isspace : ascii → bool) (word : string) (s : string) : list string :=
  match s with
  | "" => if decide (word = "") then [] else [word]
  | String c rest =>
      if isspace c
      then (if decide (word = "") then [] else [word]) ++ split_from isspace "" rest
      else split_from isspace (word +:+ String c "") rest
  end.

Definition split (isspace : ascii → bool) (s : string) : list string :=
  split_from isspace "" s.

(** [s.lstrip()], [s.rstrip()] and [s.strip()] *)
Fixpoint lstrip (isspace : ascii → bool) (s : string) : string :=
  match s with
  | "" => ""
  | String c rest => if isspace c then lstrip isspace rest else s
  end.

Fixpoint rstrip (isspace : ascii → bool) (s : string) : string :=
  match s with
  | "" => ""
  | String c rest =>
      match rstrip isspace rest with
      | "" => if isspace c then "" else String c ""
      | kept => String c kept
      end
  end.

Definition strip (isspace : ascii → bool) (s : string) : string :=
  rstrip isspace (lstrip isspace s).

(** Whitespace among the characters below 128, as Python 3 has it. *)
Definition ascii_isspace (c : ascii) : bool :=
  let n := nat_of_ascii c in
  (9 <=? n) && (n <=? 13) || (28 <=? n) && (n <=? 32).

(** The characters of a string. *)
Fixpoint chars (s : string) : list ascii :=
  match s with
  | "" => []
  | String c rest => c :: chars rest
  end.

(** A string of whitespace only; a word: a string that is not empty and
    holds no whitespace. *)
Definition blank (isspace : ascii → bool) (s : string) : bool :=
  forallb isspace (chars s).
Definition word (isspace : ascii → bool) (s : string) : bool :=
  negb (bool_decide (s = "")) && forallb (λ c, negb (isspace c)) (chars s).

(** The text made of [lead], a [first] word, each further word after its
    gap, and [trail]. *)
Definition spaced (lead first : string) (more : list (string * string))
    (trail : string) : string :=
  lead +:+ first +:+ foldr (λ gap_word rest, gap_word.1 +:+ gap_word.2 +:+ rest) trail more.

(** [ChatRoom.gtalk_room_create]; [uuid4] is the text of the fresh
    identifier, [stripped] is [mess.frm.stripped], and the command receives
    its arguments as one string. *)
Definition gtalk_room_create (isspace : ascii → bool) (be : backend)
    (uuid4 stripped : string) (args : string) : M (list room_call) string :=
  let room_name := "private-chat-" +:+ uuid4 +:+ "@groupchat.google.com" in
  call (CallJoinRoom room_name) (join_room_raises be room_name);;
  let to_invite :=
    if decide (args = "") then [stripped]
    else strip isspace <$> split isspace args in
  call (CallInviteInRoom room_name to_invite) (invite_in_room_raises be room_name to_invite);;
  mret ("Room created (" +:+ room_name +:+ ")").

(** A bot on which every call returns, in no room. *)
Definition reliable : backend :=
  mkBackend "text" (λ _, None) (λ _ _, None) (λ room, default "" room)
            (λ room, NotJoined ("not in " +:+ room)) (λ _, None) (λ _ _, None).

(** Slack with a bot account: a room is found, and nothing can be done on it. *)
Definition slack_bot_account : backend :=
  mkBackend "slack" (λ _, None) (λ _ _, Some (SlackAPIResponseError "user_is_bot"))
            (λ room, default "" room)
            (λ room, NotJoined ("not in " +:+ room)) (λ _, None) (λ _ _, None).

(** A bot whose [query_room] raises what it is told to. *)
Definition without_rooms (e : exn) : backend :=
  mkBackend "text" (λ _, Some e) (λ _ _, None) (λ room, default "" room)
            (λ room, Fails e) (λ _, None) (λ _ _, None).

End Rooms.

(** ** Bots, backends and configurations to run the above on *)

Module Stage.

(** A bot above the test backend, with the admin of the template: it
    answers a message with the text of the message, and its handler of
    [!crash] raises. *)
Definition echo : TestLoop.bot :=
  TestLoop.mkBot ["gbin@localhost"]
    (λ m,
       match TestLoop.body m with
       | TestLoop.Text s =>
           if decide (s = "!crash")
           then ([], Some (TestLoop.Error (Exception "Kaboom!")))
           else ([s], None)
       | TestLoop.Presence _ => ([], None)
       end)
    (λ _, None).

(** The same bot, with no admin. *)
Definition no_admin : TestLoop.bot :=
  TestLoop.mkBot [] (TestLoop.callback_message echo) (TestLoop.callback_presence echo).

(** A backend on which the heartbeat of [keep_alive] cannot be sent. *)
Definition no_heartbeat : Bot.backend :=
  Bot.mkBackend (λ _ _ _, None) (λ _, None) (λ _, None) (Some (Exception "not connected")).

(** The template, with what is said in the test room relayed back to a
    list of two users. *)
Definition two_users_in_a_list : Bot.config :=
  Bot.mkConfig [Bot.RoomName Scenario.TEST_ROOM] "bot"
    (<["gbin@localhost" := PyTuple [Scenario.TEST_ROOM]]> ∅)
    (<[Scenario.TEST_ROOM := PyList ["gbin@localhost"; "admin@localhost"]]> ∅)
    false.

(** A bot in the room [dev], not in the room [ops], and that cannot look
    the room [gone] up. *)
Definition three_rooms : Rooms.backend :=
  Rooms.mkBackend "text" (λ _, None) (λ _ _, None) (λ room, default "" room)
    (λ room,
       if decide (room = "dev") then Rooms.Gives ["gbin"; "err"]
       else if decide (room = "ops") then Rooms.NotJoined "not joined"
       else Rooms.Fails (Exception "no such room"))
    (λ _, None) (λ _ _, None).

(** The template, with three rooms to relay to and three users, in a list,
    to relay back to. *)
Definition relay_to_three : Bot.config :=
  Bot.mkConfig [Bot.RoomName Scenario.TEST_ROOM] "bot"
    (<["gbin@localhost" :=
         PyTuple ["room1@conference.localhost"; "room2@conference.localhost";
                  "room3@conference.localhost"]]> ∅)
    (<[Scenario.TEST_ROOM :=
         PyList ["gbin@localhost"; "admin@localhost"; "guest@localhost"]]> ∅)
    false.

(** A backend on which nothing can be sent to the second room and to the
    second user. *)
Definition second_unreachable : Bot.backend :=
  Bot.mkBackend
    (λ target _ _,
       if decide (target = "room2@conference.localhost")
       then Some (Exception "room2@conference.localhost is unreachable")
       else if decide (target = "admin@localhost")
       then Some (Exception "admin@localhost is unreachable")
       else None)
    (λ _, None) (λ _, None) None.

(** The template, with three rooms to be present in, the second one with a
    password. *)
Definition presence_of_three : Bot.config :=
  Bot.mkConfig
    [Bot.RoomName "room1@conference.localhost";
     Bot.RoomWithPassword "room2@conference.localhost" "secret";
     Bot.RoomName "room3@conference.localhost"]
    "bot" (<["gbin@localhost" := PyTuple [Scenario.TEST_ROOM]]> ∅) ∅ false.

(** A backend on which the second room cannot be joined. *)
Definition room2_unjoinable : Bot.backend :=
  Bot.mkBackend (λ _ _ _, None)
    (λ room,
       if decide (room = "room2@conference.localhost")
       then Some (Exception "room2@conference.localhost is unreachable") else None)
    (λ room,
       if decide (room = "room2@conference.localhost")
       then Some (Exception "room2@conference.localhost is unreachable") else None)
    None.

(** A backend without [query_room], whose legacy [join_room] answers
    [user_is_bot] for the second room. *)
Definition legacy_slack : Bot.backend :=
  Bot.mkBackend (λ _ _ _, None)
    (λ _, Some NotImplementedError)
    (λ room,
       if decide (room = "room2@conference.localhost")
       then Some (SlackAPIResponseError "user_is_bot") else None)
    None.

(** [joined_rooms] after the rooms [b], [a] and [c] were joined in this
    order. *)
Definition joined_b_a_c : TestRooms.ordered :=
  TestRooms.mkOrdered
    [("b", TestRooms.fresh "err@localhost" "b");
     ("a", TestRooms.fresh "err@localhost" "a");
     ("c", TestRooms.fresh "err@localhost" "c")] [].

End Stage.

(** * Properties *)

(** Unfold the monad down to functions on worlds. *)
Ltac run :=
  unfold mbind, mret, M_bind, M_ret, Py.bind, Py.ret, Py.raise, Py.try_except,
    Py.modify, Py.gets, Py.lift in *; simpl in *.

(** ** The test backend *)

Section test_backend.
Import TestBackend.

Variable BOT_IDENTITY : gmap string string.
Variable bot_itself : string.
Hypothesis has_username : BOT_IDENTITY !! "username" = Some bot_itself.

Lemma join_room_present room username password w r :
  joined_rooms w !! room = Some r →
  ∃ l, join_room BOT_IDENTITY room username password w = (Ok tt, mkWorld (joined_rooms w) l).
Proof.
  intros Hin. unfold join_room, logging. run. rewrite Hin. simpl. eauto.
Qed.

Lemma join_room_absent room username password w :
  joined_rooms w !! room = None →
  join_room BOT_IDENTITY room username password w =
    (Ok tt, mkWorld (<[room := mkMUCRoom room [bot_itself] None]> (joined_rooms w)) (log w)).
Proof using has_username.
  intros Hout. unfold join_room, getitem. run. rewrite Hout, has_username. reflexivity.
Qed.

Lemma leave_room_present room w r :
  joined_rooms w !! room = Some r →
  ∃ l, leave_room room w = (Ok tt, mkWorld (delete room (joined_rooms w)) l).
Proof.
  intros Hin. unfold leave_room, pop, logging. run. rewrite Hin. simpl. eauto.
Qed.

Lemma leave_room_absent room w :
  joined_rooms w !! room = None →
  ∃ l, leave_room room w = (Ok tt, mkWorld (joined_rooms w) l).
Proof.
  intros Hout. unfold leave_room, pop, logging. run. rewrite Hout. simpl. eauto.
Qed.

(** C10.  In the test backend, [join_room] and [leave_room] return normally
    for every room id.  Joining a room that is already in [joined_rooms]
    and leaving a room that is not leave the mapping as it was; joining an
    absent room adds exactly its entry, and leaving a present room removes
    exactly its entry.  ([join_room] reads the bot's name from
    [BOT_IDENTITY], which has a ['username'].) *)
Theorem C10_join_leave_total_and_idempotent room username password w :
  let joined := snd (join_room BOT_IDENTITY room username password w) in
  let left := snd (leave_room room w) in
  fst (join_room BOT_IDENTITY room username password w) = Ok tt ∧
  fst (leave_room room w) = Ok tt ∧
  (is_Some (joined_rooms w !! room) →
     joined_rooms joined = joined_rooms w ∧
     joined_rooms left = delete room (joined_rooms w) ∧
     joined_rooms left !! room = None ∧
     S (size (joined_rooms left)) = size (joined_rooms w) ∧
     ∀ other, other ≠ room → joined_rooms left !! other = joined_rooms w !! other) ∧
  (joined_rooms w !! room = None →
     joined_rooms left = joined_rooms w ∧
     joined_rooms joined = <[room := mkMUCRoom room [bot_itself] None]> (joined_rooms w) ∧
     joined_rooms joined !! room = Some (mkMUCRoom room [bot_itself] None) ∧
     size (joined_rooms joined) = S (size (joined_rooms w)) ∧
     ∀ other, other ≠ room → joined_rooms joined !! other = joined_rooms w !! other).
Proof using has_username.
  intros joined left. subst joined left.
  destruct (joined_rooms w !! room) as [r|] eqn:Hroom.
  - destruct (join_room_present room username password w r Hroom) as [l1 ->].
    destruct (leave_room_present room w r Hroom) as [l2 ->]. simpl.
    split; [done|]. split; [done|]. split; [|intros [=]].
    intros _. split; [done|]. split; [done|].
    split; [apply lookup_delete_eq|].
    split; [|intros other Hne; by apply lookup_delete_ne].
    rewrite map_size_delete_Some by eauto.
    assert (size (joined_rooms w) ≠ 0); [|lia].
    intros Hz. apply map_size_empty_inv in Hz. rewrite Hz in Hroom.
    by rewrite lookup_empty in Hroom.
  - rewrite (join_room_absent room username password w Hroom).
    destruct (leave_room_absent room w Hroom) as [l2 ->]. simpl.
    split; [done|]. split; [done|]. split; [intros [? [=]]|].
    intros _. split; [done|]. split; [done|].
    split; [apply lookup_insert_eq|].
    split; [by apply map_size_insert_None|].
    intros other Hne. by apply lookup_insert_ne.
Qed.

End test_backend.

(** ** The relay of the chat-room plugin *)

Section relay.
Import Bot.

Variable cfg : config.
Variable be : backend.

(** A fan-out on which every send returns reaches every target, in
    order. *)
Lemma for_each_send_ok body message_type targets w :
  (∀ t, t ∈ targets → send_raises be t body message_type = None) →
  for_each targets (λ t, send be t body message_type) w =
    (Ok tt, mkWorld (connected w) (calls w ++ fanout targets body message_type) (log w)).
Proof.
  revert w. induction targets as [|t rest IH]; intros w Hok.
  - destruct w. simpl. unfold fanout. simpl. by rewrite app_nil_r.
  - simpl. unfold send at 1, call. run.
    rewrite (Hok t) by apply list_elem_of_here.
    rewrite IH by (intros; apply Hok; by apply list_elem_of_further).
    simpl. unfold fanout. simpl. by rewrite <- app_assoc.
Qed.

(** A fan-out stops at the first send that raises: the targets after it
    are not attempted. *)
Lemma for_each_send_raises body message_type pre t post e w :
  (∀ r, r ∈ pre → send_raises be r body message_type = None) →
  send_raises be t body message_type = Some e →
  for_each (pre ++ t :: post) (λ t, send be t body message_type) w =
    (Raise e,
     mkWorld (connected w) (calls w ++ fanout (pre ++ [t]) body message_type) (log w)).
Proof.
  revert w. induction pre as [|r pre IH]; intros w Hok Hfail.
  - simpl. unfold send at 1, call. run. rewrite Hfail. by destruct w.
  - simpl. unfold send at 1, call. run.
    rewrite (Hok r) by apply list_elem_of_here.
    rewrite IH by (try done; intros; apply Hok; by apply list_elem_of_further).
    simpl. unfold fanout. simpl. by rewrite <- app_assoc.
Qed.

(** Whatever happens inside, [callback_message] returns normally. *)
Lemma core_callback_message_returns mess w :
  fst (CorePlugins.callback_message cfg be mess w) = Ok tt.
Proof.
  unfold CorePlugins.callback_message. run.
  match goal with
  | |- fst (match ?m with _ => _ end) = _ => destruct m as [[[]|e] w']
  end; reflexivity.
Qed.

Lemma builtins_callback_message_returns mess w :
  fst (Builtins.callback_message cfg be mess w) = Ok tt.
Proof.
  unfold Builtins.callback_message. run.
  match goal with
  | |- fst (match ?m with _ => _ end) = _ => destruct m as [[[]|e] w']
  end; reflexivity.
Qed.

(** A one-to-one message from a user of [CHATROOM_RELAY]. *)
Lemma core_relay_chat fr body w rooms :
  CHATROOM_RELAY cfg !! CorePlugins.person_of fr = Some rooms →
  CorePlugins.callback_message cfg be (CorePlugins.mkMessage "chat" fr body) w =
    Py.try_except
      (logging DEBUG "Message to relay from %s." [Str (CorePlugins.person_of fr)];;
       for_each (items rooms) (λ room, send be room body "groupchat"))
      (λ e, log_exception "crashed in callback_message %s" [StrOfExn e]) w.
Proof.
  intros Hin. unfold CorePlugins.callback_message. simpl.
  by rewrite Hin.
Qed.

Lemma builtins_relay_chat jid body w rooms :
  CHATROOM_RELAY cfg !! (Builtins.node jid +:+ "@" +:+ Builtins.domain jid) = Some rooms →
  Builtins.callback_message cfg be (Builtins.mkMessage "chat" jid body) w =
    Py.try_except
      (logging DEBUG "Message to relay from %s."
         [Str (Builtins.node jid +:+ "@" +:+ Builtins.domain jid)];;
       for_each (items rooms) (λ room, send be room body "groupchat"))
      (λ e, log_exception "crashed in callback_message %s" [StrOfExn e]) w.
Proof.
  intros Hin. unfold Builtins.callback_message, Builtins.get_jid_from_message. simpl.
  by rewrite Hin.
Qed.

(** C4 (as the code has it).  A one-to-one message whose sender (bare form)
    is a key of [CHATROOM_RELAY] is forwarded with its body unchanged as one
    group message to each room configured for that key, in configured order,
    up to and including the first room the send to which fails: when every
    send returns, each room gets the body once; when a send fails, the rooms
    before it have got the body once, the failing one has been attempted
    once, no room after it is sent to, and the failure is logged.  A
    one-to-one message from a sender that is not a key causes no send at
    all. *)
Theorem C4_direct_message_relayed_to_rooms user body w :
  (∀ rooms,
     CHATROOM_RELAY cfg !! user = Some rooms →
     ((∀ room, room ∈ items rooms → send_raises be room body "groupchat" = None) →
      let relayed :=
        mkWorld (connected w)
                (calls w ++ fanout (items rooms) body "groupchat")
                (log w ++ [relay_from user]) in
      (∀ fr, CorePlugins.person_of fr = user →
         CorePlugins.callback_message cfg be (CorePlugins.mkMessage "chat" fr body) w
         = (Ok tt, relayed)) ∧
      (∀ jid, Builtins.node jid +:+ "@" +:+ Builtins.domain jid = user →
         Builtins.callback_message cfg be (Builtins.mkMessage "chat" jid body) w
         = (Ok tt, relayed))) ∧
     (∀ pre t post e,
        items rooms = pre ++ t :: post →
        (∀ r, r ∈ pre → send_raises be r body "groupchat" = None) →
        send_raises be t body "groupchat" = Some e →
        let cut :=
          mkWorld (connected w)
                  (calls w ++ fanout (pre ++ [t]) body "groupchat")
                  (log w ++ [relay_from user; crashed e]) in
        (∀ fr, CorePlugins.person_of fr = user →
           CorePlugins.callback_message cfg be (CorePlugins.mkMessage "chat" fr body) w
           = (Ok tt, cut)) ∧
        (∀ jid, Builtins.node jid +:+ "@" +:+ Builtins.domain jid = user →
           Builtins.callback_message cfg be (Builtins.mkMessage "chat" jid body) w
           = (Ok tt, cut)))) ∧
  (CHATROOM_RELAY cfg !! user = None →
     (∀ fr, CorePlugins.person_of fr = user →
        CorePlugins.callback_message cfg be (CorePlugins.mkMessage "chat" fr body) w
        = (Ok tt, w)) ∧
     (∀ jid, Builtins.node jid +:+ "@" +:+ Builtins.domain jid = user →
        Builtins.callback_message cfg be (Builtins.mkMessage "chat" jid body) w
        = (Ok tt, w))).
Proof.
  split.
  - intros rooms Hin. split.
    + intros Hok relayed. subst relayed. split.
      * intros fr <-. rewrite (core_relay_chat _ _ _ rooms Hin).
        unfold logging. run. by rewrite for_each_send_ok by done.
      * intros jid <-. rewrite (builtins_relay_chat _ _ _ rooms Hin).
        unfold logging. run. by rewrite for_each_send_ok by done.
    + intros pre t post e Hitems Hpre Hfail cut. subst cut. split.
      * intros fr <-. rewrite (core_relay_chat _ _ _ rooms Hin), Hitems.
        unfold logging, log_exception. run.
        rewrite for_each_send_raises with (e := e) by done. simpl.
        unfold relay_from, crashed. by rewrite <- app_assoc.
      * intros jid <-. rewrite (builtins_relay_chat _ _ _ rooms Hin), Hitems.
        unfold logging, log_exception. run.
        rewrite for_each_send_raises with (e := e) by done. simpl.
        unfold relay_from, crashed. by rewrite <- app_assoc.
  - intros Hout. split.
    + intros fr <-. unfold CorePlugins.callback_message. run. by rewrite Hout.
    + intros jid <-.
      unfold Builtins.callback_message, Builtins.get_jid_from_message. run.
      by rewrite Hout.
Qed.

End relay.

(** ** The relay back from a room to users *)

Section reverse_relay.
Import Bot.

Variable cfg : config.
Variable be : backend.

(** A group message from a room of [REVERSE_CHATROOM_RELAY] whose users
    can be formatted into the log line (a list, or a tuple of one) goes to
    each of them as ['[name] body']. *)
Lemma core_reverse_relay name room body w users a :
  REVERSE_CHATROOM_RELAY cfg !! room = Some users →
  percent_seq users = Ok a →
  (∀ u, u ∈ items users →
     send_raises be u ("[" +:+ name +:+ "] " +:+ body) "chat" = None) →
  CorePlugins.callback_message cfg be
    (CorePlugins.mkMessage "groupchat" (CorePlugins.Occupant name room) body) w
  = (Ok tt,
     mkWorld (connected w)
             (calls w ++ fanout (items users) ("[" +:+ name +:+ "] " +:+ body) "chat")
             (log w ++ [relay_to a])).
Proof.
  intros Hin Hfmt Hok. unfold CorePlugins.callback_message, logging. run.
  rewrite Hin, Hfmt. simpl.
  by rewrite for_each_send_ok by done.
Qed.

Lemma builtins_reverse_relay jid body w users a :
  REVERSE_CHATROOM_RELAY cfg !! (Builtins.node jid +:+ "@" +:+ Builtins.domain jid)
    = Some users →
  percent_seq users = Ok a →
  (∀ u, u ∈ items users →
     send_raises be u ("[" +:+ Builtins.resource jid +:+ "] " +:+ body) "chat" = None) →
  Builtins.callback_message cfg be (Builtins.mkMessage "groupchat" jid body) w
  = (Ok tt,
     mkWorld (connected w)
             (calls w ++ fanout (items users)
                           ("[" +:+ Builtins.resource jid +:+ "] " +:+ body) "chat")
             (log w ++ [relay_to a])).
Proof.
  intros Hin Hfmt Hok. unfold Builtins.callback_message, logging. run.
  rewrite Hin, Hfmt. simpl.
  by rewrite for_each_send_ok by done.
Qed.

(** When the users are a tuple of any other size, formatting the log line
    raises before the first send, and nothing is relayed. *)
Lemma core_reverse_relay_tuple name room body w u1 u2 users :
  REVERSE_CHATROOM_RELAY cfg !! room = Some (PyTuple (u1 :: u2 :: users)) →
  CorePlugins.callback_message cfg be
    (CorePlugins.mkMessage "groupchat" (CorePlugins.Occupant name room) body) w
  = (Ok tt,
     mkWorld (connected w) (calls w)
             (log w ++ [crashed (TypeError
                          "not all arguments converted during string formatting")])).
Proof.
  intros Hin. unfold CorePlugins.callback_message, log_exception. run.
  by rewrite Hin.
Qed.

(** A failing send ends the fan-out back to users as well. *)
Lemma core_reverse_relay_raises name room body w users a pre t post e :
  REVERSE_CHATROOM_RELAY cfg !! room = Some users →
  percent_seq users = Ok a →
  items users = pre ++ t :: post →
  (∀ u, u ∈ pre → send_raises be u ("[" +:+ name +:+ "] " +:+ body) "chat" = None) →
  send_raises be t ("[" +:+ name +:+ "] " +:+ body) "chat" = Some e →
  CorePlugins.callback_message cfg be
    (CorePlugins.mkMessage "groupchat" (CorePlugins.Occupant name room) body) w
  = (Ok tt,
     mkWorld (connected w)
             (calls w ++ fanout (pre ++ [t]) ("[" +:+ name +:+ "] " +:+ body) "chat")
             (log w ++ [relay_to a; crashed e])).
Proof.
  intros Hin Hfmt Hitems Hpre Hfail.
  unfold CorePlugins.callback_message, logging, log_exception. run.
  rewrite Hin, Hfmt, Hitems. simpl.
  rewrite for_each_send_raises with (e := e) by done. simpl.
  unfold relay_to, crashed. by rewrite <- app_assoc.
Qed.

End reverse_relay.

(** ** A send that fails in a fan-out *)

Section relay_failure.
Import Bot.

Variable cfg : config.
Variable be : backend.

(** A failing send ends the fan-out back to users in the first version as
    well. *)
Lemma builtins_reverse_relay_raises jid body w users a pre t post e :
  REVERSE_CHATROOM_RELAY cfg !! (Builtins.node jid +:+ "@" +:+ Builtins.domain jid)
    = Some users →
  percent_seq users = Ok a →
  items users = pre ++ t :: post →
  (∀ u, u ∈ pre →
     send_raises be u ("[" +:+ Builtins.resource jid +:+ "] " +:+ body) "chat" = None) →
  send_raises be t ("[" +:+ Builtins.resource jid +:+ "] " +:+ body) "chat" = Some e →
  Builtins.callback_message cfg be (Builtins.mkMessage "groupchat" jid body) w
  = (Ok tt,
     mkWorld (connected w)
             (calls w ++ fanout (pre ++ [t])
                           ("[" +:+ Builtins.resource jid +:+ "] " +:+ body) "chat")
             (log w ++ [relay_to a; crashed e])).
Proof.
  intros Hin Hfmt Hitems Hpre Hfail.
  unfold Builtins.callback_message, logging, log_exception. run.
  rewrite Hin, Hfmt, Hitems. simpl.
  rewrite for_each_send_raises with (e := e) by done. simpl.
  unfold relay_to, crashed. by rewrite <- app_assoc.
Qed.

(** C3 (as the code has it).  A failure of a send in a relay fan-out is
    caught inside [callback_message], logged with [log.exception], and never
    propagates: [callback_message] returns normally on every message.  The
    fan-out itself ends at the failing send: the targets configured before
    it have been sent to, the failing one has been attempted, and the
    targets after it are not attempted.  This holds of the fan-out of a
    one-to-one message to rooms and of the fan-out of a group message back
    to users, in both versions of the plugin. *)
Theorem C3_relay_failure_caught_and_fanout_ends pre t post e body w :
  (∀ user rooms,
     CHATROOM_RELAY cfg !! user = Some rooms →
     items rooms = pre ++ t :: post →
     (∀ r, r ∈ pre → send_raises be r body "groupchat" = None) →
     send_raises be t body "groupchat" = Some e →
     let after :=
       mkWorld (connected w)
               (calls w ++ fanout (pre ++ [t]) body "groupchat")
               (log w ++ [relay_from user; crashed e]) in
     (∀ fr, CorePlugins.person_of fr = user →
        CorePlugins.callback_message cfg be (CorePlugins.mkMessage "chat" fr body) w
        = (Ok tt, after)) ∧
     (∀ jid, Builtins.node jid +:+ "@" +:+ Builtins.domain jid = user →
        Builtins.callback_message cfg be (Builtins.mkMessage "chat" jid body) w
        = (Ok tt, after))) ∧
  (∀ name room users a,
     REVERSE_CHATROOM_RELAY cfg !! room = Some users →
     percent_seq users = Ok a →
     items users = pre ++ t :: post →
     (∀ u, u ∈ pre →
        send_raises be u ("[" +:+ name +:+ "] " +:+ body) CorePlugins.DEFAULT_MESSAGE_TYPE
        = None) →
     send_raises be t ("[" +:+ name +:+ "] " +:+ body) CorePlugins.DEFAULT_MESSAGE_TYPE
       = Some e →
     CorePlugins.callback_message cfg be
       (CorePlugins.mkMessage "groupchat" (CorePlugins.Occupant name room) body) w
     = (Ok tt,
        mkWorld (connected w)
                (calls w ++ fanout (pre ++ [t]) ("[" +:+ name +:+ "] " +:+ body)
                              CorePlugins.DEFAULT_MESSAGE_TYPE)
                (log w ++ [relay_to a; crashed e]))) ∧
  (∀ jid users a,
     REVERSE_CHATROOM_RELAY cfg !! (Builtins.node jid +:+ "@" +:+ Builtins.domain jid)
       = Some users →
     percent_seq users = Ok a →
     items users = pre ++ t :: post →
     (∀ u, u ∈ pre →
        send_raises be u ("[" +:+ Builtins.resource jid +:+ "] " +:+ body) "chat" = None) →
     send_raises be t ("[" +:+ Builtins.resource jid +:+ "] " +:+ body) "chat" = Some e →
     Builtins.callback_message cfg be (Builtins.mkMessage "groupchat" jid body) w
     = (Ok tt,
        mkWorld (connected w)
                (calls w ++ fanout (pre ++ [t])
                              ("[" +:+ Builtins.resource jid +:+ "] " +:+ body) "chat")
                (log w ++ [relay_to a; crashed e]))) ∧
  (∀ mess w0, fst (CorePlugins.callback_message cfg be mess w0) = Ok tt) ∧
  (∀ mess w0, fst (Builtins.callback_message cfg be mess w0) = Ok tt).
Proof.
  split; [|split; [|split; [|split]]].
  - intros user rooms Hin Hitems Hpre Hfail after. subst after. split.
    + intros fr <-. rewrite (core_relay_chat _ _ _ _ _ rooms Hin), Hitems.
      unfold logging, log_exception. run.
      rewrite for_each_send_raises with (e := e) by done. simpl.
      unfold relay_from, crashed. by rewrite <- app_assoc.
    + intros jid <-. rewrite (builtins_relay_chat _ _ _ _ _ rooms Hin), Hitems.
      unfold logging, log_exception. run.
      rewrite for_each_send_raises with (e := e) by done. simpl.
      unfold relay_from, crashed. by rewrite <- app_assoc.
  - intros name room users a Hin Hfmt Hitems Hpre Hfail.
    by apply (core_reverse_relay_raises cfg be name room body w users a pre t post e).
  - intros jid users a Hin Hfmt Hitems Hpre Hfail.
    by apply (builtins_reverse_relay_raises jid body w users a pre t post e).
  - apply core_callback_message_returns.
  - apply builtins_callback_message_returns.
Qed.

End relay_failure.

(** C5 (the code at a table of two users).  With
    [REVERSE_CHATROOM_RELAY = {TEST_ROOM: ('gbin@localhost', 'admin@localhost')}]
    and a backend on which every send succeeds, a group message ["hello"]
    said by [nick] in [TEST_ROOM] is relayed to nobody: formatting the debug
    line with the tuple raises [TypeError], which the handler of
    [callback_message] logs.  Both versions of the plugin do this. *)
Theorem C5_reverse_relay_to_two_users_sends_nothing :
  let type_error := TypeError "not all arguments converted during string formatting" in
  CorePlugins.callback_message Scenario.two_users Bot.reliable
    (CorePlugins.mkMessage "groupchat" (CorePlugins.Occupant "nick" Scenario.TEST_ROOM) "hello")
    Bot.initial
  = (Ok tt, Bot.mkWorld false [] [Bot.crashed type_error]) ∧
  Builtins.callback_message Scenario.two_users Bot.reliable
    (Builtins.mkMessage "groupchat" (Builtins.mkJID "test" "conference.localhost" "nick") "hello")
    Bot.initial
  = (Ok tt, Bot.mkWorld false [] [Bot.crashed type_error]).
Proof. split; vm_compute; reflexivity. Qed.

(** ** Connecting: the presence list *)

Create HintDb connected.

Section keeps_connected.
Import Bot.

Lemma keeps_ret {A} (a : A) : keeps_connected (mret a).
Proof. by intros w. Qed.

Lemma keeps_raise {A} (e : exn) : keeps_connected (@Py.raise world A e).
Proof. by intros w. Qed.

Lemma keeps_bind {A B} (m : M world A) (k : A → M world B) :
  keeps_connected m → (∀ a, keeps_connected (k a)) → keeps_connected (m ≫= k).
Proof.
  intros Hm Hk w. run. specialize (Hm w).
  destruct (m w) as [[a|e] w']; simpl in *; [|done].
  by rewrite Hk.
Qed.

Lemma keeps_try_except {A} (m : M world A) (h : exn → M world A) :
  keeps_connected m → (∀ e, keeps_connected (h e)) → keeps_connected (try_except m h).
Proof.
  intros Hm Hh w. run. specialize (Hm w).
  destruct (m w) as [[a|e] w']; simpl in *; [done|].
  by rewrite Hh.
Qed.

Lemma keeps_logging lvl f a : keeps_connected (logging lvl f a).
Proof. by intros w. Qed.

Lemma keeps_call c o : keeps_connected (call c o).
Proof. intros w. unfold call. run. by destruct o. Qed.

Lemma keeps_for_each {A} (l : list A) (body : A → M world unit) :
  (∀ a, keeps_connected (body a)) → keeps_connected (for_each l body).
Proof.
  intros Hbody. induction l as [|a l IH]; [by intros w|].
  simpl. by apply (keeps_bind (body a) (λ _, for_each l body)).
Qed.

End keeps_connected.

#[global] Hint Resolve keeps_ret keeps_raise keeps_logging keeps_call : connected.

(** Walk down a computation, one construct at a time. *)
Ltac keeps :=
  repeat first
    [ solve [auto with connected]
    | apply keeps_bind; [|intros ?]
    | apply keeps_try_except; [|intros ?]
    | apply keeps_for_each; intros ?
    | match goal with
      | |- Bot.keeps_connected (match ?x with _ => _ end) => destruct x
      end ].

Section connect.
Import Bot.

Variable compat_str : presence_entry → option string.
Variable cfg : config.
Variable be : backend.

Lemma core_join_one_keeps room : keeps_connected (CorePlugins.join_one compat_str cfg be room).
Proof.
  unfold CorePlugins.join_one, CorePlugins.getitem, query_room_join, join_room.
  keeps.
Qed.

Lemma core_join_presence_keeps rooms :
  keeps_connected (CorePlugins.join_presence compat_str cfg be rooms).
Proof.
  induction rooms as [|room rest IH]; simpl; [keeps|].
  apply keeps_bind; [apply core_join_one_keeps|].
  intros []; [done|keeps].
Qed.

Lemma builtins_join_loop_keeps rooms :
  keeps_connected (for_each rooms (Builtins.join_one cfg be)).
Proof.
  apply keeps_for_each. intros room. unfold Builtins.join_one, Builtins.as_str, join_room.
  destruct room; keeps.
Qed.

Lemma builtins_keep_alive_keeps : keeps_connected (Builtins.keep_alive cfg be).
Proof.
  unfold Builtins.keep_alive, send. keeps.
Qed.

(** After [callback_connect], the plugin is connected, however the call
    ended. *)
Lemma core_callback_connect_connected w :
  connected (snd (CorePlugins.callback_connect compat_str cfg be w)) = true.
Proof.
  unfold CorePlugins.callback_connect, logging, set_connected. run.
  destruct (connected w) eqn:Hc; simpl; [done|].
  by rewrite core_join_presence_keeps.
Qed.

Lemma builtins_callback_connect_connected w :
  connected (snd (Builtins.callback_connect cfg be w)) = true.
Proof.
  unfold Builtins.callback_connect, set_connected.
  unfold logging at 1. run.
  destruct (connected w) eqn:Hc; simpl; [done|].
  match goal with
  | |- connected (snd (match ?m ?w0 with _ => _ end)) = _ =>
      pose proof (builtins_join_loop_keeps (CHATROOM_PRESENCE cfg) w0) as Hloop;
      change (connected (snd (m w0)) = true) in Hloop;
      destruct (m w0) as [[[]|e] w1]
  end; simpl in *; [|done].
  pose proof (builtins_keep_alive_keeps
                (mkWorld (connected w1) (calls w1)
                   (log w1 ++ [LogRecord INFO "Start keep alive" [] false]))) as Hk.
  unfold logging. run.
  destruct (Builtins.keep_alive cfg be _) as [[[]|e] w2]; simpl in *; congruence.
Qed.

(** C7.  [callback_connect] called while the plugin is connected joins no
    room and starts no keep-alive: it makes no call on the backend at all,
    and leaves the state as it was, but for its own line in the log.  And
    the plugin is connected after every call, so this holds of every call
    after the first. *)
Theorem C7_callback_connect_when_connected_is_a_noop w :
  connected w = true →
  CorePlugins.callback_connect compat_str cfg be w
    = (Ok tt, mkWorld true (calls w) (log w ++ [callback_connect_line])) ∧
  Builtins.callback_connect cfg be w
    = (Ok tt, mkWorld true (calls w) (log w ++ [callback_connect_line])) ∧
  (∀ w0, connected (snd (CorePlugins.callback_connect compat_str cfg be w0)) = true) ∧
  (∀ w0, connected (snd (Builtins.callback_connect cfg be w0)) = true).
Proof.
  intros Hc. split; [|split; [|split]].
  - unfold CorePlugins.callback_connect, logging. run. by rewrite Hc.
  - unfold Builtins.callback_connect, logging. run. by rewrite Hc.
  - apply core_callback_connect_connected.
  - apply builtins_callback_connect_connected.
Qed.

(** From here on [compat_str] gives back the name of an entry that is a
    string. *)
Hypothesis compat_str_name : ∀ r, compat_str (RoomName r) = Some r.

(** One turn of the loop of the first version. *)
Lemma builtins_join_one room w :
  Builtins.join_one cfg be (RoomName room) w =
    (match join_room_raises be room with None => Ok tt | Some e => Raise e end,
     mkWorld (connected w) (calls w ++ [JoinRoom room (CHATROOM_FN cfg) None])
             (log w ++ [LogRecord INFO ("Join room " +:+ room) [] false])).
Proof.
  unfold Builtins.join_one, join_room, call, logging. run.
  by destruct (join_room_raises be room).
Qed.

(** From here on [compat_str] gives [None] for an entry that is a pair, and
    the loop takes the pair apart. *)
Hypothesis compat_str_pair : ∀ r p, compat_str (RoomWithPassword r p) = None.

(** One turn of the loop, for an entry of either shape whose room can be
    joined. *)
Lemma core_join_one_entry_joins entry w :
  Presence.joinable be entry →
  CorePlugins.join_one compat_str cfg be entry w =
    (Ok CorePlugins.Next,
     mkWorld (connected w) (calls w ++ Presence.calls_of cfg be entry)
             (log w ++ Joining.lines_of cfg be entry)).
Proof using compat_str_name compat_str_pair.
  intros Hjoin.
  unfold CorePlugins.join_one, CorePlugins.getitem, query_room_join, join_room, call, logging,
    Presence.calls_of, Presence.join_of, Presence.legacy_join_of, Presence.joinable,
    Joining.lines_of, Joining.announce, Joining.legacy_warning in *.
  destruct entry as [r|r p]; simpl in *.
  - rewrite compat_str_name. run.
    destruct Hjoin as [->|[-> Hlegacy]]; simpl; [by rewrite <- !app_assoc|].
    rewrite Hlegacy. simpl. by rewrite <- !app_assoc.
  - rewrite compat_str_pair. run.
    destruct Hjoin as [->|[-> Hlegacy]]; simpl; [by rewrite <- !app_assoc|].
    rewrite Hlegacy. simpl. by rewrite <- !app_assoc.
Qed.

(** One turn for an entry whose join through [query_room] raises. *)
Lemma core_join_one_entry_fails entry w e :
  query_room_join_raises be (Presence.room entry) = Some e →
  e ≠ NotImplementedError →
  CorePlugins.join_one compat_str cfg be entry w =
    ((if bool_decide (e = SlackAPIResponseError "user_is_bot")
      then Ok CorePlugins.Return else Raise e),
     mkWorld (connected w) (calls w ++ [Presence.join_of cfg entry])
             (log w ++ Joining.announce cfg entry ++
              if bool_decide (e = SlackAPIResponseError "user_is_bot")
              then [CorePlugins.ignoring_presence] else [])).
Proof using compat_str_name compat_str_pair.
  intros He Hni.
  unfold CorePlugins.join_one, CorePlugins.getitem, query_room_join, call, logging,
    Presence.join_of, Joining.announce, CorePlugins.ignoring_presence in *.
  destruct entry as [r|r p]; simpl in *.
  - rewrite compat_str_name. run. rewrite He. simpl.
    destruct e as [|error| | | | |]; simpl; try done;
      try (by rewrite <- !app_assoc, ?app_nil_r).
    destruct (decide (error ≠ "user_is_bot")) as [Hne|Heq%dec_stable]; simpl.
    + rewrite bool_decide_eq_false_2 by congruence. by rewrite <- !app_assoc, ?app_nil_r.
    + subst error. by rewrite <- !app_assoc.
  - rewrite compat_str_pair. run. rewrite He. simpl.
    destruct e as [|error| | | | |]; simpl; try done;
      try (by rewrite <- !app_assoc, ?app_nil_r).
    destruct (decide (error ≠ "user_is_bot")) as [Hne|Heq%dec_stable]; simpl.
    + rewrite bool_decide_eq_false_2 by congruence. by rewrite <- !app_assoc, ?app_nil_r.
    + subst error. by rewrite <- !app_assoc.
Qed.

(** One turn for an entry on a backend without [query_room], whose legacy
    [join_room] raises: the handler of [SlackAPIResponseError] does not
    cover what is raised inside the handler of [NotImplementedError]. *)
Lemma core_join_one_entry_legacy_fails entry w e :
  query_room_join_raises be (Presence.room entry) = Some NotImplementedError →
  join_room_raises be (Presence.room entry) = Some e →
  CorePlugins.join_one compat_str cfg be entry w =
    (Raise e,
     mkWorld (connected w)
             (calls w ++ [Presence.join_of cfg entry; Presence.legacy_join_of cfg entry])
             (log w ++ Joining.announce cfg entry ++ [Joining.legacy_warning])).
Proof using compat_str_name compat_str_pair.
  intros Hni He.
  unfold CorePlugins.join_one, CorePlugins.getitem, query_room_join, join_room, call, logging,
    Presence.join_of, Presence.legacy_join_of, Joining.announce, Joining.legacy_warning in *.
  destruct entry as [r|r p]; simpl in *.
  - rewrite compat_str_name. run. rewrite Hni. simpl. rewrite He. simpl.
    by rewrite <- !app_assoc.
  - rewrite compat_str_pair. run. rewrite Hni. simpl. rewrite He. simpl.
    by rewrite <- !app_assoc.
Qed.

(** The loop over entries that can be joined, up to one that ends it. *)
Lemma core_join_presence_ends pre entry post w one cs ls :
  Forall (Presence.joinable be) pre →
  (∀ w0, CorePlugins.join_one compat_str cfg be entry w0 =
         (one, mkWorld (connected w0) (calls w0 ++ cs) (log w0 ++ ls))) →
  one ≠ Ok CorePlugins.Next →
  CorePlugins.join_presence compat_str cfg be (pre ++ entry :: post) w =
    (match one with Ok _ => Ok tt | Raise e => Raise e end,
     mkWorld (connected w)
             (calls w ++ concat (Presence.calls_of cfg be <$> pre) ++ cs)
             (log w ++ concat (Joining.lines_of cfg be <$> pre) ++ ls)).
Proof using compat_str_name compat_str_pair.
  intros Hpre Hone Hnext. revert w.
  induction Hpre as [|first pre Hfirst _ IH]; intros w.
  - csimpl. run. rewrite Hone. by destruct one as [[]|e].
  - csimpl. run. rewrite core_join_one_entry_joins by done.
    rewrite IH. simpl. by rewrite <- !app_assoc.
Qed.

(** The joins of the first version up to a failing one, whatever comes
    after it in the list. *)
Lemma builtins_join_loop_stops_at names room rest w e :
  (∀ r, r ∈ names → join_room_raises be r = None) →
  join_room_raises be room = Some e →
  fst (for_each ((RoomName <$> names) ++ RoomName room :: rest)
         (Builtins.join_one cfg be) w) = Raise e ∧
  calls (snd (for_each ((RoomName <$> names) ++ RoomName room :: rest)
                (Builtins.join_one cfg be) w)) =
    calls w ++ ((λ r, JoinRoom r (CHATROOM_FN cfg) None) <$> names ++ [room]).
Proof.
  intros Hpre Hfail. revert w.
  induction names as [|r names IH]; intros w; csimpl; unfold Py.bind;
    rewrite builtins_join_one.
  - by rewrite Hfail.
  - rewrite (Hpre r) by apply list_elem_of_here. csimpl.
    destruct (IH (λ r' Hr', Hpre r' (list_elem_of_further _ _ _ Hr'))
                 (mkWorld (connected w) (calls w ++ [JoinRoom r (CHATROOM_FN cfg) None])
                    (log w ++ [LogRecord INFO ("Join room " +:+ r) [] false])))
      as [-> ->].
    csimpl. by rewrite <- app_assoc.
Qed.

(** C6 (as the code has it).  In [callback_connect] a failed join ends the
    room-joining loop: the entries of the presence list after the failing
    one are not attempted.  In the current plugin, for entries that are
    names or (room, password) pairs, the entries before the failing one
    having been joined through [query_room] or, where that is not
    implemented, through the legacy [join_room]:
    - when the join through [query_room] raises [SlackAPIResponseError]
      with [user_is_bot], a warning is logged and [callback_connect]
      returns normally;
    - when it raises any other exception but [NotImplementedError], the
      exception propagates out of [callback_connect];
    - when it raises [NotImplementedError] and the legacy [join_room]
      raises, whatever that raises propagates, [user_is_bot] included.
    In the first version every failure of a join propagates. *)
Theorem C6_join_failure_ends_the_presence_loop w :
  connected w = false →
  (∀ pre entry post e,
     CHATROOM_PRESENCE cfg = pre ++ entry :: post →
     Forall (Presence.joinable be) pre →
     query_room_join_raises be (Presence.room entry) = Some e →
     e ≠ NotImplementedError →
     let user_is_bot := bool_decide (e = SlackAPIResponseError "user_is_bot") in
     let core := CorePlugins.callback_connect compat_str cfg be w in
     fst core = (if user_is_bot then Ok tt else Raise e) ∧
     calls (snd core)
       = calls w ++ concat (Presence.calls_of cfg be <$> pre) ++ [Presence.join_of cfg entry] ∧
     log (snd core)
       = log w ++ [callback_connect_line] ++ concat (Joining.lines_of cfg be <$> pre) ++
         Joining.announce cfg entry ++
         (if user_is_bot then [CorePlugins.ignoring_presence] else [])) ∧
  (∀ pre entry post e,
     CHATROOM_PRESENCE cfg = pre ++ entry :: post →
     Forall (Presence.joinable be) pre →
     query_room_join_raises be (Presence.room entry) = Some NotImplementedError →
     join_room_raises be (Presence.room entry) = Some e →
     let core := CorePlugins.callback_connect compat_str cfg be w in
     fst core = Raise e ∧
     calls (snd core)
       = calls w ++ concat (Presence.calls_of cfg be <$> pre) ++
         [Presence.join_of cfg entry; Presence.legacy_join_of cfg entry] ∧
     log (snd core)
       = log w ++ [callback_connect_line] ++ concat (Joining.lines_of cfg be <$> pre) ++
         Joining.announce cfg entry ++ [Joining.legacy_warning]) ∧
  (∀ names room rest e,
     CHATROOM_PRESENCE cfg = (RoomName <$> names) ++ RoomName room :: rest →
     (∀ r, r ∈ names → join_room_raises be r = None) →
     join_room_raises be room = Some e →
     let builtins := Builtins.callback_connect cfg be w in
     fst builtins = Raise e ∧
     calls (snd builtins)
       = calls w ++ ((λ r, JoinRoom r (CHATROOM_FN cfg) None) <$> names ++ [room])).
Proof using compat_str_name compat_str_pair.
  intros Hc. split; [|split].
  - intros pre entry post e Hpresence Hpre Hfail Hni user_is_bot core. subst core.
    unfold CorePlugins.callback_connect, logging, set_connected. run.
    rewrite Hc, Hpresence. simpl.
    rewrite (core_join_presence_ends pre entry post _
               (if user_is_bot then Ok CorePlugins.Return else Raise e)
               [Presence.join_of cfg entry]
               (Joining.announce cfg entry ++
                if user_is_bot then [CorePlugins.ignoring_presence] else [])).
    + simpl. subst user_is_bot.
      destruct (bool_decide (e = SlackAPIResponseError "user_is_bot")); simpl;
        by rewrite <- ?app_assoc.
    + done.
    + intros w0. by apply core_join_one_entry_fails.
    + subst user_is_bot. by destruct (bool_decide _).
  - intros pre entry post e Hpresence Hpre Hni Hfail core. subst core.
    unfold CorePlugins.callback_connect, logging, set_connected. run.
    rewrite Hc, Hpresence. simpl.
    rewrite (core_join_presence_ends pre entry post _ (Raise e)
               [Presence.join_of cfg entry; Presence.legacy_join_of cfg entry]
               (Joining.announce cfg entry ++ [Joining.legacy_warning])).
    + simpl. by rewrite <- ?app_assoc.
    + done.
    + intros w0. by apply core_join_one_entry_legacy_fails.
    + done.
  - intros names room rest e Hpresence Hpre Hfail builtins. subst builtins.
    unfold Builtins.callback_connect, set_connected.
    unfold logging at 1. run. rewrite Hc, Hpresence. simpl.
    match goal with
    | |- context [for_each _ _ ?w0] =>
        destruct (builtins_join_loop_stops_at names room rest w0 e Hpre Hfail)
          as [Hfst Hcalls];
        destruct (for_each ((RoomName <$> names) ++ RoomName room :: rest)
                    (Builtins.join_one cfg be) w0)
          as [[[]|e'] w1]
    end; simpl in *; [done|].
    by inversion Hfst.
Qed.

End connect.

(** The claim C6 as the specification has it does not hold: with two rooms
    in the presence list and a backend on which the first cannot be joined,
    [callback_connect] raises, and the second room is never attempted. *)
Lemma C6_join_failure_raises_and_skips_the_rest :
  Bot.CHATROOM_PRESENCE Scenario.two_rooms
    = [Bot.RoomName "room1@conference.localhost"; Bot.RoomName "room2@conference.localhost"] ∧
  fst (CorePlugins.callback_connect Scenario.compat_str Scenario.two_rooms Scenario.room1_unreachable Bot.initial)
    = Raise (Exception "room1@conference.localhost is unreachable") ∧
  Bot.calls (snd (CorePlugins.callback_connect Scenario.compat_str Scenario.two_rooms Scenario.room1_unreachable
                    Bot.initial))
    = [Bot.QueryRoomJoin "room1@conference.localhost" "bot" None].
Proof. repeat split; vm_compute; reflexivity. Qed.

(** On a Slack bot account the first join is answered [user_is_bot]:
    [callback_connect] logs its warning and returns, and the second room is
    never attempted. *)
Example callback_connect_on_a_slack_bot_account :
  let after :=
    snd (CorePlugins.callback_connect Scenario.compat_str Scenario.two_rooms
           Scenario.slack_bot_account Bot.initial) in
  fst (CorePlugins.callback_connect Scenario.compat_str Scenario.two_rooms
         Scenario.slack_bot_account Bot.initial) = Ok tt ∧
  Bot.calls after = [Bot.QueryRoomJoin "room1@conference.localhost" "bot" None] ∧
  last (Bot.log after) = Some CorePlugins.ignoring_presence.
Proof. repeat split; vm_compute; reflexivity. Qed.

(** The claim C3 as the specification has it does not hold: with two rooms
    to relay to and a backend on which nothing can be sent to the first, the
    second room is never sent to. *)
Lemma C3_failed_send_skips_the_remaining_targets :
  let after :=
    snd (CorePlugins.callback_message Scenario.two_rooms Scenario.room1_unreachable
           (CorePlugins.mkMessage "chat" (CorePlugins.Person "gbin@localhost") "hello")
           Bot.initial) in
  Bot.CHATROOM_RELAY Scenario.two_rooms !! "gbin@localhost"
    = Some (PyTuple ["room1@conference.localhost"; "room2@conference.localhost"]) ∧
  Bot.calls after = [Bot.Send "room1@conference.localhost" "hello" "groupchat"] ∧
  Bot.Send "room2@conference.localhost" "hello" "groupchat" ∉ Bot.calls after.
Proof.
  assert (Bot.calls
            (snd (CorePlugins.callback_message Scenario.two_rooms Scenario.room1_unreachable
                    (CorePlugins.mkMessage "chat" (CorePlugins.Person "gbin@localhost") "hello")
                    Bot.initial))
          = [Bot.Send "room1@conference.localhost" "hello" "groupchat"]) as Hcalls
    by (vm_compute; reflexivity).
  simpl. split; [vm_compute; reflexivity|]. split; [exact Hcalls|].
  rewrite Hcalls. intros Hin%list_elem_of_singleton. discriminate.
Qed.

(** The claim C4 as the specification has it does not hold: with three
    rooms configured for the sender and a backend on which nothing can be
    sent to the second, the third room gets no broadcast. *)
Lemma C4_third_room_gets_no_broadcast :
  let after :=
    snd (CorePlugins.callback_message Stage.relay_to_three Stage.second_unreachable
           (CorePlugins.mkMessage "chat" (CorePlugins.Person "gbin@localhost") "hello")
           Bot.initial) in
  Bot.CHATROOM_RELAY Stage.relay_to_three !! "gbin@localhost"
    = Some (PyTuple ["room1@conference.localhost"; "room2@conference.localhost";
                     "room3@conference.localhost"]) ∧
  Bot.calls after
    = [Bot.Send "room1@conference.localhost" "hello" "groupchat";
       Bot.Send "room2@conference.localhost" "hello" "groupchat"] ∧
  Bot.Send "room3@conference.localhost" "hello" "groupchat" ∉ Bot.calls after.
Proof.
  assert (Bot.calls
            (snd (CorePlugins.callback_message Stage.relay_to_three Stage.second_unreachable
                    (CorePlugins.mkMessage "chat" (CorePlugins.Person "gbin@localhost") "hello")
                    Bot.initial))
          = [Bot.Send "room1@conference.localhost" "hello" "groupchat";
             Bot.Send "room2@conference.localhost" "hello" "groupchat"]) as Hcalls
    by (vm_compute; reflexivity).
  simpl. split; [vm_compute; reflexivity|]. split; [exact Hcalls|].
  rewrite Hcalls. intros [Hin|Hin%list_elem_of_singleton]%elem_of_cons; discriminate.
Qed.

(** ** The room commands *)

Section room_join.
Import Bot.

Variable cfg : config.
Variable be : backend.

Lemma split_space_1_length args : 1 ≤ length (split_space_1 args) ≤ 2.
Proof.
  induction args as [|c rest IH]; simpl; [lia|].
  destruct (Ascii.eqb c " "); simpl; [lia|].
  destruct (split_space_1 rest); simpl in *; lia.
Qed.

(** The argument string without a space is the room, and there is no
    password. *)
Lemma split_space_1_empty : split_space_1 "" = [""].
Proof. reflexivity. Qed.

Lemma room_join_runs message args w :
  ∃ room password,
    split_space_1 args = room :: match password with Some p => [p] | None => [] end ∧
    CorePlugins.room_join cfg be message args w =
      (CorePlugins.room_join_reply be room,
       mkWorld (connected w) (calls w ++ [QueryRoomJoin room (CHATROOM_FN cfg) password])
               (log w)).
Proof.
  pose proof (split_space_1_length args) as Hlen.
  unfold CorePlugins.room_join, CorePlugins.room_join_reply, query_room_join, call.
  destruct (split_space_1 args) as [|room [|p [|]]]; simpl in Hlen; try lia.
  - exists room, None. split; [done|]. run.
    destruct (query_room_join_raises be room) as [[|error| | | | |]|]; simpl; try done.
    destruct (decide (error ≠ "user_is_bot")) as [Hne|Heq%dec_stable]; simpl.
    + by rewrite decide_False.
    + by rewrite decide_True.
  - exists room, (Some p). split; [done|]. run.
    destruct (query_room_join_raises be room) as [[|error| | | | |]|]; simpl; try done.
    destruct (decide (error ≠ "user_is_bot")) as [Hne|Heq%dec_stable]; simpl.
    + by rewrite decide_False.
    + by rewrite decide_True.
Qed.

Lemma room_join_reply_not_usage room :
  CorePlugins.room_join_reply be room ≠ Ok "Please tell me which chatroom to join.".
Proof.
  unfold CorePlugins.room_join_reply.
  destruct (query_room_join_raises be room) as [[|error| | | | |]|]; try done.
  destruct (decide (error = "user_is_bot")); done.
Qed.

(** C9.  [args.split(' ', 1)] has at least one element for every argument
    string, so the test [arglen < 1] of [room_join] is never true and the
    reply ['Please tell me which chatroom to join.'] is never given.  With
    the empty argument string, [room_join] attempts to join the room whose
    name is the empty string, without a password. *)
Theorem C9_room_join_usage_reply_unreachable message :
  (∀ args, 1 ≤ length (split_space_1 args) ∧ (length (split_space_1 args) <? 1) = false) ∧
  (∀ args w,
     fst (CorePlugins.room_join cfg be message args w)
       ≠ Ok "Please tell me which chatroom to join.") ∧
  (∀ w,
     CorePlugins.room_join cfg be message "" w =
       (CorePlugins.room_join_reply be "",
        mkWorld (connected w) (calls w ++ [QueryRoomJoin "" (CHATROOM_FN cfg) None])
                (log w))).
Proof.
  split; [|split].
  - intros args. pose proof (split_space_1_length args).
    split; [lia|]. apply Nat.ltb_ge. lia.
  - intros args w.
    destruct (room_join_runs message args w) as (room & password & _ & ->).
    apply room_join_reply_not_usage.
  - intros w.
    destruct (room_join_runs message "" w) as (room & password & Hsplit & ->).
    rewrite split_space_1_empty in Hsplit.
    destruct password; by simplify_eq.
Qed.

End room_join.

(** ** Identifiers *)

Section identifier.
Import Text.

Lemma app_cons c a b : String c a +:+ b = String c (a +:+ b).
Proof. reflexivity. Qed.

Lemma app_empty_r s : s +:+ "" = s.
Proof. induction s as [|c s IH]; [done|]. by rewrite app_cons, IH. Qed.

Lemma app_assoc_str a b c : (a +:+ b) +:+ c = a +:+ b +:+ c.
Proof. induction a as [|x a IH]; [done|]. by rewrite !app_cons, IH. Qed.

Lemma mem_app c a b : mem c (a +:+ b) = mem c a || mem c b.
Proof.
  induction a as [|x a IH]; [done|].
  rewrite app_cons. simpl. rewrite IH. by rewrite orb_assoc.
Qed.

Lemma split_first_app c a b :
  mem c a = false → split_first c (a +:+ String c b) = Some (a, b).
Proof.
  induction a as [|x a IH]; intros Hmem.
  - change ("" +:+ String c b) with (String c b). simpl. by rewrite Ascii.eqb_refl.
  - rewrite app_cons. simpl in *. apply orb_false_iff in Hmem as [-> Ha].
    by rewrite IH.
Qed.

Lemma split_first_None c s : mem c s = false → split_first c s = None.
Proof.
  induction s as [|x s IH]; [done|]. simpl.
  intros [-> Hs]%orb_false_iff. by rewrite IH.
Qed.

Lemma split_first_Some c s a b :
  split_first c s = Some (a, b) → s = a +:+ String c b ∧ mem c a = false.
Proof.
  revert a. induction s as [|x s IH]; intros a; [done|]. simpl.
  destruct (Ascii.eqb x c) eqn:Hx.
  - intros [= <- <-]. apply Ascii.eqb_eq in Hx as ->. done.
  - destruct (split_first c s) as [[a' b']|]; [|done].
    intros [= <- <-]. destruct (IH a' eq_refl) as [-> Ha'].
    simpl. by rewrite Hx, Ha'.
Qed.

Lemma split_first_is_None c s : split_first c s = None → mem c s = false.
Proof.
  induction s as [|x s IH]; [done|]. simpl.
  destruct (Ascii.eqb x c); [done|].
  destruct (split_first c s) as [[]|]; [done|]. intros _. by apply IH.
Qed.

Lemma split_last_None c s : mem c s = false → split_last c s = None.
Proof.
  induction s as [|x s IH]; [done|]. simpl.
  intros [-> Hs]%orb_false_iff. by rewrite IH.
Qed.

Lemma split_last_app c a b :
  mem c b = false → split_last c (a +:+ String c b) = Some (a, b).
Proof.
  intros Hb. induction a as [|x a IH].
  - change ("" +:+ String c b) with (String c b). simpl.
    by rewrite split_last_None, Ascii.eqb_refl.
  - rewrite app_cons. simpl. by rewrite IH.
Qed.

Lemma split_last_Some c s a b :
  split_last c s = Some (a, b) → s = a +:+ String c b ∧ mem c b = false.
Proof.
  revert a. induction s as [|x s IH]; intros a; [done|]. simpl.
  destruct (split_last c s) as [[a' b']|] eqn:Hs.
  - intros [= <- <-]. by destruct (IH a' eq_refl) as [-> Hb'].
  - destruct (Ascii.eqb x c) eqn:Hx; [|done].
    intros [= <- <-]. apply Ascii.eqb_eq in Hx as ->. split; [done|].
    clear IH. induction s as [|y s IH]; [done|]. simpl in *.
    destruct (split_last c s) as [[]|]; [done|].
    destruct (Ascii.eqb y c); [done|]. by rewrite IH.
Qed.

(** An identifier that [parse] gives is parsed back from its string
    form. *)
Lemma parse_toString raw id :
  Identifier.parse raw = Identifier.Parsed id →
  Identifier.parse (Identifier.toString id) = Identifier.Parsed id.
Proof.
  unfold Identifier.parse.
  destruct (split_first "/" raw) as [[address resource]|] eqn:Hfirst.
  - apply split_first_Some in Hfirst as [-> Haddress].
    destruct (split_last "@" address) as [[person host]|] eqn:Hlast; [|done].
    intros [= <-]. apply split_last_Some in Hlast as [-> Hhost].
    unfold Identifier.toString. simpl.
    replace (person +:+ "@" +:+ host +:+ "/" +:+ resource)
      with ((person +:+ String "@" host) +:+ String "/" resource)
      by (rewrite app_assoc_str; reflexivity).
    rewrite split_first_app by done.
    by rewrite split_last_app.
  - apply split_first_is_None in Hfirst.
    destruct (split_last "@" raw) as [[person host]|] eqn:Hlast; [|done].
    intros [= <-]. apply split_last_Some in Hlast as [-> Hhost].
    unfold Identifier.toString. simpl.
    rewrite app_empty_r.
    change (person +:+ "@" +:+ host) with (person +:+ String "@" host).
    rewrite split_first_None by done.
    by rewrite split_last_app.
Qed.

(** C8.  For a well-formed address [person@host/resource] (a person without
    [/], which may contain [@]; a host without [@] and [/]; neither of them
    empty), parsing gives that person, host and resource, and parsing the
    string form of the parsed identifier gives the same identifier again:
    [parse (toString (parse s)) = parse s]. *)
Theorem C8_parse_toString_round_trip person host resource :
  person ≠ "" → host ≠ "" →
  mem "/" person = false → mem "/" host = false → mem "@" host = false →
  let s := person +:+ "@" +:+ host +:+ "/" +:+ resource in
  Identifier.parse s = Identifier.Parsed (Identifier.mk person host (Some resource)) ∧
  ∀ id, Identifier.parse s = Identifier.Parsed id →
        Identifier.parse (Identifier.toString id) = Identifier.parse s.
Proof.
  intros _ _ Hperson Hhost_slash Hhost_at s.
  assert (Identifier.parse s
          = Identifier.Parsed (Identifier.mk person host (Some resource))) as Hparse.
  { subst s. unfold Identifier.parse.
    replace (person +:+ "@" +:+ host +:+ "/" +:+ resource)
      with ((person +:+ String "@" host) +:+ String "/" resource)
      by (rewrite app_assoc_str; reflexivity).
    rewrite split_first_app
      by (rewrite mem_app; simpl; by rewrite Hperson, Hhost_slash).
    by rewrite split_last_app. }
  split; [done|].
  intros id Hid. rewrite Hid. by apply (parse_toString s).
Qed.

End identifier.

(** ** Chunking *)

Section chunking.
Import Text Pipeline.

Lemma length_app_str a b : String.length (a +:+ b) = String.length a + String.length b.
Proof. induction a as [|c a IH]; [done|]. rewrite app_cons. simpl. by rewrite IH. Qed.

Lemma length_take n s : String.length (take n s) = n `min` String.length s.
Proof.
  revert s. induction n as [|n IH]; intros [|c s]; simpl; try done.
  by rewrite IH.
Qed.

Lemma length_drop n s : String.length (drop n s) = String.length s - n.
Proof. revert s. induction n as [|n IH]; intros [|c s]; simpl; try done. Qed.

Lemma take_drop n s : take n s +:+ drop n s = s.
Proof.
  revert s. induction n as [|n IH]; intros [|c s]; simpl; try done.
  by rewrite app_cons, IH.
Qed.

Lemma length_join cs limit :
  Forall (λ c, String.length c ≤ limit) cs →
  String.length (join cs) ≤ length cs * limit.
Proof.
  induction 1 as [|c cs Hc _ IH]; simpl; [lia|].
  rewrite length_app_str. lia.
Qed.

(** [chunk_count] is the least number of chunks that can hold the text. *)
Lemma chunk_count_holds limit n : 0 < limit → n ≤ chunk_count limit n * limit.
Proof.
  intros Hlimit. unfold chunk_count.
  pose proof (Nat.div_mod_eq (n + limit - 1) limit).
  pose proof (Nat.mod_upper_bound (n + limit - 1) limit). nia.
Qed.

Lemma chunk_count_least limit n m : 0 < limit → n ≤ m * limit → chunk_count limit n ≤ m.
Proof.
  intros Hlimit Hm. unfold chunk_count.
  apply Nat.lt_succ_r, Nat.Div0.div_lt_upper_bound. nia.
Qed.

Lemma chunk_count_exceeds limit n : 0 < limit → limit < n → 2 ≤ chunk_count limit n.
Proof.
  intros Hlimit Hn. pose proof (chunk_count_holds limit n Hlimit). nia.
Qed.

Lemma cut_point_bounds s lo hi : lo ≤ hi → lo ≤ cut_point s lo hi ≤ hi.
Proof.
  intros Hle. unfold cut_point.
  destruct (List.find _ _) as [p|] eqn:Hfind; simpl; [|lia].
  apply List.find_some in Hfind as [Hin _].
  apply list_elem_of_In, elem_of_reverse, elem_of_seq in Hin. lia.
Qed.

Lemma split_go_length limit k s : length (split_go limit k s) = k.
Proof.
  revert s. induction k as [|[|k] IH]; intros s; [done..|].
  change (length (split_go limit (S (S k)) s))
    with (S (length (split_go limit (S k)
                       (drop (cut_point s (String.length s - S k * limit) limit) s)))).
  by rewrite IH.
Qed.

Lemma split_go_join limit k s : 1 ≤ k → join (split_go limit k s) = s.
Proof.
  revert s. induction k as [|[|k] IH]; intros s Hk; [lia| |].
  - simpl. apply app_empty_r.
  - change (join (split_go limit (S (S k)) s))
      with (let p := cut_point s (String.length s - S k * limit) limit in
            take p s +:+ join (split_go limit (S k) (drop p s))).
    cbv zeta. rewrite IH by lia. apply take_drop.
Qed.

Lemma split_go_bound limit k s :
  1 ≤ k → String.length s ≤ k * limit →
  Forall (λ c, String.length c ≤ limit) (split_go limit k s).
Proof.
  revert s. induction k as [|[|k] IH]; intros s Hk Hlen; [lia| |].
  - constructor; [lia|constructor].
  - change (split_go limit (S (S k)) s)
      with (let p := cut_point s (String.length s - S k * limit) limit in
            take p s :: split_go limit (S k) (drop p s)).
    cbv zeta.
    pose proof (cut_point_bounds s (String.length s - S k * limit) limit) as Hp.
    constructor.
    + rewrite length_take. lia.
    + apply IH; [lia|]. rewrite length_drop. lia.
Qed.

(** The chunking does what the specification asks of it: the chunks are
    contiguous and in order, each is within the limit, and no chunking
    within the limit has fewer chunks. *)
Lemma split_body_spec limit s :
  0 < limit →
  join (split_body limit s) = s ∧
  Forall (λ c, String.length c ≤ limit) (split_body limit s) ∧
  ∀ cs, join cs = s → Forall (λ c, String.length c ≤ limit) cs →
        s ≠ "" → length (split_body limit s) ≤ length cs.
Proof.
  intros Hlimit. unfold split_body.
  destruct (String.length s <=? limit) eqn:Hfit.
  - apply Nat.leb_le in Hfit. split; [apply app_empty_r|].
    split; [by repeat constructor|].
    intros [|c cs] Hjoin _ Hne; simpl in *; [congruence|lia].
  - apply Nat.leb_gt in Hfit.
    pose proof (chunk_count_exceeds limit _ Hlimit Hfit).
    pose proof (chunk_count_holds limit (String.length s) Hlimit).
    split; [apply split_go_join; lia|].
    split; [apply split_go_bound; lia|].
    intros cs Hjoin Hcs _. rewrite split_go_length.
    apply chunk_count_least; [done|]. rewrite <- Hjoin. by apply length_join.
Qed.

(** A text within the limit is one chunk. *)
Lemma split_body_fits limit s : String.length s ≤ limit → split_body limit s = [s].
Proof. intros Hfit. unfold split_body. by rewrite (proj2 (Nat.leb_le _ _) Hfit). Qed.

(** A text of three times the limit is cut at the limit and at twice the
    limit, wherever its whitespace is. *)
Lemma split_body_three limit s :
  0 < limit → String.length s = 3 * limit →
  split_body limit s = [take limit s; take limit (drop limit s); drop limit (drop limit s)].
Proof.
  intros Hlimit Hlen. unfold split_body.
  rewrite (proj2 (Nat.leb_gt _ _)) by lia.
  assert (chunk_count limit (String.length s) = 3) as ->.
  { unfold chunk_count. symmetry.
    apply (Nat.div_unique _ _ _ (limit - 1)); lia. }
  change (split_go limit 3 s)
    with (let p := cut_point s (String.length s - 2 * limit) limit in
          let s' := drop p s in
          let p' := cut_point s' (String.length s' - 1 * limit) limit in
          [take p s; take p' s'; drop p' s']).
  cbv zeta.
  assert (cut_point s (String.length s - 2 * limit) limit = limit) as ->.
  { pose proof (cut_point_bounds s (String.length s - 2 * limit) limit). lia. }
  assert (cut_point (drop limit s) (String.length (drop limit s) - 1 * limit) limit
          = limit) as ->.
  { pose proof (cut_point_bounds (drop limit s)
                  (String.length (drop limit s) - 1 * limit) limit) as Hp.
    rewrite length_drop in *. lia. }
  done.
Qed.

Lemma split_body_in_three limit s :
  0 < limit → String.length s = 3 * limit → in_three limit s (split_body limit s).
Proof.
  intros Hlimit Hlen. destruct (split_body_spec limit s Hlimit) as (Hjoin & Hbound & _).
  split; [|done]. by rewrite split_body_three.
Qed.

End chunking.

(** ** The execution pipeline *)

Section pipeline.
Import Text Pipeline.

Variable cfg : settings.
Variable mess : Message.

Let limit := MESSAGE_SIZE_LIMIT cfg.

Lemma for_each_send parts (q : queue) :
  for_each parts (λ part, send (build_reply cfg mess part)) q
  = (Ok tt, q ++ replies cfg mess parts).
Proof.
  revert q. induction parts as [|part parts IH]; intros q; simpl.
  - by rewrite app_nil_r.
  - unfold send at 1. run. rewrite IH. unfold replies. csimpl.
    by rewrite <- app_assoc.
Qed.

(** One text becomes the replies that carry its chunks. *)
Lemma send_reply_chunks text q :
  send_reply cfg mess text q = (Ok tt, q ++ replies cfg mess (split_body limit text)).
Proof. unfold send_reply. apply for_each_send. Qed.

(** A sequence is sent item by item, each as its chunks, up to its end. *)
Lemma consume_chunks produced how q :
  consume cfg mess produced how q
  = (match how with Exhausted => Ok tt | Fails e => Raise e end,
     q ++ replies cfg mess (concat (split_body limit <$> produced))).
Proof.
  revert q. induction produced as [|item rest IH]; intros q; csimpl.
  - run. destruct how; by rewrite app_nil_r.
  - run. rewrite send_reply_chunks, IH. unfold replies.
    by rewrite fmap_app, app_assoc.
Qed.

(** Items within the limit are their own single chunks. *)
Lemma concat_split_body_fits produced :
  Forall (λ t, String.length t ≤ limit) produced →
  concat (split_body limit <$> produced) = produced.
Proof.
  induction 1 as [|item rest Hitem _ IH]; csimpl; [done|].
  by rewrite split_body_fits, IH.
Qed.

(** Whatever the handler does, the pipeline returns normally. *)
Lemma execute_and_send_returns cmd args q :
  fst (_execute_and_send cfg cmd args mess q) = Ok tt.
Proof.
  unfold _execute_and_send, execute. run.
  destruct (cmd mess args) as [text|produced how|e].
  - by rewrite send_reply_chunks.
  - rewrite consume_chunks. destruct how; [done|]. by rewrite send_reply_chunks.
  - by rewrite send_reply_chunks.
Qed.

(** The marker is in the text of the error message. *)
Lemma error_text_contains_marker e :
  contains (MSG_ERROR_OCCURRED cfg) (error_text cfg e).
Proof. by exists "", (if hide_description cfg then "" else str_exn e). Qed.

(** C1 (as the pipeline has it).  A handler whose lazy sequence produces N
    items and then fails: when each item and the text of the error message
    are within the message-size limit, the pipeline sends exactly the N
    items, in production order, then exactly one error message whose body
    contains the marker.  In general each item, and the error text, is sent
    as its chunks, one message per chunk.  The failure never leaves the
    pipeline, whatever the handler does. *)
Theorem C1_items_then_one_error_message cmd args q produced e :
  cmd mess args = Sequence produced (Fails e) →
  (Forall (λ t, String.length t ≤ limit) produced →
   String.length (error_text cfg e) ≤ limit →
   _execute_and_send cfg cmd args mess q
   = (Ok tt, q ++ replies cfg mess produced ++ [build_reply cfg mess (error_text cfg e)])) ∧
  _execute_and_send cfg cmd args mess q
  = (Ok tt,
     q ++ replies cfg mess (concat (split_body limit <$> produced))
       ++ replies cfg mess (split_body limit (error_text cfg e))) ∧
  contains (MSG_ERROR_OCCURRED cfg) (error_text cfg e) ∧
  (∀ cmd' args' q', fst (_execute_and_send cfg cmd' args' mess q') = Ok tt).
Proof.
  intros Hcmd.
  assert (_execute_and_send cfg cmd args mess q
          = (Ok tt,
             q ++ replies cfg mess (concat (split_body limit <$> produced))
               ++ replies cfg mess (split_body limit (error_text cfg e)))) as Hrun.
  { unfold _execute_and_send, execute. run.
    rewrite Hcmd, consume_chunks, send_reply_chunks. by rewrite <- app_assoc. }
  split; [|split; [done|split]].
  - intros Hfit Herr. rewrite Hrun.
    by rewrite concat_split_body_fits, split_body_fits.
  - apply error_text_contains_marker.
  - intros. apply execute_and_send_returns.
Qed.

(** C2.  A text of exactly three times the message-size limit is sent as
    exactly three messages, each within the limit, in order, whose bodies
    together are the text; and this holds of each item of a yielded result
    on its own: the messages sent are the chunks of the first item, then
    those of the second, and so on. *)
Theorem C2_three_times_the_limit_is_three_messages cmd args q :
  0 < limit →
  (∀ text,
     cmd mess args = Value text →
     String.length text = 3 * limit →
     _execute_and_send cfg cmd args mess q
     = (Ok tt, q ++ replies cfg mess (split_body limit text)) ∧
     in_three limit text (split_body limit text)) ∧
  (∀ produced,
     cmd mess args = Sequence produced Exhausted →
     Forall (λ text, String.length text = 3 * limit) produced →
     _execute_and_send cfg cmd args mess q
     = (Ok tt, q ++ replies cfg mess (concat (split_body limit <$> produced))) ∧
     Forall (λ text, in_three limit text (split_body limit text)) produced ∧
     length (concat (split_body limit <$> produced)) = 3 * length produced).
Proof.
  intros Hlimit. split.
  - intros text Hcmd Hlen. split; [|by apply split_body_in_three].
    unfold _execute_and_send, execute. run. by rewrite Hcmd, send_reply_chunks.
  - intros produced Hcmd Hlen. split; [|split].
    + unfold _execute_and_send, execute. run. by rewrite Hcmd, consume_chunks.
    + eapply Forall_impl; [exact Hlen|]. intros text Htext.
      by apply split_body_in_three.
    + clear Hcmd. induction Hlen as [|text rest Htext _ IH]; csimpl; [done|].
      rewrite length_app, IH, split_body_three by done. simpl. lia.
Qed.

End pipeline.

(** The claim C1 as the specification has it does not hold of an item that
    is longer than the limit: with the limit at the length of
    [LONG_TEXT_STRING], a handler that yields one text of three times that
    length and then fails has three normal messages sent, not one, before the
    error message. *)
Lemma C1_one_long_item_is_three_messages :
  let cfg := DummyBackend.dummy (String.length DummyBackend.LONG_TEXT_STRING)
               "An unexpected error occurred: " in
  DummyBackend.yields_long_output_then_raises_exception DummyBackend.example_message []
    = Pipeline.Sequence
        [DummyBackend.LONG_TEXT_STRING +:+ DummyBackend.LONG_TEXT_STRING +:+
         DummyBackend.LONG_TEXT_STRING]
        (Pipeline.Fails (Exception "Kaboom!")) ∧
  Pipeline.bodies
    (snd (Pipeline._execute_and_send cfg DummyBackend.yields_long_output_then_raises_exception
            [] DummyBackend.example_message []))
    = [DummyBackend.LONG_TEXT_STRING; DummyBackend.LONG_TEXT_STRING;
       DummyBackend.LONG_TEXT_STRING; "An unexpected error occurred: Kaboom!"].
Proof. split; vm_compute; reflexivity. Qed.

(** * The tests of the repository, on the model

    [tests/base_backend_tests.py] exercises the identifier and the pipeline
    that are modelled from the specification; the model gives what the tests
    expect. *)

Example test_identifier_parsing :
  Identifier.parse "gbin@gootz.net/toto"
    = Identifier.Parsed (Identifier.mk "gbin" "gootz.net" (Some "toto")) ∧
  Identifier.parse "gbin@gootz.net"
    = Identifier.Parsed (Identifier.mk "gbin" "gootz.net" None).
Proof. split; reflexivity. Qed.

Example test_identifier_matching :
  let id1 := Identifier.mk "gbin" "gootz.net" (Some "toto") in
  let id2 := Identifier.mk "gbin" "gootz.net" (Some "titi") in
  let id3 := Identifier.mk "gbin" "giitz.net" (Some "titi") in
  Identifier.bareMatches id1 id2 = true ∧ Identifier.bareMatches id2 id3 = false.
Proof. split; reflexivity. Qed.

Example test_identifier_str_rep :
  Identifier.toString (Identifier.mk "gbin" "gootz.net" (Some "toto")) = "gbin@gootz.net/toto" ∧
  Identifier.toString (Identifier.mk "gbin" "gootz.net" None) = "gbin@gootz.net".
Proof. split; reflexivity. Qed.

Example test_identifier_double_at_parsing :
  Identifier.parse "gbin@titi.net@gootz.net/toto"
    = Identifier.Parsed (Identifier.mk "gbin@titi.net" "gootz.net" (Some "toto")).
Proof. reflexivity. Qed.

Example test_buildreply :
  let m := Pipeline.mkMessage
             (Identifier.mk "from" "fromdomain.net" (Some "fromresource"))
             (Identifier.mk "to" "todomain.net" (Some "toresource"))
             "Content" Pipeline.Direct in
  let resp := Pipeline.build_reply (DummyBackend.dummy 100 "") m "Response" in
  Identifier.toString (Pipeline.to resp) = "from@fromdomain.net" ∧
  Identifier.toString (Pipeline.frm resp) = "err@localhost/err" ∧
  Pipeline.body resp = "Response".
Proof. repeat split; reflexivity. Qed.

Example test_commands_can_return_string :
  DummyBackend.sent 100 DummyBackend.return_args_as_str ["foo"; "bar"] = ["foobar"].
Proof. vm_compute; reflexivity. Qed.

Example test_exception_is_caught_and_shows_error_message :
  DummyBackend.sent 100 DummyBackend.raises_exception [] = ["An unexpected error occurred: Kaboom!"] ∧
  DummyBackend.sent 100 DummyBackend.yields_str_then_raises_exception []
    = ["foobar"; "An unexpected error occurred: Kaboom!"].
Proof. split; vm_compute; reflexivity. Qed.

Example test_commands_can_yield_strings :
  DummyBackend.sent 100 DummyBackend.yield_args_as_str ["foo"; "bar"] = ["foo"; "bar"].
Proof. vm_compute; reflexivity. Qed.

Example test_output_longer_than_max_message_size_when_returned :
  DummyBackend.sent (String.length DummyBackend.LONG_TEXT_STRING) DummyBackend.return_long_output
       ["foo"; "bar"]
    = replicate 3 DummyBackend.LONG_TEXT_STRING.
Proof. vm_compute; reflexivity. Qed.

Example test_output_longer_than_max_message_size_when_yielded :
  DummyBackend.sent (String.length DummyBackend.LONG_TEXT_STRING) DummyBackend.yield_long_output
       ["foo"; "bar"]
    = replicate 6 DummyBackend.LONG_TEXT_STRING.
Proof. vm_compute; reflexivity. Qed.

(** The chunking prefers a whitespace boundary when the number of chunks
    allows one. *)
Example split_body_at_whitespace :
  Pipeline.split_body 10 "hello world foo" = ["hello "; "world foo"] ∧
  Pipeline.split_body 4 "abcdefghi" = ["abcd"; "efgh"; "i"].
Proof. split; vm_compute; reflexivity. Qed.

(** * The theorems at concrete inputs *)

(** C10 at the template configuration: joining the test room from an empty
    [joined_rooms]. *)
Lemma C10_at_the_template :
  TestBackend.template_BOT_IDENTITY !! "username" = Some "err@localhost" ∧
  fst (TestBackend.join_room TestBackend.template_BOT_IDENTITY Scenario.TEST_ROOM None None
         (TestBackend.mkWorld ∅ [])) = Ok tt.
Proof.
  split; [reflexivity|].
  exact (proj1 (C10_join_leave_total_and_idempotent
                  TestBackend.template_BOT_IDENTITY "err@localhost" eq_refl
                  Scenario.TEST_ROOM None None (TestBackend.mkWorld ∅ []))).
Defined.

(** C7 at the template configuration, on a connected plugin. *)
Lemma C7_at_the_template :
  Bot.connected (Bot.mkWorld true [] []) = true ∧
  CorePlugins.callback_connect Scenario.compat_str Scenario.template Bot.reliable (Bot.mkWorld true [] [])
    = (Ok tt, Bot.mkWorld true [] [Bot.callback_connect_line]).
Proof.
  split; [reflexivity|].
  exact (proj1 (C7_callback_connect_when_connected_is_a_noop
                  Scenario.compat_str Scenario.template Bot.reliable
                  (Bot.mkWorld true [] []) eq_refl)).
Defined.

(** C4 with the two rooms of [two_rooms], on a backend on which every send
    returns: ["hello"] from [gbin@localhost] goes to both, in order. *)
Lemma C4_at_two_rooms :
  CorePlugins.callback_message Scenario.two_rooms Bot.reliable
    (CorePlugins.mkMessage "chat" (CorePlugins.Person "gbin@localhost") "hello") Bot.initial
  = (Ok tt,
     Bot.mkWorld false
       [Bot.Send "room1@conference.localhost" "hello" "groupchat";
        Bot.Send "room2@conference.localhost" "hello" "groupchat"]
       [Bot.relay_from "gbin@localhost"]).
Proof.
  refine (proj1 (proj1 (proj1 (C4_direct_message_relayed_to_rooms
                                 Scenario.two_rooms Bot.reliable "gbin@localhost" "hello"
                                 Bot.initial)
                          (PyTuple ["room1@conference.localhost";
                                    "room2@conference.localhost"]) _) _)
                (CorePlugins.Person "gbin@localhost") _).
  - vm_compute; reflexivity.
  - reflexivity.
  - reflexivity.
Defined.

(** C3 with three rooms and three users, the second of which cannot be sent
    to: a one-to-one message in the current plugin, and a group message in
    the first version. *)
Lemma C3_at_three_targets :
  CorePlugins.callback_message Stage.relay_to_three Stage.second_unreachable
    (CorePlugins.mkMessage "chat" (CorePlugins.Person "gbin@localhost") "hello") Bot.initial
  = (Ok tt,
     Bot.mkWorld false
       [Bot.Send "room1@conference.localhost" "hello" "groupchat";
        Bot.Send "room2@conference.localhost" "hello" "groupchat"]
       [Bot.relay_from "gbin@localhost";
        Bot.crashed (Exception "room2@conference.localhost is unreachable")]) ∧
  Builtins.callback_message Stage.relay_to_three Stage.second_unreachable
    (Builtins.mkMessage "groupchat" (Builtins.mkJID "test" "conference.localhost" "nick")
       "hello") Bot.initial
  = (Ok tt,
     Bot.mkWorld false
       [Bot.Send "gbin@localhost" "[nick] hello" "chat";
        Bot.Send "admin@localhost" "[nick] hello" "chat"]
       [Bot.relay_to
          (StrOfSeq (PyList ["gbin@localhost"; "admin@localhost"; "guest@localhost"]));
        Bot.crashed (Exception "admin@localhost is unreachable")]).
Proof.
  split.
  - refine (proj1 (proj1 (C3_relay_failure_caught_and_fanout_ends
                            Stage.relay_to_three Stage.second_unreachable
                            ["room1@conference.localhost"] "room2@conference.localhost"
                            ["room3@conference.localhost"]
                            (Exception "room2@conference.localhost is unreachable")
                            "hello" Bot.initial)
                     "gbin@localhost"
                     (PyTuple ["room1@conference.localhost"; "room2@conference.localhost";
                               "room3@conference.localhost"]) _ _ _ _)
                  (CorePlugins.Person "gbin@localhost") _).
    + vm_compute; reflexivity.
    + reflexivity.
    + intros r Hr%list_elem_of_singleton. subst r. reflexivity.
    + reflexivity.
    + reflexivity.
  - refine (proj1 (proj2 (proj2 (C3_relay_failure_caught_and_fanout_ends
                                   Stage.relay_to_three Stage.second_unreachable
                                   ["gbin@localhost"] "admin@localhost" ["guest@localhost"]
                                   (Exception "admin@localhost is unreachable")
                                   "hello" Bot.initial)))
                  (Builtins.mkJID "test" "conference.localhost" "nick")
                  (PyList ["gbin@localhost"; "admin@localhost"; "guest@localhost"])
                  _ _ _ _ _ _).
    + vm_compute; reflexivity.
    + reflexivity.
    + reflexivity.
    + intros u Hu%list_elem_of_singleton. subst u. reflexivity.
    + reflexivity.
Defined.

(** C6 with three entries, the second one a room with a password that
    cannot be joined: through [query_room] in the current plugin; through
    the legacy [join_room], which answers [user_is_bot], on a backend
    without [query_room]; and by name in the first version. *)
Lemma C6_at_three_entries :
  (fst (CorePlugins.callback_connect Scenario.compat_str Stage.presence_of_three
          Stage.room2_unjoinable Bot.initial)
     = Raise (Exception "room2@conference.localhost is unreachable") ∧
   Bot.calls (snd (CorePlugins.callback_connect Scenario.compat_str Stage.presence_of_three
                     Stage.room2_unjoinable Bot.initial))
     = [Bot.QueryRoomJoin "room1@conference.localhost" "bot" None;
        Bot.QueryRoomJoin "room2@conference.localhost" "bot" (Some "secret")]) ∧
  (fst (CorePlugins.callback_connect Scenario.compat_str Stage.presence_of_three
          Stage.legacy_slack Bot.initial)
     = Raise (SlackAPIResponseError "user_is_bot") ∧
   Bot.calls (snd (CorePlugins.callback_connect Scenario.compat_str Stage.presence_of_three
                     Stage.legacy_slack Bot.initial))
     = [Bot.QueryRoomJoin "room1@conference.localhost" "bot" None;
        Bot.JoinRoom "room1@conference.localhost" "bot" None;
        Bot.QueryRoomJoin "room2@conference.localhost" "bot" (Some "secret");
        Bot.JoinRoom "room2@conference.localhost" "bot" (Some "secret")]) ∧
  fst (Builtins.callback_connect Scenario.two_rooms Stage.room2_unjoinable Bot.initial)
    = Raise (Exception "room2@conference.localhost is unreachable").
Proof.
  split; [|split].
  - pose proof (proj1 (C6_join_failure_ends_the_presence_loop
                         Scenario.compat_str Stage.presence_of_three Stage.room2_unjoinable
                         (λ r, eq_refl) (λ r p, eq_refl) Bot.initial eq_refl)
                  [Bot.RoomName "room1@conference.localhost"]
                  (Bot.RoomWithPassword "room2@conference.localhost" "secret")
                  [Bot.RoomName "room3@conference.localhost"]
                  (Exception "room2@conference.localhost is unreachable")) as H.
    destruct H as (Hfst & Hcalls & _).
    + reflexivity.
    + repeat constructor.
    + reflexivity.
    + discriminate.
    + split; [exact Hfst|exact Hcalls].
  - pose proof (proj1 (proj2 (C6_join_failure_ends_the_presence_loop
                                Scenario.compat_str Stage.presence_of_three Stage.legacy_slack
                                (λ r, eq_refl) (λ r p, eq_refl) Bot.initial eq_refl))
                  [Bot.RoomName "room1@conference.localhost"]
                  (Bot.RoomWithPassword "room2@conference.localhost" "secret")
                  [Bot.RoomName "room3@conference.localhost"]
                  (SlackAPIResponseError "user_is_bot")) as H.
    destruct H as (Hfst & Hcalls & _).
    + reflexivity.
    + constructor; [|constructor]. right. split; reflexivity.
    + reflexivity.
    + reflexivity.
    + split; [exact Hfst|exact Hcalls].
  - refine (proj1 (proj2 (proj2 (C6_join_failure_ends_the_presence_loop
                                   Scenario.compat_str Scenario.two_rooms
                                   Stage.room2_unjoinable
                                   (λ r, eq_refl) (λ r p, eq_refl) Bot.initial eq_refl))
                     ["room1@conference.localhost"] "room2@conference.localhost" []
                     (Exception "room2@conference.localhost is unreachable") _ _ _)).
    + reflexivity.
    + intros r Hr%list_elem_of_singleton. subst r. reflexivity.
    + reflexivity.
Defined.

(** C8 at the address of the double-[@] test. *)
Lemma C8_at_the_double_at_address :
  Identifier.parse "gbin@titi.net@gootz.net/toto"
    = Identifier.Parsed (Identifier.mk "gbin@titi.net" "gootz.net" (Some "toto")) ∧
  Identifier.parse
    (Identifier.toString (Identifier.mk "gbin@titi.net" "gootz.net" (Some "toto")))
    = Identifier.parse "gbin@titi.net@gootz.net/toto".
Proof.
  pose proof (C8_parse_toString_round_trip "gbin@titi.net" "gootz.net" "toto") as H.
  destruct H as [Hparse Hround]; [discriminate|discriminate|reflexivity..|].
  split; [exact Hparse|]. exact (Hround _ Hparse).
Defined.

(** C1 on the handler of the test that yields ["foobar"] and then raises. *)
Lemma C1_at_yields_str_then_raises_exception :
  Pipeline._execute_and_send (DummyBackend.dummy 100 "An unexpected error occurred: ")
    DummyBackend.yields_str_then_raises_exception [] DummyBackend.example_message []
  = (Ok tt,
     [Pipeline.build_reply (DummyBackend.dummy 100 "An unexpected error occurred: ")
        DummyBackend.example_message "foobar";
      Pipeline.build_reply (DummyBackend.dummy 100 "An unexpected error occurred: ")
        DummyBackend.example_message "An unexpected error occurred: Kaboom!"]).
Proof.
  refine (proj1 (C1_items_then_one_error_message
                   (DummyBackend.dummy 100 "An unexpected error occurred: ")
                   DummyBackend.example_message
                   DummyBackend.yields_str_then_raises_exception [] []
                   ["foobar"] (Exception "Kaboom!") eq_refl) _ _).
  - constructor; [simpl; lia|constructor].
  - simpl. lia.
Defined.

(** C2 on the handler of the test that returns three times
    [LONG_TEXT_STRING], with the limit at its length. *)
Lemma C2_at_return_long_output :
  let cfg := DummyBackend.dummy 76 "An unexpected error occurred: " in
  Pipeline.bodies
    (snd (Pipeline._execute_and_send cfg DummyBackend.return_long_output ["foo"; "bar"]
            DummyBackend.example_message []))
  = Pipeline.split_body 76
      (DummyBackend.LONG_TEXT_STRING +:+ DummyBackend.LONG_TEXT_STRING +:+
       DummyBackend.LONG_TEXT_STRING) ∧
  Pipeline.in_three 76
    (DummyBackend.LONG_TEXT_STRING +:+ DummyBackend.LONG_TEXT_STRING +:+
     DummyBackend.LONG_TEXT_STRING)
    (Pipeline.split_body 76
       (DummyBackend.LONG_TEXT_STRING +:+ DummyBackend.LONG_TEXT_STRING +:+
        DummyBackend.LONG_TEXT_STRING)).
Proof.
  pose proof (C2_three_times_the_limit_is_three_messages
                (DummyBackend.dummy 76 "An unexpected error occurred: ")
                DummyBackend.example_message
                DummyBackend.return_long_output ["foo"; "bar"] []) as H.
  destruct H as [Hreturned _]; [simpl; lia|].
  destruct (Hreturned _ eq_refl) as [Hrun Hthree]; [vm_compute; reflexivity|].
  split; [|exact Hthree].
  cbv zeta. rewrite Hrun. vm_compute. reflexivity.
Defined.


(** * Further properties of the code *)

(** ** errbot/backends/test.py: joining and leaving *)

Section test_rooms.
Import TestBackend TestRooms.

Variable BOT_IDENTITY : gmap string string.
Variable bot_itself : string.
Hypothesis has_username : BOT_IDENTITY !! "username" = Some bot_itself.

(** X1.  Joining a room that was not joined and then leaving it gives back the
    [joined_rooms] there was before. *)
Theorem join_then_leave_round_trip room username password w :
  joined_rooms w !! room = None →
  fst ((join_room BOT_IDENTITY room username password;; leave_room room) w) = Ok tt ∧
  joined_rooms (snd ((join_room BOT_IDENTITY room username password;; leave_room room) w))
    = joined_rooms w.
Proof using has_username.
  intros Habsent. unfold mbind, M_bind, Py.bind.
  rewrite (join_room_absent BOT_IDENTITY bot_itself has_username room username password w)
    by done.
  set (w1 := mkWorld _ _).
  destruct (leave_room_present room w1 (mkMUCRoom room [bot_itself] None)) as [l ->].
  { subst w1. simpl. apply lookup_insert_eq. }
  simpl. split; [done|].
  by rewrite delete_insert_id.
Qed.

(** X2.  Leaving a joined room and joining it again does not give the room back
    as it was: its handle is the one [join_room] makes, with the bot as the
    only occupant and no topic. *)
Theorem leave_then_join_resets_the_room room username password w r :
  joined_rooms w !! room = Some r →
  let after := snd ((leave_room room;; join_room BOT_IDENTITY room username password) w) in
  fst ((leave_room room;; join_room BOT_IDENTITY room username password) w) = Ok tt ∧
  joined_rooms after = <[room := fresh bot_itself room]> (joined_rooms w) ∧
  (r ≠ fresh bot_itself room → joined_rooms after ≠ joined_rooms w).
Proof using has_username.
  intros Hpresent after. subst after. unfold mbind, M_bind, Py.bind.
  destruct (leave_room_present room w r Hpresent) as [l ->].
  rewrite (join_room_absent BOT_IDENTITY bot_itself has_username)
    by (simpl; apply lookup_delete_eq).
  simpl. split; [done|]. rewrite insert_delete_eq. split; [done|].
  intros Hne Heq. apply Hne.
  rewrite <- Heq, lookup_insert_eq in Hpresent. by injection Hpresent.
Qed.

(** One operation: it returns, it does to the names of the joined rooms
    what it would do to a set, and it keeps the handles fresh. *)
Lemma apply_one op w :
  fst (apply BOT_IDENTITY op w) = Ok tt ∧
  dom (joined_rooms (snd (apply BOT_IDENTITY op w))) = on_names (dom (joined_rooms w)) op ∧
  (all_fresh bot_itself (joined_rooms w) →
   all_fresh bot_itself (joined_rooms (snd (apply BOT_IDENTITY op w)))).
Proof using has_username.
  destruct op as [room username password|room]; simpl.
  - destruct (joined_rooms w !! room) as [r|] eqn:Hroom.
    + destruct (join_room_present BOT_IDENTITY room username password w r Hroom) as [l ->].
      simpl. split; [done|]. split; [|done].
      symmetry. apply subseteq_union_1_L, singleton_subseteq_l.
      by eapply elem_of_dom_2.
    + rewrite (join_room_absent BOT_IDENTITY bot_itself has_username) by done.
      simpl. split; [done|]. split; [by rewrite dom_insert_L|].
      intros Hfresh k r. destruct (decide (k = room)) as [->|Hne].
      * rewrite lookup_insert_eq. by intros [= <-].
      * rewrite lookup_insert_ne by done. apply Hfresh.
  - destruct (joined_rooms w !! room) as [r|] eqn:Hroom.
    + destruct (leave_room_present room w r Hroom) as [l ->].
      simpl. split; [done|]. split; [by rewrite dom_delete_L|].
      intros Hfresh k r'. destruct (decide (k = room)) as [->|Hne].
      * by rewrite lookup_delete_eq.
      * rewrite lookup_delete_ne by done. apply Hfresh.
    + destruct (leave_room_absent room w Hroom) as [l ->].
      simpl. split; [done|]. split; [|done].
      symmetry. apply difference_disjoint_L, disjoint_singleton_r.
      by apply not_elem_of_dom.
Qed.

(** X3.  Any sequence of joins and leaves returns normally; the names of the
    joined rooms are what the same sequence makes of a set of names; and
    rooms that all had the handle [join_room] makes still have it. *)
Theorem joins_and_leaves_behave_as_a_set ops w :
  let after := snd (for_each ops (apply BOT_IDENTITY) w) in
  fst (for_each ops (apply BOT_IDENTITY) w) = Ok tt ∧
  dom (joined_rooms after) = foldl on_names (dom (joined_rooms w)) ops ∧
  (all_fresh bot_itself (joined_rooms w) → all_fresh bot_itself (joined_rooms after)).
Proof using has_username.
  revert w. induction ops as [|op ops IH]; intros w; simpl; [done|].
  unfold Py.bind. destruct (apply_one op w) as (Hok & Hdom & Hfresh).
  destruct (apply BOT_IDENTITY op w) as [[[]|e] w1]; simpl in *; [|done].
  destruct (IH w1) as (-> & -> & Hfresh'). rewrite Hdom.
  split; [done|]. split; [done|]. intros H. by apply Hfresh', Hfresh.
Qed.

End test_rooms.

(** X4.  [leave_all_rooms] returns, leaves no room joined, and logs one line
    for each room that was joined, in the order in which the dict holds its
    keys: the order of their insertion. *)
Theorem leave_all_rooms_leaves_none w :
  TestRooms.leave_all_rooms w
  = (Ok tt,
     TestRooms.mkOrdered []
       (TestRooms.log_lines w ++ (TestRooms.left_room <$> (TestRooms.joined_items w).*1))) ∧
  TestBackend.joined_rooms (TestRooms.unordered (snd (TestRooms.leave_all_rooms w))) = ∅.
Proof.
  assert (∀ rooms w0,
            for_each rooms
              (λ room,
                 modify (λ w, TestRooms.mkOrdered (TestRooms.joined_items w)
                                (TestRooms.log_lines w
                                   ++ [LogRecord INFO "Left room {0}" [Str room] false]))) w0
            = (Ok tt, TestRooms.mkOrdered (TestRooms.joined_items w0)
                        (TestRooms.log_lines w0 ++ (TestRooms.left_room <$> rooms)))) as Hloop.
  { induction rooms as [|room rooms IH]; intros w0; simpl.
    - destruct w0. simpl. by rewrite app_nil_r.
    - run. rewrite IH. simpl. unfold TestRooms.left_room at 2. by rewrite <- app_assoc. }
  assert (TestRooms.leave_all_rooms w
          = (Ok tt,
             TestRooms.mkOrdered []
               (TestRooms.log_lines w
                  ++ (TestRooms.left_room <$> (TestRooms.joined_items w).*1)))) as Hrun.
  { unfold TestRooms.leave_all_rooms. unfold mbind, M_bind, Py.bind, Py.gets.
    rewrite Hloop. reflexivity. }
  split; [done|]. by rewrite Hrun.
Qed.


(** ** errbot/backends/test.py: the queues and the loop *)

Section test_loop.
Import TestLoop.

Variable b : bot.
Variable sender : string.

Lemma foldl_send_message sent w :
  foldl (λ w body, send_message body w) w sent =
    mkWorld (incoming w) (outgoing w ++ sent) (events w) (log w).
Proof.
  revert w. induction sent as [|x sent IH]; intros [i o e l]; simpl.
  - by rewrite app_nil_r.
  - rewrite IH. simpl. by rewrite <- app_assoc.
Qed.

(** The stanzas before the quit message are served in order, and the loop
    goes on with what follows them. *)
Lemma loop_app before rest w :
  Forall (λ stanza, is_quit stanza.2 = false) before →
  Forall (returns b sender) before →
  incoming w = before ++ rest →
  loop b sender "Err" (before ++ rest) w =
    loop b sender "Err" rest
      (mkWorld rest (outgoing w ++ replies_of b sender before)
               (events w ++ events_of b sender before) (log w ++ log_of before)).
Proof.
  intros Hquit Hret. revert w.
  induction Hquit as [|[stanza_type entry] before Hq Hquit IH]; intros w Hin.
  - destruct w as [i o e l]. simpl in *. subst i. by rewrite !app_nil_r.
  - apply Forall_cons in Hret as [Hr Hret]. simpl in Hq, Hr.
    specialize (IH Hret).
    change (((stanza_type, entry) :: before) ++ rest)
      with ((stanza_type, entry) :: (before ++ rest)).
    cbn [loop]. rewrite Hq.
    change (replies_of b sender ((stanza_type, entry) :: before))
      with ((if stanza_type =? STZ_MSG
             then fst (callback_message b (mkMessage entry sender "Err")) else [])
            ++ replies_of b sender before).
    change (events_of b sender ((stanza_type, entry) :: before))
      with ((if stanza_type =? STZ_MSG then [CallbackMessage (mkMessage entry sender "Err")]
             else if stanza_type =? STZ_PRE then [CallbackPresence entry] else [])
            ++ events_of b sender before).
    change (log_of ((stanza_type, entry) :: before))
      with ((if stanza_type =? STZ_MSG then []
             else if stanza_type =? STZ_PRE
                  then [LogRecord INFO "Presence stanza received." [] false]
             else if stanza_type =? STZ_IQ
                  then [LogRecord INFO "IQ stanza received." [] false]
             else [LogRecord ERROR "Unknown stanza type." [] false])
            ++ log_of before).
    destruct (stanza_type =? STZ_MSG) eqn:Hmsg.
    + destruct (callback_message b (mkMessage entry sender "Err")) as [sent r] eqn:Hcb.
      simpl in Hr. subst r. rewrite foldl_send_message. simpl.
      rewrite IH by done. simpl. by rewrite <- !app_assoc.
    + destruct (stanza_type =? STZ_PRE) eqn:Hpre.
      * rewrite Hr. simpl. rewrite IH by done. simpl. by rewrite <- !app_assoc.
      * destruct (stanza_type =? STZ_IQ) eqn:Hiq; unfold logging; simpl;
          rewrite IH by done; simpl; by rewrite <- !app_assoc.
Qed.

(** The loop waits only when it has taken every stanza, and on the bot it
    makes only the calls that stanzas cause. *)
Lemma loop_calls jid queue w :
  incoming w = queue →
  (fst (loop b sender jid queue w) = Waiting → incoming (snd (loop b sender jid queue w)) = []) ∧
  ∃ evs, events (snd (loop b sender jid queue w)) = events w ++ evs ∧
         Forall is_dispatch evs.
Proof.
  revert w. induction queue as [|[stanza_type entry] rest IH]; intros w Hin.
  - simpl. split; [done|]. exists []. by rewrite app_nil_r.
  - cbn [loop]. destruct (is_quit entry).
    + simpl. split; [done|]. exists []. by rewrite app_nil_r.
    + destruct (stanza_type =? STZ_MSG).
      * destruct (callback_message b (mkMessage entry sender jid)) as [sent r].
        rewrite foldl_send_message. simpl. destruct r as [r|].
        -- simpl. split; [done|]. eexists. split; [done|]. by repeat constructor.
        -- match goal with |- context [loop _ _ _ _ ?w0] =>
             destruct (IH w0 eq_refl) as [Hwait (evs & -> & Hevs)] end.
           split; [done|]. simpl. rewrite <- app_assoc. eexists. split; [done|].
           by constructor.
      * destruct (stanza_type =? STZ_PRE).
        -- simpl. destruct (callback_presence b entry) as [r|].
           ++ simpl. split; [done|]. eexists. split; [done|]. by repeat constructor.
           ++ match goal with |- context [loop _ _ _ _ ?w0] =>
                destruct (IH w0 eq_refl) as [Hwait (evs & -> & Hevs)] end.
              split; [done|]. simpl. rewrite <- app_assoc. eexists. split; [done|].
              by constructor.
        -- destruct (stanza_type =? STZ_IQ); unfold logging; simpl;
             match goal with |- context [loop _ _ _ _ ?w0] =>
               destruct (IH w0 eq_refl) as [Hwait (evs & -> & Hevs)] end;
             (split; [done|]); simpl; by eexists.
Qed.

End test_loop.

(** X5.  [serve_forever] serves in order what is in the queue before the quit
    message, and stops at it: each message stanza is given to
    [callback_message] with the first admin as its sender, the bodies sent
    come out in that order, the stanzas after the quit message stay in the
    queue, and [disconnect_callback] and [shutdown] are the last calls.  The
    quit message stops the loop whatever its stanza type. *)
Theorem serve_forever_until_quit b w sender admins before stanza_type after :
  TestLoop.BOT_ADMINS b = sender :: admins →
  TestLoop.incoming w = before ++ (stanza_type, TestLoop.Text TestLoop.QUIT_MESSAGE) :: after →
  Forall (λ stanza, TestLoop.is_quit stanza.2 = false) before →
  Forall (TestLoop.returns b sender) before →
  TestLoop.serve_forever b w =
    (TestLoop.Returned,
     TestLoop.mkWorld after
       (TestLoop.outgoing w ++ TestLoop.replies_of b sender before)
       (TestLoop.events w ++ [TestLoop.ConnectCallback] ++ TestLoop.events_of b sender before
          ++ [TestLoop.DisconnectCallback; TestLoop.Shutdown])
       (TestLoop.log w ++ TestLoop.log_of before ++ [TestLoop.stop_line]
          ++ TestLoop.finally_lines)).
Proof.
  intros Hadmins Hin Hquit Hret. unfold TestLoop.serve_forever.
  rewrite Hadmins. cbn [TestLoop.call TestLoop.incoming]. rewrite Hin.
  rewrite (loop_app b sender before) by done. simpl.
  unfold TestLoop.finally, TestLoop.call, TestLoop.logging. simpl.
  by rewrite <- !app_assoc.
Qed.

(** X6.  When the callback of a stanza raises, the stanzas after it stay in the
    queue and [disconnect_callback] and [shutdown] are still called;
    [EOFError] and [KeyboardInterrupt] end [serve_forever] normally, any
    other exception comes out of it. *)
Theorem serve_forever_when_a_callback_raises b w sender admins before stanza after r :
  TestLoop.BOT_ADMINS b = sender :: admins →
  TestLoop.incoming w = before ++ stanza :: after →
  Forall (λ stanza, TestLoop.is_quit stanza.2 = false) before →
  Forall (TestLoop.returns b sender) before →
  TestLoop.is_quit stanza.2 = false →
  TestLoop.raise_of b sender stanza = Some r →
  let served := TestLoop.serve_forever b w in
  fst served = match r with
               | TestLoop.Error e => TestLoop.Raised (TestLoop.Error e)
               | _ => TestLoop.Returned
               end ∧
  TestLoop.incoming (snd served) = after ∧
  TestLoop.events (snd served)
    = TestLoop.events w ++ [TestLoop.ConnectCallback]
        ++ TestLoop.events_of b sender (before ++ [stanza])
        ++ [TestLoop.DisconnectCallback; TestLoop.Shutdown].
Proof.
  intros Hadmins Hin Hquit Hret Hq Hr served. subst served.
  unfold TestLoop.serve_forever.
  rewrite Hadmins. cbn [TestLoop.call TestLoop.incoming]. rewrite Hin.
  rewrite (loop_app b sender before) by done.
  destruct stanza as [stanza_type entry]. simpl in Hq, Hr. cbn [TestLoop.loop]. rewrite Hq.
  unfold TestLoop.events_of. rewrite bind_app. cbn [mbind list_bind]. rewrite app_nil_r.
  fold (TestLoop.events_of b sender before).
  destruct (stanza_type =? TestLoop.STZ_MSG).
  - destruct (TestLoop.callback_message b _) as [sent r'] eqn:Hcb. simpl in Hr. subst r'.
    rewrite foldl_send_message. simpl.
    destruct r as [| |e]; simpl; by rewrite <- !app_assoc.
  - destruct (stanza_type =? TestLoop.STZ_PRE); [|done].
    rewrite Hr. simpl. destruct r as [| |e]; simpl; by rewrite <- !app_assoc.
Qed.

(** X7.  [serve_forever] is still serving only when it has taken every stanza of
    the queue; when it has ended after its loop was entered, the calls it
    made on the bot are [connect_callback], the callbacks of stanzas, and
    then [disconnect_callback] and [shutdown], once each.  With no admin in
    the configuration it raises [IndexError] right after
    [connect_callback]. *)
Theorem serve_forever_ends_with_shutdown b w :
  (TestLoop.BOT_ADMINS b = [] →
   TestLoop.serve_forever b w =
     (TestLoop.Raised (TestLoop.Error (IndexError "tuple index out of range")),
      TestLoop.call TestLoop.ConnectCallback w)) ∧
  (TestLoop.BOT_ADMINS b ≠ [] →
   match fst (TestLoop.serve_forever b w) with
   | TestLoop.StillServing => TestLoop.incoming (snd (TestLoop.serve_forever b w)) = []
   | _ =>
       ∃ evs,
         TestLoop.events (snd (TestLoop.serve_forever b w))
           = TestLoop.events w ++ [TestLoop.ConnectCallback] ++ evs
               ++ [TestLoop.DisconnectCallback; TestLoop.Shutdown] ∧
         Forall TestLoop.is_dispatch evs
   end).
Proof.
  unfold TestLoop.serve_forever. split.
  - by intros ->.
  - destruct (TestLoop.BOT_ADMINS b) as [|sender admins]; [done|]. intros _.
    destruct (loop_calls b sender "Err" (TestLoop.incoming (TestLoop.call
                TestLoop.ConnectCallback w)) (TestLoop.call TestLoop.ConnectCallback w) eq_refl)
      as [Hwait (evs & Hevs & Hdispatch)].
    cbn [TestLoop.call TestLoop.incoming] in *.
    destruct (TestLoop.loop b sender "Err" (TestLoop.incoming w) _) as [[| |[| |e]] w1];
      simpl in *; [| by apply Hwait |..].
    all: exists evs; split; [|done]; rewrite Hevs; by rewrite <- !app_assoc.
Qed.

(** X8.  [zap_queues] on an empty incoming queue empties the outgoing queue and
    logs each body it takes out, oldest first.  On a stanza left in the
    incoming queue it raises [TypeError]: the stanza is a pair, which [%]
    takes for two arguments; that stanza has been taken out, and nothing
    else is touched. *)
Theorem zap_queues_outgoing_and_incoming w :
  (TestLoop.incoming w = [] →
   TestLoop.zap_queues w =
     (Ok tt,
      TestLoop.mkWorld [] [] (TestLoop.events w)
        (TestLoop.log w ++ (TestLoop.left_outgoing <$> TestLoop.outgoing w)))) ∧
  (∀ stanza rest,
     TestLoop.incoming w = stanza :: rest →
     TestLoop.zap_queues w =
       (Raise (TypeError "not all arguments converted during string formatting"),
        TestLoop.mkWorld rest (TestLoop.outgoing w) (TestLoop.events w) (TestLoop.log w))).
Proof.
  split.
  - intros Hin.
    assert (∀ bodies i e l,
              for_each bodies TestLoop.zap_outgoing (TestLoop.mkWorld i bodies e l)
              = (Ok tt, TestLoop.mkWorld i [] e (l ++ (TestLoop.left_outgoing <$> bodies))))
      as Hloop.
    { induction bodies as [|msg bodies IH]; intros i e l; simpl.
      - by rewrite app_nil_r.
      - unfold Py.bind. unfold TestLoop.zap_outgoing at 1. run.
        unfold TestLoop.logging. simpl. rewrite IH. csimpl. by rewrite <- app_assoc. }
    unfold TestLoop.zap_queues. run. rewrite Hin. simpl.
    destruct w as [i o e l]. simpl in *. subst i. apply Hloop.
  - intros stanza rest Hin. unfold TestLoop.zap_queues, TestLoop.zap_incoming. run.
    rewrite Hin. simpl. unfold Py.bind. simpl. by rewrite Hin.
Qed.


(** ** The chat-room plugin: connecting when the rooms can be joined *)

Section presence.
Import Bot Presence.

Variable compat_str : presence_entry → option string.
Variable cfg : config.
Variable be : backend.

Hypothesis compat_str_name : ∀ r, compat_str (RoomName r) = Some r.
Hypothesis compat_str_pair : ∀ r p, compat_str (RoomWithPassword r p) = None.

Lemma core_join_one_joinable entry w :
  joinable be entry →
  fst (CorePlugins.join_one compat_str cfg be entry w) = Ok CorePlugins.Next ∧
  connected (snd (CorePlugins.join_one compat_str cfg be entry w)) = connected w ∧
  calls (snd (CorePlugins.join_one compat_str cfg be entry w)) = calls w ++ calls_of cfg be entry.
Proof using compat_str_name compat_str_pair.
  intros Hjoin.
  unfold CorePlugins.join_one, CorePlugins.getitem, query_room_join, join_room, call, logging,
    calls_of, join_of, legacy_join_of, joinable in *.
  destruct entry as [r|r p]; simpl in *.
  - rewrite compat_str_name. run.
    destruct Hjoin as [->|[-> Hlegacy]]; simpl; [done|]. rewrite Hlegacy. simpl.
    by rewrite <- app_assoc.
  - rewrite compat_str_pair. run.
    destruct Hjoin as [->|[-> Hlegacy]]; simpl; [done|]. rewrite Hlegacy. simpl.
    by rewrite <- app_assoc.
Qed.

Lemma core_join_presence_joinable entries w :
  Forall (joinable be) entries →
  fst (CorePlugins.join_presence compat_str cfg be entries w) = Ok tt ∧
  connected (snd (CorePlugins.join_presence compat_str cfg be entries w)) = connected w ∧
  calls (snd (CorePlugins.join_presence compat_str cfg be entries w))
    = calls w ++ concat (calls_of cfg be <$> entries).
Proof using compat_str_name compat_str_pair.
  intros Hall. revert w. induction Hall as [|entry entries Hentry _ IH]; intros w.
  - simpl. by rewrite app_nil_r.
  - cbn [CorePlugins.join_presence]. unfold mbind, M_bind, Py.bind.
    destruct (core_join_one_joinable entry w Hentry) as (Hfst & Hconn & Hcalls).
    destruct (CorePlugins.join_one compat_str cfg be entry w) as [[[]|e] w1]; simpl in *;
      try done.
    destruct (IH w1) as (-> & -> & ->). rewrite Hconn, Hcalls. csimpl.
    by rewrite <- app_assoc.
Qed.

Lemma core_callback_connect_joinable w :
  connected w = false →
  Forall (joinable be) (CHATROOM_PRESENCE cfg) →
  fst (CorePlugins.callback_connect compat_str cfg be w) = Ok tt ∧
  connected (snd (CorePlugins.callback_connect compat_str cfg be w)) = true ∧
  calls (snd (CorePlugins.callback_connect compat_str cfg be w))
    = calls w ++ concat (calls_of cfg be <$> CHATROOM_PRESENCE cfg).
Proof using compat_str_name compat_str_pair.
  intros Hc Hall.
  unfold CorePlugins.callback_connect, logging, set_connected. run. rewrite Hc. simpl.
  match goal with
  | |- context [CorePlugins.join_presence _ _ _ _ ?w0] =>
      destruct (core_join_presence_joinable (CHATROOM_PRESENCE cfg) w0 Hall) as (-> & -> & ->)
  end.
  done.
Qed.

(** X9.  When every room of the presence list can be joined, [callback_connect]
    of the current plugin attempts each of them once, in configured order,
    under the name [CHATROOM_FN] and with the password of its entry, goes
    through the legacy [join_room] where [query_room] is not implemented,
    and returns with the plugin connected. *)
Theorem callback_connect_joins_every_room w :
  connected w = false →
  Forall (joinable be) (CHATROOM_PRESENCE cfg) →
  let after := snd (CorePlugins.callback_connect compat_str cfg be w) in
  fst (CorePlugins.callback_connect compat_str cfg be w) = Ok tt ∧
  connected after = true ∧
  calls after = calls w ++ concat (calls_of cfg be <$> CHATROOM_PRESENCE cfg).
Proof using compat_str_name compat_str_pair.
  intros Hc Hall after. subst after. by apply core_callback_connect_joinable.
Qed.

(** X10.  [deactivate] lets the next [callback_connect] join the rooms again: a
    plugin that connects, is deactivated and connects again has attempted
    every room twice. *)
Theorem deactivate_lets_callback_connect_join_again w :
  connected w = false →
  Forall (joinable be) (CHATROOM_PRESENCE cfg) →
  let twice :=
    (CorePlugins.callback_connect compat_str cfg be;;
     CorePlugins.deactivate;;
     CorePlugins.callback_connect compat_str cfg be) w in
  fst twice = Ok tt ∧
  connected (snd twice) = true ∧
  calls (snd twice)
    = calls w ++ concat (calls_of cfg be <$> CHATROOM_PRESENCE cfg)
              ++ concat (calls_of cfg be <$> CHATROOM_PRESENCE cfg).
Proof using compat_str_name compat_str_pair.
  intros Hc Hall twice. subst twice. unfold mbind, M_bind, Py.bind.
  destruct (core_callback_connect_joinable w Hc Hall) as (Hfst & Hconn & Hcalls).
  destruct (CorePlugins.callback_connect compat_str cfg be w) as [[[]|e] w1]; simpl in *;
    [|done].
  unfold CorePlugins.deactivate, set_connected. run.
  match goal with
  | |- context [CorePlugins.callback_connect _ _ _ ?w0] =>
      destruct (core_callback_connect_joinable w0 eq_refl Hall) as (-> & -> & ->)
  end.
  simpl. rewrite Hcalls. by rewrite <- app_assoc.
Qed.

End presence.

Section first_version.
Import Bot Presence.

Variable cfg : config.
Variable be : backend.

Lemma builtins_join_loop_ok rooms w :
  (∀ r, r ∈ rooms → join_room_raises be r = None) →
  for_each (RoomName <$> rooms) (Builtins.join_one cfg be) w =
    (Ok tt,
     mkWorld (connected w)
             (calls w ++ ((λ r, JoinRoom r (CHATROOM_FN cfg) None) <$> rooms))
             (log w ++ ((λ r, LogRecord INFO ("Join room " +:+ r) [] false) <$> rooms))).
Proof.
  revert w. induction rooms as [|r rooms IH]; intros w Hok; csimpl.
  - destruct w. simpl. by rewrite !app_nil_r.
  - unfold Py.bind. rewrite builtins_join_one, (Hok r) by apply list_elem_of_here.
    rewrite IH by (intros; apply Hok; by apply list_elem_of_further).
    simpl. by rewrite <- !app_assoc.
Qed.

Lemma keep_alive_runs w :
  Builtins.keep_alive cfg be w =
    match heartbeat_raises cfg be with
    | None => (Ok tt, mkWorld (connected w) (calls w ++ [heartbeat cfg; TimerStart 10]) (log w))
    | Some e => (Raise e, mkWorld (connected w) (calls w ++ [heartbeat cfg]) (log w))
    end.
Proof.
  unfold Builtins.keep_alive, heartbeat_raises, heartbeat, send, call. run.
  destruct (HIPCHAT_MODE cfg).
  - destruct (send_raises be "nobody" " " "groupchat"); simpl; [done|].
    by rewrite <- app_assoc.
  - destruct (bare_send_raises be); simpl; [done|]. by rewrite <- app_assoc.
Qed.

(** X11.  The first version of [callback_connect], when every room can be joined
    and the heartbeat can be sent: each named room is joined once, in
    configured order, under the name [CHATROOM_FN]; then the heartbeat is
    sent once and one timer of 10 seconds is started. *)
Theorem first_callback_connect_joins_and_keeps_alive rooms w :
  connected w = false →
  CHATROOM_PRESENCE cfg = RoomName <$> rooms →
  (∀ r, r ∈ rooms → join_room_raises be r = None) →
  heartbeat_raises cfg be = None →
  let after := snd (Builtins.callback_connect cfg be w) in
  fst (Builtins.callback_connect cfg be w) = Ok tt ∧
  connected after = true ∧
  calls after
    = calls w ++ ((λ r, JoinRoom r (CHATROOM_FN cfg) None) <$> rooms)
              ++ [heartbeat cfg; TimerStart 10].
Proof.
  intros Hc Hpresence Hjoin Hbeat after. subst after.
  unfold Builtins.callback_connect, set_connected.
  unfold logging at 1. run. rewrite Hc, Hpresence. simpl.
  rewrite builtins_join_loop_ok by done. simpl.
  unfold logging. run. rewrite keep_alive_runs, Hbeat. simpl.
  by rewrite <- app_assoc.
Qed.

(** X12.  A heartbeat that cannot be sent ends the keep-alive for good: [keep_alive]
    raises before it starts its timer; [callback_connect] raises with it;
    and as the plugin is connected by then, no later [callback_connect]
    starts a keep-alive. *)
Theorem failed_heartbeat_ends_the_keep_alive rooms w e :
  connected w = false →
  CHATROOM_PRESENCE cfg = RoomName <$> rooms →
  (∀ r, r ∈ rooms → join_room_raises be r = None) →
  heartbeat_raises cfg be = Some e →
  let first := Builtins.callback_connect cfg be w in
  let second := Builtins.callback_connect cfg be (snd first) in
  (∀ w0, fst (Builtins.keep_alive cfg be w0) = Raise e ∧
         calls (snd (Builtins.keep_alive cfg be w0)) = calls w0 ++ [heartbeat cfg]) ∧
  fst first = Raise e ∧
  calls (snd first)
    = calls w ++ ((λ r, JoinRoom r (CHATROOM_FN cfg) None) <$> rooms) ++ [heartbeat cfg] ∧
  fst second = Ok tt ∧
  calls (snd second) = calls (snd first).
Proof.
  intros Hc Hpresence Hjoin Hbeat first second.
  assert (first =
          (Raise e,
           mkWorld true
             (calls w ++ ((λ r, JoinRoom r (CHATROOM_FN cfg) None) <$> rooms)
                ++ [heartbeat cfg])
             (log w ++ [callback_connect_line]
                ++ ((λ r, LogRecord INFO ("Join room " +:+ r) [] false) <$> rooms)
                ++ [LogRecord INFO "Start keep alive" [] false]))) as Hfirst.
  { subst first second. unfold Builtins.callback_connect, set_connected.
    unfold logging at 1. run. rewrite Hc, Hpresence. simpl.
    rewrite builtins_join_loop_ok by done. simpl.
    unfold logging. run. rewrite keep_alive_runs, Hbeat. simpl.
    unfold callback_connect_line. by rewrite <- !app_assoc. }
  subst second. rewrite Hfirst. simpl.
  split; [intros w0; by rewrite keep_alive_runs, Hbeat|].
  split; [done|]. split; [done|].
  unfold Builtins.callback_connect, logging. run. done.
Qed.

End first_version.

(** ** The chat-room plugin: what [callback_message] never does *)

Section only_relays.
Import Bot.

Variable cfg : config.
Variable be : backend.

(** Whatever the backend does, a fan-out calls nothing but [send], on the
    first targets of its list, and leaves [connected] alone. *)
Lemma for_each_send_prefix body message_type targets w :
  connected (snd (for_each targets (λ t, send be t body message_type) w)) = connected w ∧
  ∃ n, calls (snd (for_each targets (λ t, send be t body message_type) w))
       = calls w ++ fanout (take n targets) body message_type.
Proof.
  revert w. induction targets as [|t rest IH]; intros w.
  - simpl. split; [done|]. exists 0. by rewrite app_nil_r.
  - simpl. unfold send at 1 3, call. run.
    destruct (send_raises be t body message_type) as [e|]; simpl.
    + split; [done|]. by exists 1.
    + match goal with |- context [for_each _ _ ?w0] => destruct (IH w0) as [-> [n ->]] end.
      split; [done|]. exists (S n). simpl. by rewrite <- app_assoc.
Qed.

(** X13.  [callback_message] of the current plugin makes no call on the backend
    but sends of the relay: for a one-to-one message, group messages with
    its very body to rooms configured for its sender; for a group message,
    messages of the default type with the name of the speaker in brackets
    before its body, to users configured for its room.  A message of any other type
    causes no call.  The plugin stays connected or not, as it was. *)
Theorem callback_message_only_relays mess w :
  let after := snd (CorePlugins.callback_message cfg be mess w) in
  connected after = connected w ∧
  ∃ sent,
    calls after = calls w ++ sent ∧
    ∀ c, c ∈ sent →
      (CorePlugins.type mess = "chat" ∧
       ∃ rooms room,
         CHATROOM_RELAY cfg !! CorePlugins.person_of (CorePlugins.frm mess) = Some rooms ∧
         room ∈ items rooms ∧
         c = Send room (CorePlugins.body mess) "groupchat") ∨
      (CorePlugins.type mess = "groupchat" ∧
       ∃ name room users user,
         CorePlugins.frm mess = CorePlugins.Occupant name room ∧
         REVERSE_CHATROOM_RELAY cfg !! room = Some users ∧
         user ∈ items users ∧
         c = Send user ("[" +:+ name +:+ "] " +:+ CorePlugins.body mess)
                  CorePlugins.DEFAULT_MESSAGE_TYPE).
Proof.
  destruct mess as [type fr body]. cbn zeta.
  assert (∀ w0 : world, connected w0 = connected w → calls w0 = calls w →
            connected w0 = connected w ∧
            ∃ sent, calls w0 = calls w ++ sent ∧
              ∀ c, c ∈ sent →
                (type = "chat" ∧
                 ∃ rooms room,
                   CHATROOM_RELAY cfg !! CorePlugins.person_of fr = Some rooms ∧
                   room ∈ items rooms ∧ c = Send room body "groupchat") ∨
                (type = "groupchat" ∧
                 ∃ name room users user,
                   fr = CorePlugins.Occupant name room ∧
                   REVERSE_CHATROOM_RELAY cfg !! room = Some users ∧
                   user ∈ items users ∧
                   c = Send user ("[" +:+ name +:+ "] " +:+ body) "chat")) as Hnone.
  { intros w0 Hc Hcalls. split; [done|]. exists []. rewrite app_nil_r. split; [done|].
    intros c Hin. by apply elem_of_nil in Hin. }
  unfold CorePlugins.callback_message, logging, log_exception. run.
  destruct (decide (type = "chat")) as [->|Hchat].
  - destruct (CHATROOM_RELAY cfg !! CorePlugins.person_of fr) as [rooms|] eqn:Hrooms;
      simpl; [|by apply Hnone].
    match goal with |- context [for_each _ _ ?w0] =>
      destruct (for_each_send_prefix body "groupchat" (items rooms) w0) as [Hc [n Hn]];
      destruct (for_each (items rooms) (λ t, send be t body "groupchat") w0) as [[[]|e] w1]
    end; simpl in *.
    all: split; [done|]; exists (fanout (take n (items rooms)) body "groupchat");
      split; [done|]; intros c [room [-> Hroom]]%list_elem_of_fmap; left;
      split; [done|]; exists rooms, room; split; [done|]; split; [|done];
      by eapply subseteq_take.
  - destruct (decide (type = "groupchat")) as [->|Hgroup]; [|by apply Hnone].
    destruct fr as [p|name room]; simpl; [by apply Hnone|].
    destruct (REVERSE_CHATROOM_RELAY cfg !! room) as [users|] eqn:Husers;
      simpl; [|by apply Hnone].
    destruct (percent_seq users) as [a|e]; simpl; [|by apply Hnone].
    match goal with |- context [for_each _ ?f ?w0] =>
      destruct (for_each_send_prefix ("[" +:+ name +:+ "] " +:+ body) "chat"
                  (items users) w0
                : connected (snd (for_each (items users) f w0)) = connected w0 ∧
                  ∃ n, calls (snd (for_each (items users) f w0))
                       = calls w0 ++ fanout (take n (items users))
                                       ("[" +:+ name +:+ "] " +:+ body) "chat")
        as [Hc [n Hn]];
      destruct (for_each (items users) f w0) as [[[]|e] w1]
    end; simpl in *.
    all: split; [done|];
      exists (fanout (take n (items users)) ("[" +:+ name +:+ "] " +:+ body) "chat");
      split; [done|]; intros c [user [-> Huser]]%list_elem_of_fmap; right;
      split; [done|]; exists name, room, users, user; repeat split; try done;
      by eapply subseteq_take.
Qed.

(** X14.  A tuple of users of any size but one relays nothing: formatting the log
    line raises before the first send, for every message from that room and
    on every backend, in both versions of the plugin. *)
Theorem reverse_relay_to_a_tuple_relays_nothing users name node domain body w :
  REVERSE_CHATROOM_RELAY cfg !! (node +:+ "@" +:+ domain) = Some (PyTuple users) →
  length users ≠ 1 →
  (∃ e,
     CorePlugins.callback_message cfg be
       (CorePlugins.mkMessage "groupchat"
          (CorePlugins.Occupant name (node +:+ "@" +:+ domain)) body) w
     = (Ok tt, mkWorld (connected w) (calls w) (log w ++ [crashed e]))) ∧
  (∃ e,
     Builtins.callback_message cfg be
       (Builtins.mkMessage "groupchat" (Builtins.mkJID node domain name) body) w
     = (Ok tt, mkWorld (connected w) (calls w) (log w ++ [crashed e]))).
Proof.
  intros Hin Hlen.
  unfold CorePlugins.callback_message, Builtins.callback_message, log_exception. run.
  rewrite Hin.
  destruct users as [|u1 [|u2 users]]; simpl in *; [|done|]; split; by eexists.
Qed.

End only_relays.

Section reverse_relay_by_shape.
Import Bot.

Variable cfg : config.
Variable be : backend.

(** X15.  When the users configured for a room are a list, or a tuple of exactly
    one user, and every send to them returns, a group message from the room
    is sent once to each of them, in configured order, as ['[name] body'],
    in both versions of the plugin: with the default message type in the
    current one, as a one-to-one message in the first one. *)
Theorem reverse_relay_reaches_a_list_of_users users name node domain body w :
  REVERSE_CHATROOM_RELAY cfg !! (node +:+ "@" +:+ domain) = Some users →
  (∃ l, users = PyList l) ∨ (∃ u, users = PyTuple [u]) →
  (∀ u message_type, u ∈ items users →
     send_raises be u ("[" +:+ name +:+ "] " +:+ body) message_type = None) →
  let core :=
    CorePlugins.callback_message cfg be
      (CorePlugins.mkMessage "groupchat"
         (CorePlugins.Occupant name (node +:+ "@" +:+ domain)) body) w in
  let builtins :=
    Builtins.callback_message cfg be
      (Builtins.mkMessage "groupchat" (Builtins.mkJID node domain name) body) w in
  fst core = Ok tt ∧ fst builtins = Ok tt ∧
  calls (snd core)
    = calls w ++ ((λ u, Send u ("[" +:+ name +:+ "] " +:+ body)
                          CorePlugins.DEFAULT_MESSAGE_TYPE) <$> items users) ∧
  calls (snd builtins)
    = calls w ++ ((λ u, Send u ("[" +:+ name +:+ "] " +:+ body) "chat") <$> items users).
Proof.
  intros Hin Hshape Hok. cbv zeta.
  assert (∃ a, percent_seq users = Ok a) as [a Hfmt].
  { destruct Hshape as [[l ->]|[u ->]]; by eexists. }
  rewrite (core_reverse_relay cfg be name _ body w users a Hin Hfmt (λ u, Hok u "chat")).
  rewrite (builtins_reverse_relay cfg be (Builtins.mkJID node domain name) body w users a
             Hin Hfmt (λ u, Hok u "chat")).
  done.
Qed.

End reverse_relay_by_shape.

(** ** The room commands *)

Section room_commands.
Import Rooms.

Variable be : backend.

(** X16.  A command that is given too few arguments answers with its usage and
    calls nothing on the bot: no room for [room_create] (off TOX),
    [room_leave] and [room_destroy]; fewer than a room and one person for
    [room_invite]; and on TOX, [room_create] with any argument at all. *)
Theorem room_commands_need_their_arguments args w :
  (mode be ≠ "tox" → args = [] →
   room_create be args w = (Ok "Please tell me which chatroom to create.", w)) ∧
  (mode be = "tox" → args ≠ [] →
   room_create be args w = (Ok "You cannot specify a chatgroup name on TOX.", w)) ∧
  (args = [] →
   room_leave be args w = (Ok "Please tell me which chatroom to leave.", w) ∧
   room_destroy be args w = (Ok "Please tell me which chatroom to destroy.", w)) ∧
  (length args < 2 →
   room_invite be args w
   = (Ok "Please tell me which person(s) to invite into which room.", w)).
Proof.
  split; [|split; [|split]].
  - intros Hmode ->. unfold room_create. run. by destruct (decide (mode be = "tox")).
  - intros Hmode Hargs. unfold room_create. run.
    destruct (decide (mode be = "tox")); [|done].
    by destruct args.
  - by intros ->.
  - intros Hlen. unfold room_invite.
    destruct args as [|a0 [|a1 args]]; simpl in *; [done|done|lia].
Qed.

(** X17.  On a bot that finds the room and carries the operation out, each
    command queries the room named by its first argument, calls the one
    operation on it, and names it in its reply; [room_create],
    [room_leave] and [room_destroy] ignore further arguments, and
    [room_invite] invites the further arguments, all of them and in
    order. *)
Theorem room_commands_act_on_the_named_room room more w :
  mode be ≠ "tox" →
  query_room_raises be (Some room) = None →
  (∀ op, op_raises be (Some room) op = None) →
  room_create be (room :: more) w
    = (Ok ("Created the room " +:+ str_room be (Some room)),
       w ++ [QueryRoom (Some room); RoomOp (Some room) Create]) ∧
  room_leave be (room :: more) w
    = (Ok ("Left the room " +:+ room),
       w ++ [QueryRoom (Some room); RoomOp (Some room) Leave]) ∧
  room_destroy be (room :: more) w
    = (Ok ("Destroyed the room " +:+ room),
       w ++ [QueryRoom (Some room); RoomOp (Some room) Destroy]) ∧
  (more ≠ [] →
   room_invite be (room :: more) w
     = (Ok ("Invited " +:+ join ", " more +:+ " into the room " +:+ room),
        w ++ [QueryRoom (Some room); RoomOp (Some room) (Invite more)])).
Proof.
  intros Hmode Hquery Hop.
  unfold room_create, room_leave, room_destroy, room_invite, unless_user_is_bot,
    query_room, on, call, index.
  run. rewrite Hquery, !Hop. simpl.
  destruct (decide (mode be = "tox")); [done|]. simpl. rewrite Hop. simpl.
  rewrite <- !app_assoc. simpl.
  split; [done|]. split; [done|]. split; [done|].
  intros Hmore. destruct more; [done|]. simpl. by rewrite <- app_assoc.
Qed.

(** X18.  When the operation on the room raises [SlackAPIResponseError] with
    [user_is_bot], each of the four commands returns its "Unable to ..."
    reply with the help text; it does not raise. *)
Theorem room_commands_on_a_slack_bot_account room more w :
  mode be ≠ "tox" →
  query_room_raises be (Some room) = None →
  (∀ op, op_raises be (Some room) op = Some (SlackAPIResponseError "user_is_bot")) →
  fst (room_create be (room :: more) w)
    = Ok ("Unable to create rooms. " +:+ CorePlugins.SLACK_USER_IS_BOT_HELPTEXT) ∧
  fst (room_leave be (room :: more) w)
    = Ok ("Unable to leave rooms. " +:+ CorePlugins.SLACK_USER_IS_BOT_HELPTEXT) ∧
  fst (room_destroy be (room :: more) w)
    = Ok ("Unable to destroy rooms. " +:+ CorePlugins.SLACK_USER_IS_BOT_HELPTEXT) ∧
  (more ≠ [] →
   fst (room_invite be (room :: more) w)
     = Ok ("Unable to invite people into rooms. "
           +:+ CorePlugins.SLACK_USER_IS_BOT_HELPTEXT)).
Proof.
  intros Hmode Hquery Hop.
  unfold room_create, room_leave, room_destroy, room_invite, unless_user_is_bot,
    query_room, on, call, index.
  run. rewrite Hquery, !Hop. simpl.
  destruct (decide (mode be = "tox")); [done|]. simpl. rewrite Hop. simpl.
  split; [done|]. split; [done|]. split; [done|].
  intros Hmore. by destruct more.
Qed.

(** X19.  [room_create] looks the room up outside its handler: whatever
    [query_room] raises, [user_is_bot] of Slack included, leaves
    [room_create], and the room is not created.  [room_leave] and
    [room_destroy] look the room up inside the handler: they turn
    [user_is_bot] from [query_room] into their reply, and let any other
    exception out; the operation is not called either. *)
Theorem room_create_lets_query_room_raise room more e w :
  mode be ≠ "tox" →
  query_room_raises be (Some room) = Some e →
  room_create be (room :: more) w = (Raise e, w ++ [QueryRoom (Some room)]) ∧
  snd (room_leave be (room :: more) w) = w ++ [QueryRoom (Some room)] ∧
  snd (room_destroy be (room :: more) w) = w ++ [QueryRoom (Some room)] ∧
  (e = SlackAPIResponseError "user_is_bot" →
   fst (room_leave be (room :: more) w)
     = Ok ("Unable to leave rooms. " +:+ CorePlugins.SLACK_USER_IS_BOT_HELPTEXT) ∧
   fst (room_destroy be (room :: more) w)
     = Ok ("Unable to destroy rooms. " +:+ CorePlugins.SLACK_USER_IS_BOT_HELPTEXT)) ∧
  (e ≠ SlackAPIResponseError "user_is_bot" →
   fst (room_leave be (room :: more) w) = Raise e ∧
   fst (room_destroy be (room :: more) w) = Raise e).
Proof.
  intros Hmode Hquery.
  unfold room_create, room_leave, room_destroy, unless_user_is_bot,
    query_room, on, call, index.
  run. rewrite Hquery. simpl.
  destruct (decide (mode be = "tox")); [done|]. simpl.
  split; [done|].
  destruct e as [|error| | | | |]; simpl; try naive_solver.
  destruct (decide (error ≠ "user_is_bot")) as [Hne|Heq]; simpl.
  - naive_solver.
  - apply dec_stable in Heq as ->. naive_solver.
Qed.

End room_commands.

Section room_occupants.
Import Rooms.

Variable be : backend.

(** What [room_occupants] yields for one room whose occupants can be read,
    or that the bot has not joined. *)
Lemma occupants_of_readable rooms :
  (∀ room e, room ∈ rooms → occupants be room ≠ Fails e) →
  ∀ rest,
    occupants_of be (rooms ++ rest)
    = (((λ room,
           match occupants be room with
           | Gives persons =>
               "Occupants in " +:+ room +:+ ":" +:+ CorePlugins.nl +:+ tab
                 +:+ join (CorePlugins.nl +:+ tab) persons
           | NotJoined msg => "Cannot list occupants in " +:+ room +:+ ": " +:+ msg
           | Fails _ => ""
           end) <$> rooms) ++ fst (occupants_of be rest),
       snd (occupants_of be rest)).
Proof.
  intros Hread rest. induction rooms as [|room rooms IH].
  - simpl. by destruct (occupants_of be rest).
  - simpl. rewrite IH by (intros r e Hr; apply Hread; by right).
    destruct (occupants be room) as [persons|msg|e] eqn:Hroom; try done.
    exfalso. by eapply (Hread room e); [left|].
Qed.

(** X20.  [room_occupants] answers room by room, in the order of its arguments:
    a room the bot has not joined gets its own line and does not keep the
    rooms after it from being listed.  Any other exception ends the
    command there: the rooms before it have been answered for, the rooms
    after it are not. *)
Theorem room_occupants_answers_room_by_room rooms :
  (∀ room e, room ∈ rooms → occupants be room ≠ Fails e) →
  let answer_for room :=
    match occupants be room with
    | Gives persons =>
        "Occupants in " +:+ room +:+ ":" +:+ CorePlugins.nl +:+ tab
          +:+ join (CorePlugins.nl +:+ tab) persons
    | NotJoined msg => "Cannot list occupants in " +:+ room +:+ ": " +:+ msg
    | Fails _ => ""
    end in
  (rooms ≠ [] → room_occupants be rooms = (answer_for <$> rooms, None)) ∧
  (∀ room after e,
     occupants be room = Fails e →
     room_occupants be (rooms ++ room :: after) = (answer_for <$> rooms, Some e)).
Proof.
  intros Hread. cbv zeta. split.
  - intros Hrooms. unfold room_occupants.
    destruct rooms as [|room rooms]; [done|].
    change (length (room :: rooms) <? 1) with false. cbv iota.
    rewrite <- (app_nil_r (room :: rooms)) at 1.
    rewrite occupants_of_readable by done. simpl. by rewrite app_nil_r.
  - intros room after e Hfail. unfold room_occupants.
    replace (length (rooms ++ room :: after) <? 1) with false
      by (symmetry; apply Nat.ltb_ge; rewrite length_app; simpl; lia).
    rewrite occupants_of_readable by done. simpl. rewrite Hfail. simpl.
    by rewrite app_nil_r.
Qed.

End room_occupants.

Section gtalk_room_create.
Import Rooms.

Variable isspace : ascii → bool.

(** Appending a character to a string. *)
Lemma chars_snoc word c : chars (word +:+ String c "") = chars word ++ [c].
Proof. induction word as [|a word IH]; simpl; [done|]. by rewrite IH. Qed.

(** The words of [split] are not empty and hold no whitespace. *)
Lemma split_from_words s :
  ∀ word,
    (∀ c, c ∈ chars word → isspace c = false) →
    Forall (λ jid, jid ≠ "" ∧ ∀ c, c ∈ chars jid → isspace c = false)
           (split_from isspace word s).
Proof.
  induction s as [|a s IH]; intros word Hword; simpl.
  - destruct (decide (word = "")); [constructor|]. by repeat constructor.
  - destruct (isspace a) eqn:Ha.
    + apply Forall_app. split.
      * destruct (decide (word = "")); [constructor|]. by repeat constructor.
      * apply IH. intros c Hc. by apply elem_of_nil in Hc.
    + apply IH. intros c. rewrite chars_snoc, elem_of_app, list_elem_of_singleton.
      intros [Hc| ->]; [by apply Hword|done].
Qed.

(** Of a string of whitespace, [split] makes no word. *)
Lemma split_from_blank s :
  (∀ c, c ∈ chars s → isspace c = true) →
  split_from isspace "" s = [].
Proof.
  induction s as [|a s IH]; intros Hs; simpl; [done|].
  rewrite (Hs a) by (simpl; left). simpl.
  apply IH. intros c Hc. apply Hs. simpl. by right.
Qed.

(** [strip] leaves a string without whitespace as it is. *)
Lemma strip_word jid :
  (∀ c, c ∈ chars jid → isspace c = false) →
  strip isspace jid = jid.
Proof.
  intros Hjid. unfold strip.
  assert (lstrip isspace jid = jid) as ->.
  { destruct jid as [|a jid]; simpl; [done|]. by rewrite (Hjid a) by (simpl; left). }
  induction jid as [|a jid IH]; simpl; [done|].
  rewrite IH by (intros c Hc; apply Hjid; simpl; by right).
  destruct jid; [|done]. by rewrite (Hjid a) by (simpl; left).
Qed.

(** What [blank] and [word] say of the characters of a string. *)
Lemma blank_chars s : blank isspace s ↔ ∀ c, c ∈ chars s → isspace c = true.
Proof.
  unfold blank. induction s as [|a s IH]; simpl.
  - split; [|done]. intros _ c Hc. by apply elem_of_nil in Hc.
  - rewrite andb_True, IH. split.
    + intros [Ha Hs] c [->|Hc]%elem_of_cons; [by apply Is_true_eq_true|by apply Hs].
    + intros H. split; [apply Is_true_eq_left, H; by left|].
      intros c Hc. apply H. by right.
Qed.

Lemma word_chars s : word isspace s ↔ s ≠ "" ∧ ∀ c, c ∈ chars s → isspace c = false.
Proof.
  unfold word. rewrite andb_True, negb_True, bool_decide_spec.
  assert (forallb (λ c, negb (isspace c)) (chars s)
          ↔ ∀ c, c ∈ chars s → isspace c = false) as ->; [|done].
  induction s as [|a s IH]; simpl.
  - split; [|done]. intros _ c Hc. by apply elem_of_nil in Hc.
  - rewrite andb_True, IH, negb_True. split.
    + intros [Ha Hs] c [->|Hc]%elem_of_cons; [|by apply Hs].
      by destruct (isspace a).
    + intros H. split; [rewrite (H a) by (by left); tauto|].
      intros c Hc. apply H. by right.
Qed.

(** [split] goes over whitespace before a word, over a word, over the gap
    after a word, and over whitespace at the end. *)
Lemma split_from_lead lead rest :
  blank isspace lead →
  split_from isspace "" (lead +:+ rest) = split_from isspace "" rest.
Proof.
  rewrite blank_chars. induction lead as [|a lead IH]; intros Hlead; simpl; [done|].
  rewrite (Hlead a) by (by left). simpl. apply IH. intros c Hc. apply Hlead. by right.
Qed.

Lemma split_from_letters read letters rest :
  (∀ c, c ∈ chars letters → isspace c = false) →
  split_from isspace read (letters +:+ rest) = split_from isspace (read +:+ letters) rest.
Proof.
  revert read. induction letters as [|a letters IH]; intros read Hletters; simpl.
  - by rewrite app_empty_r.
  - rewrite (Hletters a) by (by left).
    rewrite IH by (intros c Hc; apply Hletters; by right).
    by rewrite app_assoc_str.
Qed.

Lemma split_from_gap read gap rest :
  read ≠ "" → gap ≠ "" → blank isspace gap →
  split_from isspace read (gap +:+ rest) = read :: split_from isspace "" rest.
Proof.
  intros Hread Hgap Hblank. destruct gap as [|a gap]; [done|].
  pose proof (proj1 (blank_chars _) Hblank) as Hchars. simpl.
  rewrite (Hchars a) by (by left).
  destruct (decide (read = "")); [done|]. simpl. f_equal.
  apply split_from_lead, blank_chars. intros c Hc. apply Hchars. by right.
Qed.

Lemma split_from_trail read trail :
  read ≠ "" → blank isspace trail → split_from isspace read trail = [read].
Proof.
  intros Hread Hblank. destruct (decide (trail = "")) as [->|Htrail].
  - simpl. by destruct (decide (read = "")).
  - rewrite <- (app_empty_r trail). by rewrite split_from_gap.
Qed.

(** The words of a text in which they are set apart by whitespace. *)
Lemma split_spaced lead first more trail :
  blank isspace lead →
  word isspace first →
  Forall (λ gap_word,
            gap_word.1 ≠ "" ∧ blank isspace gap_word.1 ∧ word isspace gap_word.2) more →
  blank isspace trail →
  split isspace (spaced lead first more trail) = first :: more.*2.
Proof.
  intros Hlead Hfirst Hmore Htrail. unfold split, spaced.
  rewrite split_from_lead by done.
  rewrite split_from_letters by (by apply word_chars). simpl.
  revert first Hfirst. induction Hmore as [|[gap next] more (Hgap & Hblank & Hnext) _ IH];
    intros first Hfirst; simpl in *.
  - apply split_from_trail; [|done]. by apply word_chars in Hfirst as [? _].
  - rewrite split_from_gap; [|by apply word_chars in Hfirst as [? _]|done..].
    f_equal. rewrite split_from_letters by (by apply word_chars). simpl. by apply IH.
Qed.

(** Every text is whitespace only, or words set apart by whitespace. *)
Lemma blank_or_spaced s :
  blank isspace s ∨
  ∃ lead first more trail,
    s = spaced lead first more trail ∧
    blank isspace lead ∧ word isspace first ∧
    Forall (λ gap_word,
              gap_word.1 ≠ "" ∧ blank isspace gap_word.1 ∧ word isspace gap_word.2) more ∧
    blank isspace trail.
Proof.
  induction s as [|a s IH]; [by left|].
  destruct (isspace a) eqn:Ha.
  - destruct IH as [Hblank|(lead & first & more & trail & -> & Hlead & Hrest)].
    + left. unfold blank in *. simpl. by rewrite Ha.
    + right. exists (String a lead), first, more, trail. split; [done|].
      split; [|done]. unfold blank in *. simpl. by rewrite Ha.
  - right. destruct IH as [Hblank|(lead & first & more & trail & -> & Hlead & Hfirst & Hrest)].
    + exists "", (String a ""), [], s. split; [done|]. split; [done|].
      split; [|by split]. unfold word. simpl. by rewrite Ha.
    + destruct (decide (lead = "")) as [->|Hne].
      * exists "", (String a first), more, trail. split; [done|]. split; [done|].
        split; [|done]. unfold word in *. simpl. rewrite Ha. simpl.
        by apply andb_True in Hfirst as [_ ?].
      * exists "", (String a ""), ((lead, first) :: more), trail.
        split; [done|]. split; [done|]. split; [unfold word; simpl; by rewrite Ha|].
        destruct Hrest as [Hmore Htrail]. split; [|done]. by constructor.
Qed.

(** X21.  [gtalk_room_create], when joining and inviting return, joins the
    room [private-chat-<uuid4>@groupchat.google.com], invites into it once,
    and answers with the name of the room.  With no argument at all it
    invites the requester, and only the requester.  With an argument made
    of words set apart by whitespace, with or without whitespace before the
    first and after the last, it invites these words, all of them and in
    order, and the requester only if listed.  With an argument that is not
    empty but holds whitespace only, it invites nobody.  Every argument is
    of one of these kinds. *)
Theorem gtalk_room_create_invites be uuid4 stripped args w :
  let room_name := "private-chat-" +:+ uuid4 +:+ "@groupchat.google.com" in
  join_room_raises be room_name = None →
  (∀ whom, invite_in_room_raises be room_name whom = None) →
  ∃ invited,
    gtalk_room_create isspace be uuid4 stripped args w
    = (Ok ("Room created (" +:+ room_name +:+ ")"),
       w ++ [CallJoinRoom room_name; CallInviteInRoom room_name invited]) ∧
    (args = "" → invited = [stripped]) ∧
    (args ≠ "" → blank isspace args → invited = []) ∧
    (∀ lead first more trail,
       args = spaced lead first more trail →
       blank isspace lead →
       word isspace first →
       Forall (λ gap_word,
                 gap_word.1 ≠ "" ∧ blank isspace gap_word.1 ∧ word isspace gap_word.2)
              more →
       blank isspace trail →
       invited = first :: more.*2) ∧
    (blank isspace args ∨
     ∃ lead first more trail,
       args = spaced lead first more trail ∧
       blank isspace lead ∧ word isspace first ∧
       Forall (λ gap_word,
                 gap_word.1 ≠ "" ∧ blank isspace gap_word.1 ∧ word isspace gap_word.2)
              more ∧
       blank isspace trail).
Proof.
  intros room_name Hjoin Hinvite.
  assert (strip isspace <$> split isspace args = split isspace args) as Hstrip.
  { unfold split.
    pose proof (split_from_words args "" (λ c Hc, False_ind _ (proj1 (elem_of_nil c) Hc)))
      as Hwords.
    induction Hwords as [|jid jids [_ Hjid] _ IH]; csimpl; [done|].
    by rewrite IH, strip_word. }
  exists (if decide (args = "") then [stripped] else split isspace args).
  split; [|split; [|split; [|split]]].
  - unfold gtalk_room_create, call. fold room_name. run.
    rewrite Hjoin, Hinvite. simpl. rewrite <- app_assoc. simpl.
    destruct (decide (args = "")); [done|]. by rewrite Hstrip.
  - intros ->. done.
  - intros Hargs Hblank. destruct (decide (args = "")); [done|].
    by apply split_from_blank, blank_chars.
  - intros lead first more trail -> Hlead Hfirst Hmore Htrail.
    destruct (decide (spaced lead first more trail = "")) as [Hempty|_].
    + exfalso. apply word_chars in Hfirst as [Hfirst _]. unfold spaced in Hempty.
      destruct lead; [|done]. by destruct first.
    + by apply split_spaced.
  - apply blank_or_spaced.
Qed.

End gtalk_room_create.

(** * The further properties at concrete inputs *)

(** X1 at: joining the test room of the template and leaving it, from no room. *)
Lemma join_then_leave_at_the_template :
  fst ((TestBackend.join_room TestBackend.template_BOT_IDENTITY Scenario.TEST_ROOM None None;;
        TestBackend.leave_room Scenario.TEST_ROOM) (TestBackend.mkWorld ∅ [])) = Ok tt ∧
  TestBackend.joined_rooms
    (snd ((TestBackend.join_room TestBackend.template_BOT_IDENTITY Scenario.TEST_ROOM None None;;
           TestBackend.leave_room Scenario.TEST_ROOM) (TestBackend.mkWorld ∅ [])))
  = ∅.
Proof.
  exact (join_then_leave_round_trip TestBackend.template_BOT_IDENTITY "err@localhost" eq_refl
           Scenario.TEST_ROOM None None (TestBackend.mkWorld ∅ []) eq_refl).
Defined.

(** X2 at: leaving and joining again a room that had two occupants and a topic. *)
Lemma leave_then_join_at_a_room_with_a_topic :
  let r := TestBackend.mkMUCRoom Scenario.TEST_ROOM ["err@localhost"; "gbin@localhost"]
             (Some "Err rocks!") in
  let w := TestBackend.mkWorld {[Scenario.TEST_ROOM := r]} [] in
  let again :=
    (TestBackend.leave_room Scenario.TEST_ROOM;;
     TestBackend.join_room TestBackend.template_BOT_IDENTITY Scenario.TEST_ROOM None None) w in
  fst again = Ok tt ∧
  TestBackend.joined_rooms (snd again)
    = <[Scenario.TEST_ROOM := TestRooms.fresh "err@localhost" Scenario.TEST_ROOM]>
        (TestBackend.joined_rooms w) ∧
  (r ≠ TestRooms.fresh "err@localhost" Scenario.TEST_ROOM →
   TestBackend.joined_rooms (snd again) ≠ TestBackend.joined_rooms w).
Proof.
  exact (leave_then_join_resets_the_room TestBackend.template_BOT_IDENTITY "err@localhost"
           eq_refl Scenario.TEST_ROOM None None
           (TestBackend.mkWorld
              {[Scenario.TEST_ROOM :=
                  TestBackend.mkMUCRoom Scenario.TEST_ROOM ["err@localhost"; "gbin@localhost"]
                    (Some "Err rocks!")]} [])
           (TestBackend.mkMUCRoom Scenario.TEST_ROOM ["err@localhost"; "gbin@localhost"]
              (Some "Err rocks!"))
           eq_refl).
Defined.

(** X3 at: two joins and two leaves, from no room. *)
Lemma joins_and_leaves_at_four_operations :
  let ops := [TestRooms.Join "dev" None None; TestRooms.Join "ops" None None;
              TestRooms.Leave "dev"; TestRooms.Leave "gone"] in
  let w := TestBackend.mkWorld ∅ [] in
  let after := snd (for_each ops (TestRooms.apply TestBackend.template_BOT_IDENTITY) w) in
  fst (for_each ops (TestRooms.apply TestBackend.template_BOT_IDENTITY) w) = Ok tt ∧
  dom (TestBackend.joined_rooms after)
    = foldl TestRooms.on_names (dom (TestBackend.joined_rooms w)) ops ∧
  (TestRooms.all_fresh "err@localhost" (TestBackend.joined_rooms w) →
   TestRooms.all_fresh "err@localhost" (TestBackend.joined_rooms after)).
Proof.
  exact (joins_and_leaves_behave_as_a_set TestBackend.template_BOT_IDENTITY "err@localhost"
           eq_refl
           [TestRooms.Join "dev" None None; TestRooms.Join "ops" None None;
            TestRooms.Leave "dev"; TestRooms.Leave "gone"]
           (TestBackend.mkWorld ∅ [])).
Defined.

(** X4 at: the rooms [b], [a] and [c], joined in this order. *)
Lemma leave_all_rooms_at_b_a_c :
  TestRooms.leave_all_rooms Stage.joined_b_a_c
  = (Ok tt,
     TestRooms.mkOrdered []
       [TestRooms.left_room "b"; TestRooms.left_room "a"; TestRooms.left_room "c"]).
Proof.
  exact (proj1 (leave_all_rooms_leaves_none Stage.joined_b_a_c)).
Defined.

(** X5 at: a message, a presence, the quit message and a late message in the
    queue. *)
Lemma serve_forever_at_a_queue_with_the_quit_message :
  TestLoop.serve_forever Stage.echo
    (TestLoop.mkWorld
       [(TestLoop.STZ_MSG, TestLoop.Text "!echo ready");
        (TestLoop.STZ_PRE, TestLoop.Presence "online");
        (TestLoop.STZ_MSG, TestLoop.Text TestLoop.QUIT_MESSAGE);
        (TestLoop.STZ_MSG, TestLoop.Text "late")] [] [] [])
  = (TestLoop.Returned,
     TestLoop.mkWorld
       [(TestLoop.STZ_MSG, TestLoop.Text "late")]
       ["!echo ready"]
       [TestLoop.ConnectCallback;
        TestLoop.CallbackMessage
          (TestLoop.mkMessage (TestLoop.Text "!echo ready") "gbin@localhost" "Err");
        TestLoop.CallbackPresence (TestLoop.Presence "online");
        TestLoop.DisconnectCallback; TestLoop.Shutdown]
       ([LogRecord INFO "Presence stanza received." [] false; TestLoop.stop_line]
          ++ TestLoop.finally_lines)).
Proof.
  refine (serve_forever_until_quit Stage.echo
            (TestLoop.mkWorld
               [(TestLoop.STZ_MSG, TestLoop.Text "!echo ready");
                (TestLoop.STZ_PRE, TestLoop.Presence "online");
                (TestLoop.STZ_MSG, TestLoop.Text TestLoop.QUIT_MESSAGE);
                (TestLoop.STZ_MSG, TestLoop.Text "late")] [] [] [])
            "gbin@localhost" []
            [(TestLoop.STZ_MSG, TestLoop.Text "!echo ready");
             (TestLoop.STZ_PRE, TestLoop.Presence "online")]
            TestLoop.STZ_MSG
            [(TestLoop.STZ_MSG, TestLoop.Text "late")]
            eq_refl eq_refl _ _).
  - repeat constructor.
  - repeat constructor.
Defined.

(** X6 at: a message, then the message whose handler raises, then a late one. *)
Lemma serve_forever_at_a_crashing_command :
  let served :=
    TestLoop.serve_forever Stage.echo
      (TestLoop.mkWorld
         [(TestLoop.STZ_MSG, TestLoop.Text "hello");
          (TestLoop.STZ_MSG, TestLoop.Text "!crash");
          (TestLoop.STZ_MSG, TestLoop.Text "late")] [] [] []) in
  fst served = TestLoop.Raised (TestLoop.Error (Exception "Kaboom!")) ∧
  TestLoop.incoming (snd served) = [(TestLoop.STZ_MSG, TestLoop.Text "late")] ∧
  TestLoop.events (snd served)
    = [TestLoop.ConnectCallback;
       TestLoop.CallbackMessage
         (TestLoop.mkMessage (TestLoop.Text "hello") "gbin@localhost" "Err");
       TestLoop.CallbackMessage
         (TestLoop.mkMessage (TestLoop.Text "!crash") "gbin@localhost" "Err");
       TestLoop.DisconnectCallback; TestLoop.Shutdown].
Proof.
  refine (serve_forever_when_a_callback_raises Stage.echo
            (TestLoop.mkWorld
               [(TestLoop.STZ_MSG, TestLoop.Text "hello");
                (TestLoop.STZ_MSG, TestLoop.Text "!crash");
                (TestLoop.STZ_MSG, TestLoop.Text "late")] [] [] [])
            "gbin@localhost" []
            [(TestLoop.STZ_MSG, TestLoop.Text "hello")]
            (TestLoop.STZ_MSG, TestLoop.Text "!crash")
            [(TestLoop.STZ_MSG, TestLoop.Text "late")]
            (TestLoop.Error (Exception "Kaboom!"))
            eq_refl eq_refl _ _ eq_refl eq_refl).
  - repeat constructor.
  - repeat constructor.
Defined.

(** X7 at: with no admin, and with the admin of the template and an empty queue. *)
Lemma serve_forever_with_and_without_an_admin :
  TestLoop.serve_forever Stage.no_admin (TestLoop.mkWorld [] [] [] [])
    = (TestLoop.Raised (TestLoop.Error (IndexError "tuple index out of range")),
       TestLoop.mkWorld [] [] [TestLoop.ConnectCallback] []) ∧
  TestLoop.incoming (snd (TestLoop.serve_forever Stage.echo (TestLoop.mkWorld [] [] [] [])))
    = [].
Proof.
  split.
  - exact (proj1 (serve_forever_ends_with_shutdown Stage.no_admin
                    (TestLoop.mkWorld [] [] [] [])) eq_refl).
  - refine (proj2 (serve_forever_ends_with_shutdown Stage.echo
                     (TestLoop.mkWorld [] [] [] [])) _).
    discriminate.
Defined.

(** X8 at: a body left in the outgoing queue; a stanza left in the incoming one. *)
Lemma zap_queues_at_one_message_left :
  TestLoop.zap_queues (TestLoop.mkWorld [] ["ready"] [] [])
    = (Ok tt, TestLoop.mkWorld [] [] [] [TestLoop.left_outgoing "ready"]) ∧
  TestLoop.zap_queues
    (TestLoop.mkWorld [(TestLoop.STZ_MSG, TestLoop.Text "late")] ["ready"] [] [])
    = (Raise (TypeError "not all arguments converted during string formatting"),
       TestLoop.mkWorld [] ["ready"] [] []).
Proof.
  split.
  - exact (proj1 (zap_queues_outgoing_and_incoming
                    (TestLoop.mkWorld [] ["ready"] [] [])) eq_refl).
  - exact (proj2 (zap_queues_outgoing_and_incoming
                    (TestLoop.mkWorld [(TestLoop.STZ_MSG, TestLoop.Text "late")]
                       ["ready"] [] []))
                 (TestLoop.STZ_MSG, TestLoop.Text "late") [] eq_refl).
Defined.

(** X9 at: connecting with the template configuration. *)
Lemma callback_connect_at_the_template :
  let connect :=
    CorePlugins.callback_connect Scenario.compat_str Scenario.template Bot.reliable
      Bot.initial in
  fst connect = Ok tt ∧
  Bot.connected (snd connect) = true ∧
  Bot.calls (snd connect) = [Bot.QueryRoomJoin Scenario.TEST_ROOM "bot" None].
Proof.
  refine (callback_connect_joins_every_room Scenario.compat_str Scenario.template Bot.reliable
            (λ r, eq_refl) (λ r p, eq_refl) Bot.initial eq_refl _).
  repeat constructor.
Defined.

(** X10 at: connecting, deactivating and connecting again with the template. *)
Lemma deactivate_at_the_template :
  let twice :=
    (CorePlugins.callback_connect Scenario.compat_str Scenario.template Bot.reliable;;
     CorePlugins.deactivate;;
     CorePlugins.callback_connect Scenario.compat_str Scenario.template Bot.reliable)
      Bot.initial in
  fst twice = Ok tt ∧
  Bot.connected (snd twice) = true ∧
  Bot.calls (snd twice)
    = [Bot.QueryRoomJoin Scenario.TEST_ROOM "bot" None;
       Bot.QueryRoomJoin Scenario.TEST_ROOM "bot" None].
Proof.
  refine (deactivate_lets_callback_connect_join_again Scenario.compat_str Scenario.template
            Bot.reliable (λ r, eq_refl) (λ r p, eq_refl) Bot.initial eq_refl _).
  repeat constructor.
Defined.

(** X11 at: the first version of the plugin, connecting with the template. *)
Lemma first_callback_connect_at_the_template :
  let connect := Builtins.callback_connect Scenario.template Bot.reliable Bot.initial in
  fst connect = Ok tt ∧
  Bot.connected (snd connect) = true ∧
  Bot.calls (snd connect)
    = [Bot.JoinRoom Scenario.TEST_ROOM "bot" None; Bot.BareSendPresence; Bot.TimerStart 10].
Proof.
  refine (first_callback_connect_joins_and_keeps_alive Scenario.template Bot.reliable
            [Scenario.TEST_ROOM] Bot.initial eq_refl eq_refl _ eq_refl).
  intros r _. reflexivity.
Defined.

(** X12 at: the first version of the plugin, when the heartbeat cannot be sent. *)
Lemma failed_heartbeat_at_the_template :
  let first := Builtins.callback_connect Scenario.template Stage.no_heartbeat Bot.initial in
  let second := Builtins.callback_connect Scenario.template Stage.no_heartbeat (snd first) in
  fst first = Raise (Exception "not connected") ∧
  Bot.calls (snd first) = [Bot.JoinRoom Scenario.TEST_ROOM "bot" None; Bot.BareSendPresence] ∧
  fst second = Ok tt ∧
  Bot.calls (snd second) = Bot.calls (snd first).
Proof.
  refine (proj2 (failed_heartbeat_ends_the_keep_alive Scenario.template Stage.no_heartbeat
                   [Scenario.TEST_ROOM] Bot.initial (Exception "not connected")
                   eq_refl eq_refl _ eq_refl)).
  intros r _. reflexivity.
Defined.

(** X13 at: a one-to-one message of the relayed user of the template. *)
Lemma callback_message_at_the_template_stays_as_connected :
  Bot.connected
    (snd (CorePlugins.callback_message Scenario.template Bot.reliable
            (CorePlugins.mkMessage "chat" (CorePlugins.Person "gbin@localhost") "hello")
            Bot.initial))
  = false.
Proof.
  exact (proj1 (callback_message_only_relays Scenario.template Bot.reliable
                  (CorePlugins.mkMessage "chat" (CorePlugins.Person "gbin@localhost") "hello")
                  Bot.initial)).
Defined.

(** X14 at: a group message in the test room, relayed back to a tuple of two
    users. *)
Lemma reverse_relay_to_a_tuple_of_two :
  (∃ e,
     CorePlugins.callback_message Scenario.two_users Bot.reliable
       (CorePlugins.mkMessage "groupchat"
          (CorePlugins.Occupant "nick" ("test" +:+ "@" +:+ "conference.localhost")) "hello")
       Bot.initial
     = (Ok tt, Bot.mkWorld false [] [Bot.crashed e])) ∧
  (∃ e,
     Builtins.callback_message Scenario.two_users Bot.reliable
       (Builtins.mkMessage "groupchat"
          (Builtins.mkJID "test" "conference.localhost" "nick") "hello")
       Bot.initial
     = (Ok tt, Bot.mkWorld false [] [Bot.crashed e])).
Proof.
  refine (reverse_relay_to_a_tuple_relays_nothing Scenario.two_users Bot.reliable
            ["gbin@localhost"; "admin@localhost"] "nick" "test" "conference.localhost"
            "hello" Bot.initial _ _).
  - vm_compute. reflexivity.
  - simpl. lia.
Defined.

(** X15 at: a group message in the test room, relayed back to a list of two
    users. *)
Lemma reverse_relay_to_a_list_of_two :
  let core :=
    CorePlugins.callback_message Stage.two_users_in_a_list Bot.reliable
      (CorePlugins.mkMessage "groupchat"
         (CorePlugins.Occupant "nick" ("test" +:+ "@" +:+ "conference.localhost")) "hello")
      Bot.initial in
  let builtins :=
    Builtins.callback_message Stage.two_users_in_a_list Bot.reliable
      (Builtins.mkMessage "groupchat"
         (Builtins.mkJID "test" "conference.localhost" "nick") "hello")
      Bot.initial in
  fst core = Ok tt ∧ fst builtins = Ok tt ∧
  Bot.calls (snd core)
    = [Bot.Send "gbin@localhost" "[nick] hello" CorePlugins.DEFAULT_MESSAGE_TYPE;
       Bot.Send "admin@localhost" "[nick] hello" CorePlugins.DEFAULT_MESSAGE_TYPE] ∧
  Bot.calls (snd builtins)
    = [Bot.Send "gbin@localhost" "[nick] hello" "chat";
       Bot.Send "admin@localhost" "[nick] hello" "chat"].
Proof.
  refine (reverse_relay_reaches_a_list_of_users Stage.two_users_in_a_list Bot.reliable
            (PyList ["gbin@localhost"; "admin@localhost"]) "nick" "test"
            "conference.localhost" "hello" Bot.initial _ _ _).
  - vm_compute. reflexivity.
  - left. eexists. reflexivity.
  - intros u message_type _. reflexivity.
Defined.

(** X16 at: the commands with no argument, and an invitation that names nobody. *)
Lemma room_commands_at_no_argument :
  (Rooms.room_leave Rooms.reliable [] []
     = (Ok "Please tell me which chatroom to leave.", []) ∧
   Rooms.room_destroy Rooms.reliable [] []
     = (Ok "Please tell me which chatroom to destroy.", [])) ∧
  Rooms.room_invite Rooms.reliable ["dev"] []
    = (Ok "Please tell me which person(s) to invite into which room.", []).
Proof.
  split.
  - exact (proj1 (proj2 (proj2 (room_commands_need_their_arguments Rooms.reliable [] [])))
             eq_refl).
  - refine (proj2 (proj2 (proj2 (room_commands_need_their_arguments Rooms.reliable
                                   ["dev"] []))) _).
    simpl. lia.
Defined.

(** X17 at: the four commands on the room [dev], with two persons after it. *)
Lemma room_commands_at_the_room_dev :
  Rooms.room_create Rooms.reliable ["dev"; "gbin"; "admin"] []
    = (Ok "Created the room dev",
       [Rooms.QueryRoom (Some "dev"); Rooms.RoomOp (Some "dev") Rooms.Create]) ∧
  Rooms.room_leave Rooms.reliable ["dev"; "gbin"; "admin"] []
    = (Ok "Left the room dev",
       [Rooms.QueryRoom (Some "dev"); Rooms.RoomOp (Some "dev") Rooms.Leave]) ∧
  Rooms.room_destroy Rooms.reliable ["dev"; "gbin"; "admin"] []
    = (Ok "Destroyed the room dev",
       [Rooms.QueryRoom (Some "dev"); Rooms.RoomOp (Some "dev") Rooms.Destroy]) ∧
  (["gbin"; "admin"] ≠ [] →
   Rooms.room_invite Rooms.reliable ["dev"; "gbin"; "admin"] []
     = (Ok "Invited gbin, admin into the room dev",
        [Rooms.QueryRoom (Some "dev");
         Rooms.RoomOp (Some "dev") (Rooms.Invite ["gbin"; "admin"])])).
Proof.
  refine (room_commands_act_on_the_named_room Rooms.reliable "dev" ["gbin"; "admin"] []
            _ eq_refl (λ op, eq_refl)).
  discriminate.
Defined.

(** X18 at: the commands on Slack with a bot account. *)
Lemma room_commands_at_a_slack_bot_account :
  fst (Rooms.room_create Rooms.slack_bot_account ["dev"; "gbin"] [])
    = Ok ("Unable to create rooms. " +:+ CorePlugins.SLACK_USER_IS_BOT_HELPTEXT) ∧
  fst (Rooms.room_leave Rooms.slack_bot_account ["dev"; "gbin"] [])
    = Ok ("Unable to leave rooms. " +:+ CorePlugins.SLACK_USER_IS_BOT_HELPTEXT) ∧
  fst (Rooms.room_destroy Rooms.slack_bot_account ["dev"; "gbin"] [])
    = Ok ("Unable to destroy rooms. " +:+ CorePlugins.SLACK_USER_IS_BOT_HELPTEXT) ∧
  (["gbin"] ≠ [] →
   fst (Rooms.room_invite Rooms.slack_bot_account ["dev"; "gbin"] [])
     = Ok ("Unable to invite people into rooms. "
           +:+ CorePlugins.SLACK_USER_IS_BOT_HELPTEXT)).
Proof.
  refine (room_commands_on_a_slack_bot_account Rooms.slack_bot_account "dev" ["gbin"] []
            _ eq_refl (λ op, eq_refl)).
  discriminate.
Defined.

(** X19 at: [room_create] when [query_room] itself answers [user_is_bot]. *)
Lemma room_create_at_a_query_room_that_raises :
  Rooms.room_create (Rooms.without_rooms (SlackAPIResponseError "user_is_bot")) ["dev"] []
    = (Raise (SlackAPIResponseError "user_is_bot"), [Rooms.QueryRoom (Some "dev")]).
Proof.
  refine (proj1 (room_create_lets_query_room_raise
                   (Rooms.without_rooms (SlackAPIResponseError "user_is_bot"))
                   "dev" [] (SlackAPIResponseError "user_is_bot") [] _ eq_refl)).
  discriminate.
Defined.

(** X20 at: the occupants of a joined room, of a room that is not joined, and of a
    room that cannot be looked up. *)
Lemma room_occupants_at_three_rooms :
  Rooms.room_occupants Stage.three_rooms ["dev"; "ops"; "gone"; "dev"]
    = (["Occupants in dev:" +:+ CorePlugins.nl +:+ Rooms.tab +:+ "gbin"
          +:+ CorePlugins.nl +:+ Rooms.tab +:+ "err";
        "Cannot list occupants in ops: not joined"],
       Some (Exception "no such room")).
Proof.
  refine (proj2 (room_occupants_answers_room_by_room Stage.three_rooms ["dev"; "ops"] _)
            "gone" ["dev"] (Exception "no such room") eq_refl).
  intros room e [->|[->|[]%elem_of_nil]%elem_of_cons]%elem_of_cons; discriminate.
Defined.

(** X21 at: [gtalk_room_create] with the two addresses of its example. *)
Lemma gtalk_room_create_at_two_addresses :
  Rooms.gtalk_room_create Rooms.ascii_isspace Rooms.reliable "1234" "gbin@localhost"
    "gbin@gootz.net toto@gootz.net" []
  = (Ok "Room created (private-chat-1234@groupchat.google.com)",
     [Rooms.CallJoinRoom "private-chat-1234@groupchat.google.com";
      Rooms.CallInviteInRoom "private-chat-1234@groupchat.google.com"
        ["gbin@gootz.net"; "toto@gootz.net"]]).
Proof.
  destruct (gtalk_room_create_invites Rooms.ascii_isspace Rooms.reliable "1234"
              "gbin@localhost" "gbin@gootz.net toto@gootz.net" [] eq_refl (λ whom, eq_refl))
    as (invited & Hrun & _ & _ & Hwords & _).
  rewrite Hrun.
  assert (invited = ["gbin@gootz.net"; "toto@gootz.net"]) as ->; [|reflexivity].
  refine (Hwords "" "gbin@gootz.net" [(" ", "toto@gootz.net")] "" eq_refl I I _ I).
  constructor; [|constructor].
  split; [discriminate|]. split; exact I.
Defined.
